(** * daniel-daily: the collection pipeline, embedded and verified

    The development follows the Python sources module by module:
    - [PyStr]            the [str] methods and [re.sub] calls the code relies on;
    - [Pathlib]          the [pathlib] operations on the paths the code builds;
    - [MarkdownStore]    src/storage/markdown_store.py, the content directory;
    - [Briefs]           src/storage/markdown_store.py, the briefs directory;
    - [BriefGenerator]   src/analysis/brief_generator.py;
    - [Deduplicator]     src/storage/deduplicator.py;
    - [SourceStateManager] src/state/source_state.py;
    - [Curation]         src/curation/{types,source_registry}.py;
    - [RSSFetcher]       src/collection/fetchers/{base,rss}_fetcher.py;
    - [Coordinator]      src/collection/coordinator.py.

    Python exceptions are explicit: a computation that may raise returns a
    [result]; [try_except] is the [try: ... except Exception:] block.
    Everything the code obtains from outside the process (the feed parser's
    answer, downloaded articles, clock readings, the JSON documents found on
    disk) is an explicit input.  The third-party formatting routines
    (PyYAML, [datetime.isoformat], [round]) are the fields of the class
    [PyLib]; theorems state the laws they need as hypotheses. *)

From stdpp Require Import base option list gmap strings pretty.
From Stdlib Require Import ZArith Ascii String Lia SpecFloat Sorted.

Set Warnings "-register-all,-clear-no-such-hyp".


Local Open Scope string_scope.
Local Open Scope list_scope.

(** ** Exceptions *)

(** An exception value: [type(e).__name__] and [str(e)].  Only instances of
    [Exception] are modelled. *)
Record exn := Exn { exn_type : string; exn_msg : string }.

Inductive result (A : Type) : Type :=
| Ok (a : A)
| Raise (e : exn).
Arguments Ok {A} a.
Arguments Raise {A} e.

#[global] Instance result_ret : MRet result := fun A a => Ok a.
#[global] Instance result_bind : MBind result := fun A B f m =>
  match m with
  | Ok a => f a
  | Raise e => Raise e
  end.

(** [try: body / except Exception as e: handler e] *)
Definition try_except {A} (body : result A) (handler : exn -> result A) : result A :=
  match body with
  | Ok a => Ok a
  | Raise e => handler e
  end.

(** [try: return body / except Exception: return fallback] *)
Definition catch_all {A} (body : result A) (fallback : A) : A :=
  match body with
  | Ok a => a
  | Raise _ => fallback
  end.

(** ** Python strings

    A [str] is modelled by a [string] whose characters are the code points
    0..255. *)
Module PyStr.

Definition code (c : ascii) : N := N_of_ascii c.

Definition between (lo hi : N) (c : ascii) : bool :=
  (lo <=? code c)%N && (code c <=? hi)%N.

(** [str.isspace] / the regex class [\s] *)
Definition isspace (c : ascii) : bool :=
  between 9 13 c || between 28 32 c || (code c =? 133)%N || (code c =? 160)%N.

(** the regex class [\w] *)
Definition isword (c : ascii) : bool :=
  between 48 57 c || between 65 90 c || (code c =? 95)%N || between 97 122 c
  || (code c =? 170)%N || between 178 179 c || (code c =? 181)%N
  || between 185 186 c || between 188 190 c || between 192 214 c
  || between 216 246 c || between 248 255 c.

Definition lower_char (c : ascii) : ascii :=
  if between 65 90 c || (between 192 222 c && negb (code c =? 215)%N)
  then ascii_of_N (code c + 32)
  else c.

Fixpoint map_chars (f : ascii -> ascii) (s : string) : string :=
  match s with
  | EmptyString => EmptyString
  | String c s' => String (f c) (map_chars f s')
  end.

Fixpoint filter_chars (p : ascii -> bool) (s : string) : string :=
  match s with
  | EmptyString => EmptyString
  | String c s' => if p c then String c (filter_chars p s') else filter_chars p s'
  end.

(** [s.lower()] *)
Definition lower (s : string) : string := map_chars lower_char s.

Definition len (s : string) : nat := String.length s.

(** [s[n:]] and [s[:n]] for [n >= 0] *)
Fixpoint drop (n : nat) (s : string) : string :=
  match n, s with
  | O, _ => s
  | S _, EmptyString => EmptyString
  | S n', String _ s' => drop n' s'
  end.

Fixpoint take (n : nat) (s : string) : string :=
  match n, s with
  | O, _ => EmptyString
  | S _, EmptyString => EmptyString
  | S n', String c s' => String c (take n' s')
  end.

(** [s[a:b]] for [0 <= a], [0 <= b] *)
Definition slice (a b : nat) (s : string) : string := take (b - a) (drop a s).

(** [s.startswith(p)] *)
Fixpoint startswith (p s : string) : bool :=
  match p, s with
  | EmptyString, _ => true
  | String _ _, EmptyString => false
  | String a p', String b s' => if Ascii.eqb a b then startswith p' s' else false
  end.

(** position of the first occurrence of [sub] in [s] *)
Fixpoint find_at (sub s : string) : option nat :=
  if startswith sub s then Some O
  else match s with
       | EmptyString => None
       | String _ s' => S <$> find_at sub s'
       end.

(** [s.find(sub, start)], -1 when there is no occurrence *)
Definition find (s sub : string) (start : nat) : Z :=
  if (len s <? start)%nat then (-1)%Z
  else match find_at sub (drop start s) with
       | Some i => Z.of_nat (start + i)
       | None => (-1)%Z
       end.

(** [sub in s] *)
Definition contains (sub s : string) : bool :=
  match find_at sub s with Some _ => true | None => false end.

Fixpoint lstrip_with (p : ascii -> bool) (s : string) : string :=
  match s with
  | EmptyString => EmptyString
  | String c s' => if p c then lstrip_with p s' else s
  end.

Fixpoint rstrip_with (p : ascii -> bool) (s : string) : string :=
  match s with
  | EmptyString => EmptyString
  | String c s' =>
      match rstrip_with p s' with
      | EmptyString => if p c then EmptyString else String c EmptyString
      | r => String c r
      end
  end.

Definition strip_with (p : ascii -> bool) (s : string) : string :=
  rstrip_with p (lstrip_with p s).

(** [s.strip()] *)
Definition strip (s : string) : string := strip_with isspace s.

Fixpoint mem_char (c : ascii) (chars : string) : bool :=
  match chars with
  | EmptyString => false
  | String d chars' => Ascii.eqb c d || mem_char c chars'
  end.

(** [s.strip(chars)] *)
Definition strip_chars (chars s : string) : string :=
  strip_with (fun c => mem_char c chars) s.

(** [s.split(sep)] for a one-character separator *)
Fixpoint split (sep : ascii) (s : string) : list string :=
  match s with
  | EmptyString => [EmptyString]
  | String c s' =>
      if Ascii.eqb c sep then EmptyString :: split sep s'
      else match split sep s' with
           | [] => [String c EmptyString]
           | w :: ws => String c w :: ws
           end
  end.

(** [s.endswith(suffix)] *)
Definition endswith (suffix s : string) : bool :=
  (len suffix <=? len s)%nat && String.eqb (drop (len s - len suffix) s) suffix.

(** [re.sub(cls+, "-", s)]: every maximal run of characters of the class
    [p] becomes one hyphen. *)
Fixpoint squeeze (p : ascii -> bool) (in_run : bool) (s : string) : string :=
  match s with
  | EmptyString => EmptyString
  | String c s' =>
      if p c then
        if in_run then squeeze p true s' else String "-" (squeeze p true s')
      else String c (squeeze p false s')
  end.

Definition is_hyphen (c : ascii) : bool := Ascii.eqb c "-".
Definition is_underscore (c : ascii) : bool := Ascii.eqb c "_".

(** [s.rfind(c)] for a character [c], [None] when there is no occurrence *)
Fixpoint rfind_char (c : ascii) (s : string) : option nat :=
  match s with
  | EmptyString => None
  | String d s' =>
      match rfind_char c s' with
      | Some i => Some (S i)
      | None => if Ascii.eqb d c then Some O else None
      end
  end.

(** [s.replace(old, "")] for a non-empty [old]: the occurrences are
    taken from the left and do not overlap; [skip] characters of an
    occurrence are still to be passed over. *)
Fixpoint remove_from (old : string) (skip : nat) (s : string) : string :=
  match s with
  | EmptyString => EmptyString
  | String c s' =>
      match skip with
      | S k => remove_from old k s'
      | O =>
          if startswith old s then remove_from old (len old - 1) s'
          else String c (remove_from old O s')
      end
  end.

Definition remove (old s : string) : string := remove_from old O s.

(** What [f.read()] returns for a file opened in text mode with these
    characters: a carriage return and a carriage return followed by a
    line feed are each read as one line feed.  [after_cr] tells that the
    character before was a carriage return. *)
Fixpoint translate_newlines (after_cr : bool) (s : string) : string :=
  match s with
  | EmptyString => EmptyString
  | String c s' =>
      if Ascii.eqb c "013" then String "010" (translate_newlines true s')
      else if Ascii.eqb c "010" then
        if after_cr then translate_newlines false s'
        else String "010" (translate_newlines false s')
      else String c (translate_newlines false s')
  end.

Definition universal_newlines (s : string) : string := translate_newlines false s.

End PyStr.

Definition newline : string := String "010" EmptyString.
Definition dquote : string := String "034" EmptyString.
Definition squote : string := "'".

(** ** Python values as the YAML loader returns them *)
Inductive pyobj : Type :=
| PNone
| PBool (b : bool)
| PInt (n : Z)
| PStr (s : string)
| PList (xs : list pyobj)
| PDict (kvs : list (string * pyobj)).

(** A [dict] with string keys, in insertion order. *)
Definition pydict := list (string * pyobj).

Fixpoint dict_get (k : string) (d : pydict) : option pyobj :=
  match d with
  | [] => None
  | (k', v) :: d' => if String.eqb k k' then Some v else dict_get k d'
  end.

(** [d[k] = v] *)
Fixpoint dict_set (k : string) (v : pyobj) (d : pydict) : pydict :=
  match d with
  | [] => [(k, v)]
  | (k', v') :: d' => if String.eqb k k' then (k, v) :: d' else (k', v') :: dict_set k v d'
  end.

(** [o[k]] *)
Definition getitem (o : pyobj) (k : string) : result pyobj :=
  match o with
  | PDict d =>
      match dict_get k d with
      | Some v => Ok v
      | None => Raise (Exn "KeyError" (squote +:+ k +:+ squote))
      end
  | PStr _ => Raise (Exn "TypeError" "string indices must be integers")
  | PList _ => Raise (Exn "TypeError" "list indices must be integers or slices, not str")
  | _ => Raise (Exn "TypeError" "object is not subscriptable")
  end.

(** [o.get(k)] *)
Definition get_method (o : pyobj) (k : string) : result pyobj :=
  match o with
  | PDict d => Ok (default PNone (dict_get k d))
  | _ => Raise (Exn "AttributeError" "object has no attribute 'get'")
  end.

(** ** Naive datetimes

    A naive [datetime] is its distance from [datetime.min]
    (0001-01-01T00:00:00) in microseconds; comparison is comparison of
    these numbers, and arithmetic raises [OverflowError] outside the
    representable range, as CPython does. *)
Definition datetime := Z.
Bind Scope Z_scope with datetime.

Module Datetime.
Definition us_per_day : Z := 86400 * 1000000.
(** [datetime.max] = 9999-12-31T23:59:59.999999; [date.max.toordinal()] is 3652059 *)
Definition max_value : Z := 3652059 * us_per_day - 1.

Definition in_range (d : Z) : bool := (0 <=? d)%Z && (d <=? max_value)%Z.

(** [timedelta(days=n)], in microseconds *)
Definition timedelta_days (n : Z) : result Z :=
  if (Z.abs n <=? 999999999)%Z then Ok (n * us_per_day)%Z
  else Raise (Exn "OverflowError" "days out of range for timedelta").

(** [d - td] *)
Definition sub (d : datetime) (td : Z) : result datetime :=
  if in_range (d - td) then Ok (d - td)%Z
  else Raise (Exn "OverflowError" "date value out of range").

(** [timedelta(hours=n)], in microseconds; its whole days are [n // 24] *)
Definition timedelta_hours (n : Z) : result Z :=
  if (Z.abs (n / 24) <=? 999999999)%Z then Ok (n * 3600 * 1000000)%Z
  else Raise (Exn "OverflowError" "days out of range for timedelta").
End Datetime.

(** ** Datetimes read from text

    [datetime.fromisoformat] returns a naive datetime, or, for a text
    with a UTC offset, an aware one: its wall-clock reading with the
    offset in microseconds.  Two naive datetimes are ordered by their
    readings, two aware ones by their instants (reading minus offset);
    ordering a naive and an aware one raises [TypeError]. *)
Inductive pydatetime :=
| Naive (t : datetime)
| Aware (t : datetime) (utcoffset : Z).

Module Aware.

Definition is_naive (d : pydatetime) : bool :=
  match d with Naive _ => true | Aware _ _ => false end.

Definition instant (d : pydatetime) : Z :=
  match d with
  | Naive t => t
  | Aware t utcoffset => (t - utcoffset)%Z
  end.

Definition mixed : exn :=
  Exn "TypeError" "can't compare offset-naive and offset-aware datetimes".

(** [a >= b] *)
Definition ge (a b : pydatetime) : result bool :=
  if Bool.eqb (is_naive a) (is_naive b) then Ok (instant b <=? instant a)%Z
  else Raise mixed.

(** [a < b] *)
Definition lt (a b : pydatetime) : result bool :=
  if Bool.eqb (is_naive a) (is_naive b) then Ok (instant a <? instant b)%Z
  else Raise mixed.

End Aware.

(** ** Third-party routines

    What the code calls in PyYAML, [datetime] and the built-ins, kept as
    they are used: [yaml_dump d] is
    [yaml.dump(d, default_flow_style=False, allow_unicode=True)],
    [strftime_ymd d] is [d.strftime("%Y-%m-%d")], [round2 x] is
    [round(x, 2)] on floats (IEEE 754 doubles, [spec_float]). *)
Definition pyfloat := spec_float.

Class PyLib := {
  yaml_dump : pydict -> string;
  yaml_safe_load : string -> result pyobj;
  isoformat : datetime -> string;
  fromisoformat : string -> result pydatetime;
  strftime_ymd : datetime -> string;
  round2 : pyfloat -> pyfloat;
}.

(** [list.sort(key=..., reverse=True)]: stable, largest key first. *)
Section SortDesc.
Context {A : Type} (key : A -> Z).

Fixpoint insert_desc (x : A) (l : list A) : list A :=
  match l with
  | [] => [x]
  | y :: l' => if (key x <? key y)%Z then y :: insert_desc x l' else x :: l
  end.

Definition sort_desc (l : list A) : list A := foldr insert_desc [] l.
End SortDesc.

(** ** pathlib

    A pure path as the list of its components, the root [/] being the
    first component of an absolute path; the operations the code calls
    on the paths it builds. *)
Module Pathlib.

(** [p.parent]: the root and the empty path are their own parents. *)
Definition parent (p : list string) : list string :=
  if bool_decide (p = ["/"]) then p else removelast p.

(** what is left of [p] after the components of [other] *)
Fixpoint strip (other p : list string) : option (list string) :=
  match other, p with
  | [], _ => Some p
  | o :: other', c :: p' => if String.eqb o c then strip other' p' else None
  | _ :: _, [] => None
  end.

(** [p.relative_to(other)] *)
Definition relative_to (p other : list string) : result (list string) :=
  match strip other p with
  | Some [] => Ok []
  | Some (c :: rest) =>
      if String.eqb c "/"
      then Raise (Exn "ValueError" "path is not in the subpath of the other")
      else Ok (c :: rest)
  | None => Raise (Exn "ValueError" "path is not in the subpath of the other")
  end.

(** [str(p)] *)
Definition str (p : list string) : string :=
  match p with
  | [] => "."
  | c :: rest => if String.eqb c "/" then "/" +:+ String.concat "/" rest
                 else String.concat "/" p
  end.

End Pathlib.

(** ** src/storage/markdown_store.py *)
Module MarkdownStore.

(** A [pathlib] path relative to the content directory, as its
    components; a path that left the directory through an absolute
    segment starts with the component [/]. *)
Definition path := list string.

Definition parts (s : string) : list string :=
  filter (fun c => c <> EmptyString /\ c <> ".") (PyStr.split "/" s).

(** [base / s] *)
Definition joinpath (base : path) (s : string) : path :=
  if PyStr.startswith "/" s then "/" :: parts s else base ++ parts s.

Record ContentFile := {
  id : pyobj;
  source_id : pyobj;
  source_name : pyobj;
  title : pyobj;
  url : pyobj;
  published_at : pydatetime;
  fetched_at : pydatetime;
  category : pyobj;
  author : pyobj;
  content : string;
  file_path : path;
}.

(** The arguments of one [store_content] call. *)
Record Content := {
  arg_content_id : string;
  arg_source_id : string;
  arg_source_name : string;
  arg_title : string;
  arg_url : string;
  arg_content : string;
  arg_published_at : datetime;
  arg_fetched_at : datetime;
  arg_category : string;
  arg_author : option string;
  arg_metadata : option pydict;
}.

(** The store: the files below [_content_dir], and a history variable
    [written] with the arguments of every [store_content] call so far,
    latest first (the Python object has no such field; it is what
    "has been stored" refers to). *)
Record t := {
  files : gmap path string;
  written : list Content;
}.

Definition _slugify (text : string) : string :=
  let slug := PyStr.lower text in
  let slug := PyStr.filter_chars
                (fun c => PyStr.isword c || PyStr.isspace c || PyStr.is_hyphen c) slug in
  let slug := PyStr.squeeze (fun c => PyStr.isspace c || PyStr.is_underscore c) false slug in
  let slug := PyStr.squeeze PyStr.is_hyphen false slug in
  PyStr.strip_chars "-" (PyStr.take 50 slug).

Definition opening : string := "---" +:+ newline.
Definition closing : string := "---" +:+ newline +:+ newline.

(** A file is seen by [_content_dir.rglob("*.md")] when it lies below the
    directory and its name ends in [.md]. *)
Definition below_content_dir (p : path) : Prop := ("/" ∉ p) /\ (".." ∉ p).

Definition is_md (p : path) : Prop :=
  match last p with
  | Some name => PyStr.endswith ".md" name = true
  | None => False
  end.

#[global] Instance is_md_dec p : Decision (is_md p) :=
  match last p as o
        return Decision (match o with
                         | Some name => PyStr.endswith ".md" name = true
                         | None => False
                         end)
  with
  | Some name => decide (PyStr.endswith ".md" name = true)
  | None => right (fun H : False => H)
  end.

Definition rglob_md (fs : gmap path string) : list (path * string) :=
  filter (fun pf => below_content_dir pf.1 /\ is_md pf.1) (map_to_list fs).

(** What a path of a directory tree leads to: a regular file with its
    characters, or a directory.  [rglob("*.md")] yields the directories
    with such a name as well as the files. *)
Inductive node :=
| File (chars : string)
| Directory.

Definition tree := gmap path node.

Definition rglob (content_dir : tree) : list (path * node) :=
  filter (fun pn => below_content_dir pn.1 /\ is_md pn.1) (map_to_list content_dir).



(** [results.sort(key=lambda x: x.published_at, reverse=True)]: the keys
    are compared with each other, which raises when a naive and an aware
    one are among them; equal keys keep their order. *)
Definition comparable (keys : list pydatetime) : bool :=
  forallb Aware.is_naive keys || forallb (fun d => negb (Aware.is_naive d)) keys.

Section WithLib.
Context {py : PyLib}.

Definition front_matter_of (c : Content) : pydict :=
  let front_matter :=
    [ ("id", PStr (arg_content_id c));
      ("source_id", PStr (arg_source_id c));
      ("source_name", PStr (arg_source_name c));
      ("title", PStr (arg_title c));
      ("url", PStr (arg_url c));
      ("published_at", PStr (isoformat (arg_published_at c)));
      ("fetched_at", PStr (isoformat (arg_fetched_at c)));
      ("category", PStr (arg_category c)) ] in
  let front_matter :=
    match arg_author c with
    | Some (String _ _ as a) => dict_set "author" (PStr a) front_matter
    | _ => front_matter
    end in
  match arg_metadata c with
  | Some ((_ :: _) as m) => dict_set "metadata" (PDict m) front_matter
  | _ => front_matter
  end.

Definition filename_of (c : Content) : string :=
  strftime_ymd (arg_published_at c) +:+ "-" +:+ _slugify (arg_title c) +:+ ".md".

Definition file_path_of (c : Content) : path :=
  joinpath (joinpath [] (arg_source_id c)) (filename_of c).

Definition md_content_of (c : Content) : string :=
  opening +:+ yaml_dump (front_matter_of c) +:+ closing +:+ arg_content c.

(** [store_content]: returns the path and the store after the write. *)
Definition store_content (c : Content) (st : t) : path * t :=
  let file_path := file_path_of c in
  (file_path,
   {| files := <[file_path := md_content_of c]> (files st);
      written := c :: written st |}).

Definition fromisoformat_obj (o : pyobj) : result pydatetime :=
  match o with
  | PStr s => fromisoformat s
  | _ => Raise (Exn "TypeError" "fromisoformat: argument must be str")
  end.

(** [_parse_content_file] on the file at [file_path] with the
    characters [chars]. *)
Definition _parse_content_file (file_path : path) (chars : string) : option ContentFile :=
  catch_all
    (let text := PyStr.universal_newlines chars in
     if negb (PyStr.startswith "---" text) then Ok None
     else
       let end_ := PyStr.find text "---" 3 in
       if (end_ <? 0)%Z then Ok None
       else
         let front_matter_str := PyStr.slice 3 (Z.to_nat end_) text in
         let content := PyStr.strip (PyStr.drop (Z.to_nat end_ + 3) text) in
         front_matter ← yaml_safe_load front_matter_str;
         id ← getitem front_matter "id";
         source_id ← getitem front_matter "source_id";
         source_name ← getitem front_matter "source_name";
         title ← getitem front_matter "title";
         url ← getitem front_matter "url";
         published_at ← getitem front_matter "published_at" ≫= fromisoformat_obj;
         fetched_at ← getitem front_matter "fetched_at" ≫= fromisoformat_obj;
         category ← getitem front_matter "category";
         author ← get_method front_matter "author";
         Ok (Some {| id := id; source_id := source_id; source_name := source_name;
                     title := title; url := url;
                     published_at := published_at; fetched_at := fetched_at;
                     category := category; author := author;
                     content := content; file_path := file_path |}))
    None.

Definition sort_by_published (results : list ContentFile) : result (list ContentFile) :=
  if comparable (published_at <$> results)
  then Ok (sort_desc (fun x => Aware.instant (published_at x)) results)
  else Raise Aware.mixed.

(** The loop of [get_content_since] over the paths [rglob] yields.  (A
    directory among them gives no record: [open] raises inside the [try]
    of [_parse_content_file].) *)
Fixpoint since_loop (since : pydatetime) (md_files : list (path * string))
    (results : list ContentFile) : result (list ContentFile) :=
  match md_files with
  | [] => Ok results
  | md_file :: rest =>
      match _parse_content_file md_file.1 md_file.2 with
      | Some content_file =>
          Aware.ge (fetched_at content_file) since ≫= fun keep : bool =>
          since_loop since rest (if keep then results ++ [content_file] else results)
      | None => since_loop since rest results
      end
  end.

Definition get_content_since (st : t) (since : pydatetime) : result (list ContentFile) :=
  results ← since_loop since (rglob_md (files st)) [];
  sort_by_published results.

(** A file is seen by [source_dir.glob("*.md")] when it lies directly in
    [source_dir] and its name ends in [.md]. *)
Definition in_dir_md (source_dir p : path) : bool :=
  match last p with
  | Some name => bool_decide (p = source_dir ++ [name]) && PyStr.endswith ".md" name
  | None => false
  end.

Definition glob_md (source_dir : path) (fs : gmap path string) : list (path * string) :=
  filter (fun pf => in_dir_md source_dir pf.1 = true) (map_to_list fs).

(** [get_content_by_source]; a directory that does not exist holds no
    file, so that the early [return []] needs no case of its own. *)
Definition get_content_by_source (st : t) (source_id : string)
    : result (list ContentFile) :=
  let source_dir := joinpath [] source_id in
  sort_by_published
    (omap (fun pf => _parse_content_file pf.1 pf.2) (glob_md source_dir (files st))).

(** The text of the file at [p], a path that starts with the components
    of [content_dir] when it leads into the content directory: a file of
    the store then, and what [elsewhere] holds otherwise. *)
Definition read_file (content_dir : path) (elsewhere : path -> option string) (st : t)
    (p : path) : option string :=
  match Pathlib.strip content_dir p with
  | Some rel => files st !! rel
  | None => elsewhere p
  end.

(** [get_content_by_path]; the record carries the path it was asked
    for, which starts from the parent of the content directory. *)
Definition get_content_by_path (content_dir : path) (elsewhere : path -> option string)
    (st : t) (relative_path : string) : option ContentFile :=
  let file_path := joinpath (Pathlib.parent content_dir) relative_path in
  match read_file content_dir elsewhere st file_path with
  | None => None
  | Some chars => _parse_content_file file_path chars
  end.

End WithLib.
End MarkdownStore.

(** ** src/storage/markdown_store.py: the briefs directory *)
Module Briefs.
Import MarkdownStore.

(** The arguments of one [store_brief] call; [arg_source_map] is the
    dictionary's items. *)
Record Brief := {
  arg_content : string;
  arg_generated_at : datetime;
  arg_window_from : datetime;
  arg_window_to : datetime;
  arg_sources_analyzed : Z;
  arg_model : string;
  arg_source_map : list (string * string);
}.

(** The files below [_briefs_dir], by their path relative to it. *)
Definition t := gmap path string.

(** [PurePath.stem] of a file name: the name without its last suffix. *)
Definition stem (name : string) : string :=
  match PyStr.rfind_char "." name with
  | Some i =>
      if (0 <? i)%nat && (i <? PyStr.len name - 1)%nat then PyStr.take i name else name
  | None => name
  end.

(** [_briefs_dir.glob("*-brief.md")], as file names with the files' text. *)
Definition brief_file (pf : path * string) : option (string * string) :=
  match pf.1 with
  | [name] => if PyStr.endswith "-brief.md" name then Some (name, pf.2) else None
  | _ => None
  end.

Definition glob_brief (fs : t) : list (string * string) :=
  omap brief_file (map_to_list fs).

(** [sorted(..., reverse=True)] on paths of one directory: by file name,
    greatest first. *)
Fixpoint insert_reverse (x : string * string) (l : list (string * string))
    : list (string * string) :=
  match l with
  | [] => [x]
  | y :: l' => if String.ltb x.1 y.1 then y :: insert_reverse x l' else x :: l
  end.

Definition sorted_reverse (l : list (string * string)) : list (string * string) :=
  foldr insert_reverse [] l.

Section WithLib.
Context {py : PyLib}.

Definition front_matter_of (b : Brief) : pydict :=
  [ ("generated_at", PStr (isoformat (arg_generated_at b)));
    ("content_window",
     PDict [ ("from", PStr (isoformat (arg_window_from b)));
             ("to", PStr (isoformat (arg_window_to b))) ]);
    ("sources_analyzed", PInt (arg_sources_analyzed b));
    ("model", PStr (arg_model b));
    ("source_map", PDict (List.map (fun kv => (kv.1, PStr kv.2)) (arg_source_map b))) ].

Definition filename_of (b : Brief) : string :=
  strftime_ymd (arg_generated_at b) +:+ "-brief.md".

Definition file_path_of (b : Brief) : path := joinpath [] (filename_of b).

Definition md_content_of (b : Brief) : string :=
  opening +:+ yaml_dump (front_matter_of b) +:+ closing +:+ arg_content b.

(** [store_brief]: returns the path and the directory after the write. *)
Definition store_brief (b : Brief) (fs : t) : path * t :=
  let file_path := file_path_of b in
  (file_path, <[file_path := md_content_of b]> fs).

(** [_parse_brief] on the file at [file_path] with the characters
    [chars]. *)
Definition _parse_brief (file_path : path) (chars : string)
    : option (pyobj * string * path) :=
  catch_all
    (let text := PyStr.universal_newlines chars in
     if negb (PyStr.startswith "---" text) then Ok None
     else
       let end_ := PyStr.find text "---" 3 in
       if (end_ <? 0)%Z then Ok None
       else
         let front_matter_str := PyStr.slice 3 (Z.to_nat end_) text in
         let content := PyStr.strip (PyStr.drop (Z.to_nat end_ + 3) text) in
         front_matter ← yaml_safe_load front_matter_str;
         Ok (Some (front_matter, content, file_path)))
    None.

Definition get_latest_brief (fs : t) : option (pyobj * string * path) :=
  match sorted_reverse (glob_brief fs) with
  | [] => None
  | (name, text) :: _ => _parse_brief [name] text
  end.

Definition get_brief_by_date (fs : t) (date_str : string)
    : option (pyobj * string * path) :=
  let file_path := joinpath [] (date_str +:+ "-brief.md") in
  match fs !! file_path with
  | None => None
  | Some text => _parse_brief file_path text
  end.

Definition list_briefs (fs : t) : list (string * path) :=
  (fun brief => (PyStr.remove "-brief" (stem brief.1), [brief.1]))
    <$> sorted_reverse (glob_brief fs).

End WithLib.
End Briefs.

(** ** src/analysis/brief_generator.py *)
Module BriefGenerator.
Import MarkdownStore.

(** What a run meets outside the repository: the clock, the LLM
    provider ([generate_completion system_prompt user_prompt max_tokens]),
    [repr] of a list or dictionary and [strftime("%Y-%m-%d %H:%M")]. *)
Record World := {
  utcnow : datetime;
  generate_completion : string -> string -> Z -> result string;
  repr : pyobj -> string;
  strftime_ymd_hm : pydatetime -> string;
}.

(** The generator with the store it reads ([_store], whose records
    carry their path relative to [_content_dir]) and the briefs directory
    it writes. *)
Record t := {
  _store : MarkdownStore.t;
  _content_dir : path;
  _briefs : Briefs.t;
  _system_prompt : string;
  _model : string;
  _max_tokens : Z;
  _content_window_hours : Z;
}.

(** [f"{o}"] *)
Definition format (w : World) (o : pyobj) : string :=
  match o with
  | PNone => "None"
  | PBool true => "True"
  | PBool false => "False"
  | PInt n => pretty n
  | PStr s => s
  | _ => repr w o
  end.

(** [d[k] = v] on the items of a dictionary *)
Fixpoint set_item {V : Type} (k : string) (v : V) (d : list (string * V))
    : list (string * V) :=
  match d with
  | [] => [(k, v)]
  | (k', v') :: d' =>
      if String.eqb k k' then (k, v) :: d' else (k', v') :: set_item k v d'
  end.

Definition ref_id_of (i : nat) : string := "ref" +:+ pretty i.

(** One iteration of the loop of [_build_prompt], on [lines] and
    [ref_map]. *)
Definition add_article (w : World)
    (acc : list string * list (string * ContentFile)) (numbered : nat * ContentFile)
    : list string * list (string * ContentFile) :=
  let '(i, cf) := numbered in
  let ref_id := ref_id_of i in
  (acc.1 ++ [ "---" +:+ newline;
              "Reference ID: " +:+ ref_id +:+ newline;
              "Title: " +:+ format w (title cf) +:+ newline;
              "Source: " +:+ format w (source_name cf) +:+ newline;
              "Published: " +:+ strftime_ymd_hm w (published_at cf) +:+ newline;
              "URL: " +:+ format w (url cf) +:+ newline;
              newline +:+ PyStr.take 2000 (content cf) +:+ newline ],
   set_item ref_id cf acc.2).

(** [_build_prompt]: the prompt and [ref_map] as the call leaves it. *)
Definition _build_prompt (w : World) (content_files : list ContentFile)
    (ref_map : list (string * ContentFile)) : string * list (string * ContentFile) :=
  let acc :=
    foldl (add_article w)
      (["Here are the articles to analyze:" +:+ newline], ref_map)
      (imap (fun i cf => (S i, cf)) content_files) in
  let lines :=
    acc.1 ++ [ "---" +:+ newline;
               newline +:+ "Please generate a daily brief based on these articles." ] in
  (String.concat newline lines, acc.2).

Fixpoint source_map_of (content_dir : path) (items : list (string * ContentFile))
    (source_map : list (string * string)) : result (list (string * string)) :=
  match items with
  | [] => Ok source_map
  | (ref_id, cf) :: rest =>
      let file_path := content_dir ++ file_path cf in
      relative_path ←
        Pathlib.relative_to file_path
          (Pathlib.parent (Pathlib.parent (Pathlib.parent file_path)));
      source_map_of content_dir rest
        (set_item ref_id (Pathlib.str relative_path) source_map)
  end.

Definition _build_source_map (content_dir : path) (ref_map : list (string * ContentFile))
    : result (list (string * string)) :=
  source_map_of content_dir ref_map [].

(** [hash(o)] does not raise *)
Definition hashable (o : pyobj) : bool :=
  match o with
  | PList _ | PDict _ => false
  | _ => true
  end.

Section WithLib.
Context {py : PyLib}.

(** [generate]: the path of the brief, if one was written, and the
    generator afterwards. *)
Definition generate (w : World) (dry_run : bool) (self : t) : result (option path * t) :=
  let now := utcnow w in
  window ← Datetime.timedelta_hours (_content_window_hours self);
  since ← Datetime.sub now window;
  content_files ← get_content_since (_store self) (Naive since);
  match content_files with
  | [] => Ok (None, self)
  | _ :: _ =>
      let built := _build_prompt w content_files [] in
      let user_prompt := built.1 in
      let ref_map := built.2 in
      if dry_run then
        if forallb (fun c => hashable (source_id c)) content_files
        then Ok (None, self)
        else Raise (Exn "TypeError" "unhashable type")
      else
        response ← generate_completion w (_system_prompt self) user_prompt (_max_tokens self);
        source_map ← _build_source_map (_content_dir self) ref_map;
        let stored :=
          Briefs.store_brief
            {| Briefs.arg_content := response;
               Briefs.arg_generated_at := now;
               Briefs.arg_window_from := since;
               Briefs.arg_window_to := now;
               Briefs.arg_sources_analyzed := Z.of_nat (List.length content_files);
               Briefs.arg_model := _model self;
               Briefs.arg_source_map := source_map |}
            (_briefs self) in
        Ok (Some stored.1,
            {| _store := _store self; _content_dir := _content_dir self;
               _briefs := stored.2; _system_prompt := _system_prompt self;
               _model := _model self; _max_tokens := _max_tokens self;
               _content_window_hours := _content_window_hours self |})
  end.

End WithLib.
End BriefGenerator.

(** ** src/storage/deduplicator.py *)
Module Deduplicator.

(** What is found at [_index_path]: no file, text that is not JSON, a
    JSON value that is not an object, or an object whose member [ids],
    when present, is a list of strings. *)
Inductive index_file :=
| Missing
| Unparsable
| NotAnObject
| Document (ids : option (list string)).

Record t := {
  _ids : gset string;
  _index_path : index_file;
}.

Definition path_exists (f : index_file) : bool :=
  match f with Missing => false | _ => true end.

(** [json.load(f)] followed by [data.get("ids", [])] *)
Definition json_load_ids (f : index_file) : result (list string) :=
  match f with
  | Missing => Raise (Exn "FileNotFoundError" "No such file or directory")
  | Unparsable => Raise (Exn "JSONDecodeError" "Expecting value")
  | NotAnObject => Raise (Exn "AttributeError" "object has no attribute 'get'")
  | Document ids => Ok (default [] ids)
  end.

Definition _load (self : t) : result t :=
  if path_exists (_index_path self) then
    ids ← json_load_ids (_index_path self);
    Ok {| _ids := list_to_set ids; _index_path := _index_path self |}
  else Ok self.

(** [Deduplicator(index_path)] *)
Definition init (f : index_file) : result t :=
  _load {| _ids := ∅; _index_path := f |}.

Definition _save (self : t) : t :=
  {| _ids := _ids self; _index_path := Document (Some (elements (_ids self))) |}.

Definition exists_ (self : t) (content_id : string) : bool :=
  bool_decide (content_id ∈ _ids self).

Definition add (self : t) (content_id : string) : t :=
  _save {| _ids := {[content_id]} ∪ _ids self; _index_path := _index_path self |}.

(** the inner [for line in front_matter.split(...)] with its [break] *)
Fixpoint first_id_line (lines : list string) : option string :=
  match lines with
  | [] => None
  | line :: rest =>
      if PyStr.startswith "id:" line
      then Some (PyStr.strip_chars squote
                   (PyStr.strip_chars dquote (PyStr.strip (PyStr.drop 3 line))))
      else first_id_line rest
  end.

(** The identifier [rebuild_from_files] takes from one file, if any. *)
Definition header_id (content : string) : option string :=
  if PyStr.startswith "---" content then
    let end_ := PyStr.find content "---" 3 in
    if (0 <? end_)%Z then
      let front_matter := PyStr.slice 3 (Z.to_nat end_) content in
      first_id_line (PyStr.split "010" front_matter)
    else None
  else None.

(** The body of the loop for a file that [f.read()] gives [content]. *)
Definition scan_file (acc : gset string * Z) (content : string) : gset string * Z :=
  match header_id content with
  | Some content_id => ({[content_id]} ∪ acc.1, (acc.2 + 1)%Z)
  | None => acc
  end.

(** The loop over what [rglob] yields: [open] raises on a directory,
    and nothing catches it. *)
Fixpoint scan (md_files : list (MarkdownStore.path * MarkdownStore.node))
    (acc : gset string * Z) : result (gset string * Z) :=
  match md_files with
  | [] => Ok acc
  | (_, MarkdownStore.Directory) :: _ =>
      Raise (Exn "IsADirectoryError" "[Errno 21] Is a directory")
  | (_, MarkdownStore.File chars) :: rest =>
      scan rest (scan_file acc (PyStr.universal_newlines chars))
  end.

Definition rebuild_from_files (self : t) (content_dir : MarkdownStore.tree)
  : result (Z * t) :=
  found ← scan (MarkdownStore.rglob content_dir) (∅, 0%Z);
  Ok (found.2, _save {| _ids := found.1; _index_path := _index_path self |}).

End Deduplicator.

(** ** src/state/source_state.py *)
Module SourceStateManager.

Record FetchHistoryEntry := {
  timestamp : string;
  success : bool;
  items_fetched : Z;
  error : option string;
  duration_seconds : pyfloat;
}.

Record SourceState := {
  source_id : string;
  last_fetch_attempt : option string;
  last_successful_fetch : option string;
  last_fetch_success : bool;
  last_error : option string;
  last_error_type : option string;
  items_fetched_last_run : Z;
  total_items_fetched : Z;
  consecutive_failures : Z;
  fetch_history : list FetchHistoryEntry;
}.

(** [SourceState(source_id=source_id)] *)
Definition new_state (source_id : string) : SourceState :=
  {| source_id := source_id;
     last_fetch_attempt := None; last_successful_fetch := None;
     last_fetch_success := false; last_error := None; last_error_type := None;
     items_fetched_last_run := 0; total_items_fetched := 0;
     consecutive_failures := 0; fetch_history := [] |}.

Definition MAX_HISTORY_ENTRIES : nat := 10.

(** What is found at [_state_file].  A JSON object is given by its
    members as the text lists them; each member either has the shape of a
    [SourceState] or makes its constructor raise. *)
Inductive state_file :=
| Missing
| Unparsable
| NotAnObject
| Document (entries : list (string * option SourceState)).

(** [d[k] = v] on the items of a dictionary: a key that is present keeps
    its place. *)
Fixpoint set_member {V : Type} (k : string) (v : V) (d : list (string * V))
    : list (string * V) :=
  match d with
  | [] => [(k, v)]
  | (k', v') :: d' =>
      if String.eqb k k' then (k, v) :: d' else (k', v') :: set_member k v d'
  end.

(** The dictionary [json.load] makes of an object: of the members with
    one name the last one counts, at the place of the first. *)
Definition json_object {V : Type} (members : list (string * V)) : list (string * V) :=
  foldl (fun d kv => set_member kv.1 kv.2 d) [] members.

Record t := {
  _states : gmap string SourceState;
  _state_file : state_file;
}.

Definition path_exists (f : state_file) : bool :=
  match f with Missing => false | _ => true end.

(** The statements of the [try] block, up to the first exception: the
    assignments to [_states] made before it stay. *)
Fixpoint load_entries (entries : list (string * option SourceState))
    (states : gmap string SourceState) : gmap string SourceState * option exn :=
  match entries with
  | [] => (states, None)
  | (sid, Some state) :: rest => load_entries rest (<[sid := state]> states)
  | (sid, None) :: _ => (states, Some (Exn "TypeError" "unexpected keyword argument"))
  end.

Definition try_block (self : t) : t * option exn :=
  let keep (r : gmap string SourceState * option exn) :=
    ({| _states := r.1; _state_file := _state_file self |}, r.2) in
  match _state_file self with
  | Missing => (self, Some (Exn "FileNotFoundError" "No such file or directory"))
  | Unparsable => (self, Some (Exn "JSONDecodeError" "Expecting value"))
  | NotAnObject => (self, Some (Exn "AttributeError" "object has no attribute 'items'"))
  | Document entries => keep (load_entries (json_object entries) (_states self))
  end.

Definition _load (self : t) : result t :=
  if negb (path_exists (_state_file self)) then Ok self
  else
    match try_block self with
    | (self', None) => Ok self'
    | (self', Some _) => Ok self'      (* except Exception: pass *)
    end.

(** [SourceStateManager(state_dir)] *)
Definition init (f : state_file) : result t :=
  _load {| _states := ∅; _state_file := f |}.

Definition _save (self : t) : t :=
  {| _states := _states self;
     _state_file := Document (prod_map id Some <$> map_to_list (_states self)) |}.

Definition get_state (self : t) (source_id : string) : option SourceState :=
  _states self !! source_id.

Section WithLib.
Context {py : PyLib}.

(** [datetime.utcnow().isoformat() + "Z"], for the clock reading [now] *)
Definition stamp (now : datetime) : string := isoformat now +:+ "Z".

Definition record_success (now : datetime) (source_id : string)
    (items_fetched : Z) (duration : pyfloat) (self : t) : t :=
  let state := default (new_state source_id) (_states self !! source_id) in
  let entry := {| timestamp := stamp now; success := true;
                  items_fetched := items_fetched; error := None;
                  duration_seconds := round2 duration |} in
  let state :=
    {| source_id := SourceStateManager.source_id state;
       last_fetch_attempt := Some (stamp now);
       last_successful_fetch := Some (stamp now);
       last_fetch_success := true;
       last_error := None;
       last_error_type := None;
       items_fetched_last_run := items_fetched;
       total_items_fetched := (total_items_fetched state + items_fetched)%Z;
       consecutive_failures := 0;
       fetch_history := take MAX_HISTORY_ENTRIES (entry :: fetch_history state) |} in
  _save {| _states := <[source_id := state]> (_states self);
           _state_file := _state_file self |}.

Definition record_failure (now : datetime) (source_id : string)
    (error : exn) (duration : pyfloat) (self : t) : t :=
  let state := default (new_state source_id) (_states self !! source_id) in
  let entry := {| timestamp := stamp now; success := false;
                  items_fetched := 0; error := Some (exn_msg error);
                  duration_seconds := round2 duration |} in
  let state :=
    {| source_id := SourceStateManager.source_id state;
       last_fetch_attempt := Some (stamp now);
       last_successful_fetch := last_successful_fetch state;
       last_fetch_success := false;
       last_error := Some (exn_msg error);
       last_error_type := Some (exn_type error);
       items_fetched_last_run := 0;
       total_items_fetched := total_items_fetched state;
       consecutive_failures := (consecutive_failures state + 1)%Z;
       fetch_history := take MAX_HISTORY_ENTRIES (entry :: fetch_history state) |} in
  _save {| _states := <[source_id := state]> (_states self);
           _state_file := _state_file self |}.

End WithLib.

Definition needs_attention (s : SourceState) : bool :=
  (0 <? consecutive_failures s)%Z || negb (last_fetch_success s).

(** [dict(self._states)] *)
Definition get_all_states (self : t) : gmap string SourceState := _states self.

(** The states are listed as the map enumerates them, not in the
    dictionary's insertion order. *)
Definition get_sources_needing_attention (self : t) : list SourceState :=
  filter (fun s => needs_attention s = true) (snd <$> map_to_list (_states self)).

End SourceStateManager.

(** ** src/curation/types.py, source_registry.py *)
Module Curation.

Inductive SourceType := RSS.

Definition value (t : SourceType) : string :=
  match t with RSS => "rss" end.

Record Source := {
  id : string;
  name : string;
  type : SourceType;
  url : string;
  category : string;
  enabled : bool;
}.

(** [SourceRegistry._sources], in the dictionary's order. *)
Definition SourceRegistry := list Source.

Definition get_source_by_id (reg : SourceRegistry) (source_id : string) : option Source :=
  List.find (fun s => String.eqb (id s) source_id) reg.

Definition get_enabled_sources (reg : SourceRegistry) : list Source :=
  List.filter enabled reg.

(** [d[s.id] = s]: a key that is present keeps its place in the order. *)
Fixpoint set_source (s : Source) (reg : SourceRegistry) : SourceRegistry :=
  match reg with
  | [] => [s]
  | s' :: reg' =>
      if String.eqb (id s') (id s) then s :: reg' else s' :: set_source s reg'
  end.

(** [{s.id: s for s in config.sources}], the dictionary [_load] builds
    from the validated configuration. *)
Definition of_sources (sources : list Source) : SourceRegistry :=
  foldl (fun reg s => set_source s reg) [] sources.

Definition get_all_sources (reg : SourceRegistry) : list Source := reg.

End Curation.

(** ** src/collection/fetchers/base_fetcher.py, rss_fetcher.py *)
Module RSSFetcher.

Record FetchResult := {
  id : string;
  source_id : string;
  title : string;
  content : string;
  url : string;
  published_at : datetime;
  fetched_at : datetime;
  author : option string;
  metadata : pydict;
}.

Record FetchOutcome := {
  success : bool;
  results : list FetchResult;
  error_message : option string;
  error_type : option string;
}.

(** One entry of a parsed feed.  A member is [None] when the key is
    absent.  [e_content] lists the [value] members of [entry.content];
    a [*_parsed] member holds what
    [datetime.fromtimestamp(mktime(...))] makes of the time tuple, which
    may raise. *)
Record Entry := {
  e_id : option string;
  e_link : option string;
  e_title : option string;
  e_content : option (list (option string));
  e_summary : option string;
  e_description : option string;
  e_published_parsed : option (result datetime);
  e_updated_parsed : option (result datetime);
  e_author : option string;
  e_tags : option (list (option string));
}.

Record Feed := {
  bozo : bool;
  bozo_exception : exn;
  entries : list Entry;
}.

(** The outside world of one [fetch]: what [feedparser.parse],
    [trafilatura.fetch_url] and [trafilatura.extract] answer, and the
    reading of [datetime.utcnow()]. *)
Record Net := {
  feedparser_parse : string -> result Feed;
  fetch_url : string -> result (option string);
  extract : string -> result (option string);
  utcnow : datetime;
}.

(** truth value of an optional string: [None] and the empty string are false *)
Definition truthy (o : option string) : bool :=
  match o with
  | Some (String _ _) => true
  | _ => false
  end.

(** [a or b] *)
Definition or_else (a b : option string) : option string :=
  if truthy a then a else b.

Definition _fetch_full_article (net : Net) (url : string) : option string :=
  catch_all
    (downloaded ← fetch_url net url;
     if truthy downloaded then extract net (default EmptyString downloaded)
     else Ok None)
    None.

Definition feed_content (entry : Entry) : string :=
  match e_content entry with
  | Some (first :: _) => default EmptyString first
  | _ =>
      match e_summary entry with
      | Some summary => summary
      | None => default EmptyString (e_description entry)
      end
  end.

Definition enrich (net : Net) (url content : string) : string :=
  if negb (String.eqb url EmptyString)
     && ((PyStr.len content <? 500)%nat || PyStr.contains "<a href=" content)
  then
    match _fetch_full_article net url with
    | Some full_article =>
        if truthy (Some full_article) && (PyStr.len content <? PyStr.len full_article)%nat
        then full_article else content
    | None => content
    end
  else content.

Definition entry_published (entry : Entry) (fetched_at : datetime) : result datetime :=
  match e_published_parsed entry with
  | Some converted => converted
  | None =>
      match e_updated_parsed entry with
      | Some converted => converted
      | None => Ok fetched_at
      end
  end.

Definition entry_tags (entry : Entry) : list pyobj :=
  PStr <$> omap (fun term => if truthy term then term else None)
                (default [] (e_tags entry)).

Definition _parse_entry (net : Net) (entry : Entry) (source : Curation.Source)
    (fetched_at : datetime) : option FetchResult :=
  catch_all
    (match or_else (or_else (e_id entry) (e_link entry)) (e_title entry) with
     | Some (String _ _ as entry_id) =>
         let title := default "Untitled" (e_title entry) in
         let url := default EmptyString (e_link entry) in
         let content := enrich net url (feed_content entry) in
         published_at ← entry_published entry fetched_at;
         Ok (Some {| id := entry_id; source_id := Curation.id source;
                     title := title; content := content; url := url;
                     published_at := published_at; fetched_at := fetched_at;
                     author := e_author entry;
                     metadata := [("tags", PList (entry_tags entry))] |})
     | _ => Ok None
     end)
    None.

Definition failure (e : exn) : FetchOutcome :=
  {| success := false; results := [];
     error_message := Some (exn_msg e); error_type := Some (exn_type e) |}.

Definition fetch (net : Net) (source : Curation.Source) : result FetchOutcome :=
  try_except
    (feed ← feedparser_parse net (Curation.url source);
     if bozo feed && bool_decide (entries feed = [])
     then Ok (failure (bozo_exception feed))
     else
       let fetched_at := utcnow net in
       let results :=
         omap (fun entry => _parse_entry net entry source fetched_at) (entries feed) in
       Ok {| success := true; results := results;
             error_message := None; error_type := None |})
    (fun e => Ok (failure e)).

End RSSFetcher.

(** ** src/collection/coordinator.py *)
Module Coordinator.

Record CollectionStats := {
  sources_processed : Z;
  items_fetched : Z;
  items_stored : Z;
  items_skipped_duplicate : Z;
  errors : Z;
}.

(** [CollectionStats()] *)
Definition no_stats : CollectionStats :=
  {| sources_processed := 0; items_fetched := 0; items_stored := 0;
     items_skipped_duplicate := 0; errors := 0 |}.

Record t := {
  _registry : Curation.SourceRegistry;
  _state : SourceStateManager.t;
  _store : MarkdownStore.t;
  _dedup : Deduplicator.t;
  _max_age_days : Z;
}.

Definition fetcher := RSSFetcher.Net -> Curation.Source -> result RSSFetcher.FetchOutcome.

(** [self._fetchers], keyed by [SourceType] value *)
Definition _fetchers : list (string * fetcher) := [("rss", RSSFetcher.fetch)].

Definition get_fetcher (type_value : string) : option fetcher :=
  snd <$> List.find (fun kv => String.eqb kv.1 type_value) _fetchers.

(** The outside world of one [collect_source] call: the network, the
    measured [duration], and the two later readings of
    [datetime.utcnow()] (for the cutoff, and inside [record_success] or
    [record_failure]). *)
Record Env := {
  net : RSSFetcher.Net;
  duration : pyfloat;
  utcnow_cutoff : datetime;
  utcnow_record : datetime;
}.

(** What the [for result in outcome.results] loop changes. *)
Record loop_state := {
  stats : CollectionStats;
  items_stored_local : Z;
  store : MarkdownStore.t;
  dedup : Deduplicator.t;
}.

Definition count_fetched (s : CollectionStats) : CollectionStats :=
  {| sources_processed := sources_processed s; items_fetched := items_fetched s + 1;
     items_stored := items_stored s;
     items_skipped_duplicate := items_skipped_duplicate s; errors := errors s |}.

Definition count_skipped (s : CollectionStats) : CollectionStats :=
  {| sources_processed := sources_processed s; items_fetched := items_fetched s;
     items_stored := items_stored s;
     items_skipped_duplicate := items_skipped_duplicate s + 1; errors := errors s |}.

Definition count_stored (s : CollectionStats) : CollectionStats :=
  {| sources_processed := sources_processed s; items_fetched := items_fetched s;
     items_stored := items_stored s + 1;
     items_skipped_duplicate := items_skipped_duplicate s; errors := errors s |}.

Definition with_error (s : CollectionStats) : CollectionStats :=
  {| sources_processed := sources_processed s; items_fetched := items_fetched s;
     items_stored := items_stored s;
     items_skipped_duplicate := items_skipped_duplicate s; errors := 1 |}.

(** the keyword arguments of the [store_content] call *)
Definition content_of (reg : Curation.SourceRegistry) (source : Curation.Source)
    (result : RSSFetcher.FetchResult) : MarkdownStore.Content :=
  let source_name :=
    match Curation.get_source_by_id reg (RSSFetcher.source_id result) with
    | Some source_obj => Curation.name source_obj
    | None => RSSFetcher.source_id result
    end in
  {| MarkdownStore.arg_content_id := RSSFetcher.id result;
     MarkdownStore.arg_source_id := RSSFetcher.source_id result;
     MarkdownStore.arg_source_name := source_name;
     MarkdownStore.arg_title := RSSFetcher.title result;
     MarkdownStore.arg_url := RSSFetcher.url result;
     MarkdownStore.arg_content := RSSFetcher.content result;
     MarkdownStore.arg_published_at := RSSFetcher.published_at result;
     MarkdownStore.arg_fetched_at := RSSFetcher.fetched_at result;
     MarkdownStore.arg_category := Curation.category source;
     MarkdownStore.arg_author := RSSFetcher.author result;
     MarkdownStore.arg_metadata := Some (RSSFetcher.metadata result) |}.

(** [datetime.utcnow() - timedelta(days=self._max_age_days)], for the
    clock reading [now] *)
Definition cutoff_of (now : datetime) (max_age_days : Z) : result datetime :=
  delta ← Datetime.timedelta_days max_age_days;
  Datetime.sub now delta.

Section WithLib.
Context {py : PyLib}.

(** One iteration of the loop over [outcome.results]. *)
Definition collect_item (reg : Curation.SourceRegistry) (source : Curation.Source)
    (force : bool) (cutoff : datetime)
    (s : loop_state) (result : RSSFetcher.FetchResult) : loop_state :=
  let stats1 := count_fetched (stats s) in
  if (RSSFetcher.published_at result <? cutoff)%Z then
    {| stats := stats1; items_stored_local := items_stored_local s;
       store := store s; dedup := dedup s |}
  else if negb force && Deduplicator.exists_ (dedup s) (RSSFetcher.id result) then
    {| stats := count_skipped stats1; items_stored_local := items_stored_local s;
       store := store s; dedup := dedup s |}
  else
    {| stats := count_stored stats1;
       items_stored_local := items_stored_local s + 1;
       store := (MarkdownStore.store_content (content_of reg source result) (store s)).2;
       dedup := Deduplicator.add (dedup s) (RSSFetcher.id result) |}.

Definition collect_items (reg : Curation.SourceRegistry) (source : Curation.Source)
    (force : bool) (cutoff : datetime)
    (s : loop_state) (results : list RSSFetcher.FetchResult) : loop_state :=
  foldl (collect_item reg source force cutoff) s results.

Definition collect_source (env : Env) (source : Curation.Source) (force : bool)
    (self : t) : result (CollectionStats * t) :=
  let stats0 :=
    {| sources_processed := 1; items_fetched := 0; items_stored := 0;
       items_skipped_duplicate := 0; errors := 0 |} in
  match get_fetcher (Curation.value (Curation.type source)) with
  | None => Ok (with_error stats0, self)
  | Some fetch =>
      outcome ← fetch (net env) source;
      if negb (RSSFetcher.success outcome) then
        let message :=
          if RSSFetcher.truthy (RSSFetcher.error_message outcome)
          then default EmptyString (RSSFetcher.error_message outcome)
          else "Unknown error" in
        Ok (with_error stats0,
            {| _registry := _registry self;
               _state := SourceStateManager.record_failure (utcnow_record env)
                           (Curation.id source) (Exn "Exception" message)
                           (duration env) (_state self);
               _store := _store self; _dedup := _dedup self;
               _max_age_days := _max_age_days self |})
      else
        cutoff ← cutoff_of (utcnow_cutoff env) (_max_age_days self);
        let s := collect_items (_registry self) source force cutoff
                   {| stats := stats0; items_stored_local := 0;
                      store := _store self; dedup := _dedup self |}
                   (RSSFetcher.results outcome) in
        Ok (stats s,
            {| _registry := _registry self;
               _state := SourceStateManager.record_success (utcnow_record env)
                           (Curation.id source) (items_stored_local s)
                           (duration env) (_state self);
               _store := store s; _dedup := dedup s;
               _max_age_days := _max_age_days self |})
  end.

Definition add_stats (stats source_stats : CollectionStats) : CollectionStats :=
  {| sources_processed := sources_processed stats + 1;
     items_fetched := items_fetched stats + items_fetched source_stats;
     items_stored := items_stored stats + items_stored source_stats;
     items_skipped_duplicate :=
       items_skipped_duplicate stats + items_skipped_duplicate source_stats;
     errors := errors stats + errors source_stats |}.

(** The loop of [collect_all]; [envs] gives each source, by id, the
    outside world its [collect_source] call meets. *)
Fixpoint collect_each (envs : string -> Env) (force : bool)
    (sources : list Curation.Source) (stats : CollectionStats) (self : t)
    : result (CollectionStats * t) :=
  match sources with
  | [] => Ok (stats, self)
  | source :: rest =>
      r ← collect_source (envs (Curation.id source)) source force self;
      collect_each envs force rest (add_stats stats r.1) r.2
  end.

Definition collect_all (envs : string -> Env) (force : bool) (self : t)
    : result (CollectionStats * t) :=
  collect_each envs force (Curation.get_enabled_sources (_registry self)) no_stats self.

Definition collect_by_id (envs : string -> Env) (source_id : string) (force : bool)
    (self : t) : result (option CollectionStats * t) :=
  match Curation.get_source_by_id (_registry self) source_id with
  | None => Ok (None, self)
  | Some source =>
      r ← collect_source (envs source_id) source force self;
      Ok (Some r.1, r.2)
  end.

End WithLib.
End Coordinator.

(** ** A reference instance of [PyLib]

    A small implementation of the interface, used to run the model on
    concrete inputs: block-style [key: value] lines for the header, the
    proleptic Gregorian calendar for timestamps.  It covers plain
    one-line strings only and is not PyYAML. *)
Module Reference.
Local Open Scope Z_scope.

Definition digit (n : Z) : ascii := ascii_of_N (48 + Z.to_N (n mod 10)).

(** the [w] low decimal digits of [n], most significant first *)
Fixpoint digits (w : nat) (n : Z) : string :=
  match w with
  | O => EmptyString
  | S w' => digits w' (n / 10) +:+ String (digit n) EmptyString
  end.

Fixpoint number_from (acc : Z) (s : string) : option Z :=
  match s with
  | EmptyString => Some acc
  | String c s' =>
      if PyStr.between 48 57 c
      then number_from (10 * acc + Z.of_N (PyStr.code c) - 48) s'
      else None
  end.

Definition number (s : string) : option Z :=
  match s with
  | EmptyString => None
  | _ => number_from 0 s
  end.

(** day number (0 = 0001-01-01) to year, month, day *)
Definition civil_of_days (day : Z) : Z * Z * Z :=
  let z := day + 306 in
  let era := z / 146097 in
  let doe := z mod 146097 in
  let yoe := (doe - doe / 1460 + doe / 36524 - doe / 146096) / 365 in
  let doy := doe - (365 * yoe + yoe / 4 - yoe / 100) in
  let mp := (5 * doy + 2) / 153 in
  let d := doy - (153 * mp + 2) / 5 + 1 in
  let m := if mp <? 10 then mp + 3 else mp - 9 in
  let y := yoe + era * 400 + (if m <=? 2 then 1 else 0) in
  (y, m, d).

Definition days_of_civil (y m d : Z) : Z :=
  let y := if m <=? 2 then y - 1 else y in
  let era := y / 400 in
  let yoe := y - era * 400 in
  let doy := (153 * (if 2 <? m then m - 3 else m + 9) + 2) / 5 + d - 1 in
  let doe := yoe * 365 + yoe / 4 - yoe / 100 + doy in
  era * 146097 + doe - 306.

Definition isoformat (t : datetime) : string :=
  let '(y, m, d) := civil_of_days (t / Datetime.us_per_day) in
  let us := t mod Datetime.us_per_day in
  let secs := us / 1000000 in
  digits 4 y +:+ "-" +:+ digits 2 m +:+ "-" +:+ digits 2 d +:+ "T"
  +:+ digits 2 (secs / 3600) +:+ ":" +:+ digits 2 (secs / 60 mod 60) +:+ ":"
  +:+ digits 2 (secs mod 60)
  +:+ (if us mod 1000000 =? 0 then EmptyString else "." +:+ digits 6 (us mod 1000000)).

Definition strftime_ymd (t : datetime) : string := PyStr.take 10 (isoformat t).

Definition field (a b : nat) (s : string) : option Z := number (PyStr.slice a b s).

Definition naive_of (s : string) : result datetime :=
  let bad := Raise (Exn "ValueError" ("Invalid isoformat string: " +:+ s)) in
  let separators :=
    String.eqb (PyStr.slice 4 5 s) "-" && String.eqb (PyStr.slice 7 8 s) "-"
    && String.eqb (PyStr.slice 10 11 s) "T" && String.eqb (PyStr.slice 13 14 s) ":"
    && String.eqb (PyStr.slice 16 17 s) ":" in
  let fraction :=
    if (PyStr.len s =? 19)%nat then Some 0
    else if (PyStr.len s =? 26)%nat && String.eqb (PyStr.slice 19 20 s) "."
         then field 20 26 s else None in
  match field 0 4 s, field 5 7 s, field 8 10 s,
        field 11 13 s, field 14 16 s, field 17 19 s, fraction with
  | Some y, Some m, Some d, Some hh, Some mm, Some ss, Some us =>
      if separators then
        Ok ((days_of_civil y m d * 86400 + hh * 3600 + mm * 60 + ss) * 1000000 + us)
      else bad
  | _, _, _, _, _, _, _ => bad
  end.

(** the offset [+HH:MM] or [-HH:MM], in microseconds *)
Definition offset_of (suffix : string) : option Z :=
  match field 1 3 suffix, field 4 6 suffix with
  | Some hh, Some mm =>
      let us := (hh * 3600 + mm * 60) * 1000000 in
      if negb (String.eqb (PyStr.slice 3 4 suffix) ":") then None
      else if String.eqb (PyStr.slice 0 1 suffix) "+" then Some us
      else if String.eqb (PyStr.slice 0 1 suffix) "-" then Some (- us)
      else None
  | _, _ => None
  end.

Definition fromisoformat (s : string) : result pydatetime :=
  let n := PyStr.len s in
  if (n =? 25)%nat || (n =? 32)%nat then
    match offset_of (PyStr.drop (n - 6) s) with
    | Some utcoffset =>
        t ← naive_of (PyStr.take (n - 6) s);
        Ok (Aware t utcoffset)
    | None => Raise (Exn "ValueError" ("Invalid isoformat string: " +:+ s))
    end
  else
    t ← naive_of s;
    Ok (Naive t).

Definition dump_item (o : pyobj) : string :=
  match o with
  | PStr s => "  - " +:+ s +:+ newline
  | _ => "  - ~" +:+ newline
  end.

Definition dump_nested (kv : string * pyobj) : string :=
  match kv.2 with
  | PStr s => "  " +:+ kv.1 +:+ ": " +:+ s +:+ newline
  | PList xs => "  " +:+ kv.1 +:+ ":" +:+ newline +:+ String.concat EmptyString (dump_item <$> xs)
  | _ => "  " +:+ kv.1 +:+ ": ~" +:+ newline
  end.

Definition dump_member (kv : string * pyobj) : string :=
  match kv.2 with
  | PStr s => kv.1 +:+ ": " +:+ s +:+ newline
  | PDict m => kv.1 +:+ ":" +:+ newline +:+ String.concat EmptyString (dump_nested <$> m)
  | _ => kv.1 +:+ ": ~" +:+ newline
  end.

Definition yaml_dump (d : pydict) : string :=
  String.concat EmptyString (dump_member <$> d).

(** a scalar between single quotes stands for the text between them *)
Definition unquote (s : string) : string :=
  if PyStr.startswith squote s && PyStr.endswith squote s && (2 <=? PyStr.len s)%nat
  then PyStr.slice 1 (PyStr.len s - 1) s
  else s.

(** a top-level [key: value] line; indented and other lines are passed over *)
Definition load_line (line : string) : option (string * pyobj) :=
  if PyStr.startswith " " line then None
  else match PyStr.find_at ": " line with
       | Some i => Some (PyStr.take i line, PStr (unquote (PyStr.drop (i + 2)%nat line)))
       | None => None
       end.

Definition yaml_safe_load (s : string) : result pyobj :=
  match omap load_line (PyStr.split "010" s) with
  | [] => Ok PNone
  | members => Ok (PDict members)
  end.

#[global] Instance lib : PyLib :=
  Build_PyLib yaml_dump yaml_safe_load isoformat fromisoformat strftime_ymd (fun x => x).

End Reference.

(** ** Vocabulary of the properties *)

(** One recorded fetch attempt: the arguments of a [record_success] or
    [record_failure] call together with the clock reading it makes. *)
Inductive attempt :=
| Succeeded (now : datetime) (items_fetched : Z) (duration : pyfloat)
| Failed (now : datetime) (error : exn) (duration : pyfloat).

Definition nonnegative_count (a : attempt) : Prop :=
  match a with
  | Succeeded _ items_fetched _ => (0 <= items_fetched)%Z
  | Failed _ _ _ => True
  end.

Section Recording.
Context {py : PyLib}.

Definition record (sid : string) (self : SourceStateManager.t) (a : attempt)
  : SourceStateManager.t :=
  match a with
  | Succeeded now n d => SourceStateManager.record_success now sid n d self
  | Failed now e d => SourceStateManager.record_failure now sid e d self
  end.

Definition record_all (sid : string) (self : SourceStateManager.t) (l : list attempt)
  : SourceStateManager.t :=
  foldl (record sid) self l.

(** the history entry an attempt leaves *)
Definition entry_of (a : attempt) : SourceStateManager.FetchHistoryEntry :=
  match a with
  | Succeeded now n d =>
      {| SourceStateManager.timestamp := SourceStateManager.stamp now;
         SourceStateManager.success := true;
         SourceStateManager.items_fetched := n;
         SourceStateManager.error := None;
         SourceStateManager.duration_seconds := round2 d |}
  | Failed now e d =>
      {| SourceStateManager.timestamp := SourceStateManager.stamp now;
         SourceStateManager.success := false;
         SourceStateManager.items_fetched := 0;
         SourceStateManager.error := Some (exn_msg e);
         SourceStateManager.duration_seconds := round2 d |}
  end.
End Recording.

(** The state of a source as the next record call reads it: the stored one,
    or the fresh [SourceState] created lazily. *)
Definition state_of (self : SourceStateManager.t) (sid : string)
  : SourceStateManager.SourceState :=
  default (SourceStateManager.new_state sid) (SourceStateManager.get_state self sid).

(** The Duplicate Index holds an identifier iff some item with that
    identifier has been stored. *)
Definition index_tracks_store (self : Coordinator.t) : Prop :=
  forall i : string,
    i ∈ Deduplicator._ids (Coordinator._dedup self) <->
    exists c, c ∈ MarkdownStore.written (Coordinator._store self)
              /\ MarkdownStore.arg_content_id c = i.

(** The age filter of [collect_source]. *)
Definition fresh_enough (cutoff : datetime) (r : RSSFetcher.FetchResult) : Prop :=
  (cutoff <= RSSFetcher.published_at r)%Z.

#[global] Instance fresh_enough_dec cutoff r : Decision (fresh_enough cutoff r) :=
  decide (cutoff <= RSSFetcher.published_at r)%Z.

(** An outcome of a coordinator operation that keeps
    [index_tracks_store]: it returns with the invariant, or it raised
    [OverflowError] (the cutoff was not representable). *)
Definition keeps_invariant (r : result (Coordinator.CollectionStats * Coordinator.t)) : Prop :=
  match r with
  | Ok (_, self') => index_tracks_store self'
  | Raise e => exn_type e = "OverflowError"
  end.

(** The same invariant on the state of the loop. *)
Definition tracks (s : Coordinator.loop_state) : Prop :=
  forall i : string,
    i ∈ Deduplicator._ids (Coordinator.dedup s) <->
    exists c, c ∈ MarkdownStore.written (Coordinator.store s)
              /\ MarkdownStore.arg_content_id c = i.

(** [c] is what the loop stores for one of [results] that passes the age
    filter. *)
Definition stored_from (reg : Curation.SourceRegistry) (source : Curation.Source)
    (cutoff : datetime) (results : list RSSFetcher.FetchResult)
    (c : MarkdownStore.Content) : Prop :=
  exists r, r ∈ results /\ c = Coordinator.content_of reg source r /\ fresh_enough cutoff r.


(** The header members [_parse_content_file] reads. *)
Definition read_keys : list string :=
  ["id"; "source_id"; "source_name"; "title"; "url";
   "published_at"; "fetched_at"; "category"; "author"].

Section RoundTrip.
Context {py : PyLib}.
Import MarkdownStore.

(** What the round trip needs from PyYAML and [datetime] for one record:
    the dumped header holds no run of three hyphens (the first one after
    the opening delimiter is the closing delimiter), loading it gives
    back a mapping with the members that were dumped, and the two
    timestamps survive [isoformat] and [fromisoformat].  The header is
    taken as it is read, with its carriage returns as line feeds. *)
Definition header_round_trips (c : Content) : Prop :=
  let header := PyStr.universal_newlines (yaml_dump (front_matter_of c)) in
  PyStr.find_at "---" (newline +:+ header +:+ "---") = Some (1 + PyStr.len header)
  /\ (exists loaded,
        yaml_safe_load (newline +:+ header) = Ok (PDict loaded)
        /\ forall k, k ∈ read_keys -> dict_get k loaded = dict_get k (front_matter_of c))
  /\ fromisoformat (isoformat (arg_published_at c)) = Ok (Naive (arg_published_at c))
  /\ fromisoformat (isoformat (arg_fetched_at c)) = Ok (Naive (arg_fetched_at c)).

(** The record read back for what [store_content c] wrote: the body
    comes back with its carriage returns as line feeds and stripped, an
    empty author as [None], and [ContentFile] has no member for the
    metadata. *)
Definition read_back (c : Content) : ContentFile :=
  {| id := PStr (arg_content_id c);
     source_id := PStr (arg_source_id c);
     source_name := PStr (arg_source_name c);
     title := PStr (arg_title c);
     url := PStr (arg_url c);
     published_at := Naive (arg_published_at c);
     fetched_at := Naive (arg_fetched_at c);
     category := PStr (arg_category c);
     author := match arg_author c with
               | Some (String _ _ as a) => PStr a
               | _ => PNone
               end;
     content := PyStr.strip (PyStr.universal_newlines (arg_content c));
     file_path := file_path_of c |}.
End RoundTrip.

(** ** Concrete inputs

    The specification's scenario: source [tech-news], [max_age_days = 7], a feed
    with an entry published ten days ago, an entry whose identifier is
    already indexed, and a new entry. *)
Module Scenario.

(** 2024-01-15T10:30:00 *)
Definition now : datetime := 63840911400000000.
Definition days_ago (n : Z) : datetime := now - n * Datetime.us_per_day.

Definition tech_news : Curation.Source :=
  {| Curation.id := "tech-news"; Curation.name := "Tech News";
     Curation.type := Curation.RSS; Curation.url := "https://example.org/feed.xml";
     Curation.category := "tech"; Curation.enabled := true |}.

Definition entry (ident title : string) (published : datetime) : RSSFetcher.Entry :=
  {| RSSFetcher.e_id := Some ident;
     RSSFetcher.e_link := Some ("https://example.org/" +:+ ident);
     RSSFetcher.e_title := Some title;
     RSSFetcher.e_content := None;
     RSSFetcher.e_summary := Some ("About " +:+ title);
     RSSFetcher.e_description := None;
     RSSFetcher.e_published_parsed := Some (Ok published);
     RSSFetcher.e_updated_parsed := None;
     RSSFetcher.e_author := Some "Ann";
     RSSFetcher.e_tags := Some [Some "rocq"; None] |}.

Definition feed_of (entries : list RSSFetcher.Entry) : RSSFetcher.Net :=
  {| RSSFetcher.feedparser_parse := fun _ =>
       Ok {| RSSFetcher.bozo := false;
             RSSFetcher.bozo_exception := Exn "Exception" "unused";
             RSSFetcher.entries := entries |};
     RSSFetcher.fetch_url := fun _ => Ok None;
     RSSFetcher.extract := fun _ => Ok None;
     RSSFetcher.utcnow := now |}.

(** a feed parser that fails with an exception raised without a message *)
Definition silent_failure : RSSFetcher.Net :=
  {| RSSFetcher.feedparser_parse := fun _ => Raise (Exn "AssertionError" EmptyString);
     RSSFetcher.fetch_url := fun _ => Ok None;
     RSSFetcher.extract := fun _ => Ok None;
     RSSFetcher.utcnow := now |}.

Definition env_of (n : RSSFetcher.Net) : Coordinator.Env :=
  {| Coordinator.net := n; Coordinator.duration := S754_zero false;
     Coordinator.utcnow_cutoff := now; Coordinator.utcnow_record := now |}.

Definition three_entries : list RSSFetcher.Entry :=
  [ entry "old-1" "Ten days old" (days_ago 10);
    entry "seen-1" "Seen before" (days_ago 1);
    entry "new-1" "Brand new" (days_ago 1) ].

(** an entry without identifier, link and title *)
Definition anonymous_entry : RSSFetcher.Entry :=
{| RSSFetcher.e_id := None; RSSFetcher.e_link := None; RSSFetcher.e_title := Some EmptyString;
   RSSFetcher.e_content := None; RSSFetcher.e_summary := Some "No way to name this";
   RSSFetcher.e_description := None;
   RSSFetcher.e_published_parsed := None; RSSFetcher.e_updated_parsed := None;
   RSSFetcher.e_author := None; RSSFetcher.e_tags := None |}.

(** an entry that is both too old and already indexed *)
Definition old_and_seen : list RSSFetcher.Entry :=
  [ entry "seen-1" "Seen before" (days_ago 10) ].

Definition seen_item : MarkdownStore.Content :=
  {| MarkdownStore.arg_content_id := "seen-1";
     MarkdownStore.arg_source_id := "tech-news";
     MarkdownStore.arg_source_name := "Tech News";
     MarkdownStore.arg_title := "Seen before";
     MarkdownStore.arg_url := "https://example.org/seen-1";
     MarkdownStore.arg_content := "About Seen before";
     MarkdownStore.arg_published_at := days_ago 1;
     MarkdownStore.arg_fetched_at := days_ago 1;
     MarkdownStore.arg_category := "tech";
     MarkdownStore.arg_author := Some "Ann";
     MarkdownStore.arg_metadata := Some [("tags", PList [PStr "rocq"])] |}.

Definition empty_store : MarkdownStore.t :=
  {| MarkdownStore.files := ∅; MarkdownStore.written := [] |}.

Definition empty_index : Deduplicator.t :=
  {| Deduplicator._ids := ∅; Deduplicator._index_path := Deduplicator.Missing |}.

Definition empty_states : SourceStateManager.t :=
  {| SourceStateManager._states := ∅;
     SourceStateManager._state_file := SourceStateManager.Missing |}.

(** the coordinator after an earlier run stored [seen_item] *)
Definition coordinator : Coordinator.t :=
  {| Coordinator._registry := [tech_news];
     Coordinator._state := empty_states;
     Coordinator._store := (MarkdownStore.store_content seen_item empty_store).2;
     Coordinator._dedup := Deduplicator.add empty_index "seen-1";
     Coordinator._max_age_days := 7 |}.

(** the item [_parse_entry] makes of [entry ident title published] *)
Definition fetched (ident title : string) (published : datetime) : RSSFetcher.FetchResult :=
{| RSSFetcher.id := ident; RSSFetcher.source_id := "tech-news";
   RSSFetcher.title := title; RSSFetcher.content := "About " +:+ title;
   RSSFetcher.url := "https://example.org/" +:+ ident;
   RSSFetcher.published_at := published; RSSFetcher.fetched_at := now;
   RSSFetcher.author := Some "Ann";
   RSSFetcher.metadata := [("tags", PList [PStr "rocq"])] |}.

Definition old_result : RSSFetcher.FetchResult := fetched "old-1" "Ten days old" (days_ago 10).
Definition seen_result : RSSFetcher.FetchResult := fetched "seen-1" "Seen before" (days_ago 1).
Definition new_result : RSSFetcher.FetchResult := fetched "new-1" "Brand new" (days_ago 1).

(** a record whose body has surrounding blank space, an empty author
    and tags *)
Definition padded_item : MarkdownStore.Content :=
  {| MarkdownStore.arg_content_id := "new-1";
     MarkdownStore.arg_source_id := "tech-news";
     MarkdownStore.arg_source_name := "Tech News";
     MarkdownStore.arg_title := "Brand new";
     MarkdownStore.arg_url := "https://example.org/new-1";
     MarkdownStore.arg_content := "  Indented first line" +:+ newline;
     MarkdownStore.arg_published_at := days_ago 1;
     MarkdownStore.arg_fetched_at := now;
     MarkdownStore.arg_category := "tech";
     MarkdownStore.arg_author := Some EmptyString;
     MarkdownStore.arg_metadata := Some [("tags", PList [PStr "rocq"])] |}.

End Scenario.

(** ** Vocabulary of further properties *)

(** The item is dropped by the age filter. *)
Definition too_old (cutoff : datetime) (r : RSSFetcher.FetchResult) : Prop :=
  (RSSFetcher.published_at r < cutoff)%Z.

#[global] Instance too_old_dec cutoff r : Decision (too_old cutoff r) :=
  decide (RSSFetcher.published_at r < cutoff)%Z.

(** [self'] is [self] after some collecting: the index and the files only
    grew, the history of writes was extended, the configuration is the
    same. *)
Definition grown_from (self self' : Coordinator.t) : Prop :=
  Deduplicator._ids (Coordinator._dedup self) ⊆ Deduplicator._ids (Coordinator._dedup self')
  /\ (exists new, MarkdownStore.written (Coordinator._store self')
                  = new ++ MarkdownStore.written (Coordinator._store self))
  /\ dom (MarkdownStore.files (Coordinator._store self))
     ⊆ dom (MarkdownStore.files (Coordinator._store self'))
  /\ Coordinator._registry self' = Coordinator._registry self
  /\ Coordinator._max_age_days self' = Coordinator._max_age_days self.

(** The fetch for [source] ends in a failure outcome. *)
Definition fetch_failed (envs : string -> Coordinator.Env) (source : Curation.Source) : bool :=
  match RSSFetcher.fetch (Coordinator.net (envs (Curation.id source))) source with
  | Ok outcome => negb (RSSFetcher.success outcome)
  | Raise _ => false
  end.

(** The message [collect_source] hands to [record_failure]. *)
Definition failure_message (outcome : RSSFetcher.FetchOutcome) : string :=
  match RSSFetcher.error_message outcome with
  | Some (String _ _ as message) => message
  | _ => "Unknown error"
  end.

(** The state in which the loop of [collect_source] starts. *)
Definition loop_start (self : Coordinator.t) : Coordinator.loop_state :=
  {| Coordinator.stats :=
       {| Coordinator.sources_processed := 1; Coordinator.items_fetched := 0;
          Coordinator.items_stored := 0; Coordinator.items_skipped_duplicate := 0;
          Coordinator.errors := 0 |};
     Coordinator.items_stored_local := 0;
     Coordinator.store := Coordinator._store self;
     Coordinator.dedup := Coordinator._dedup self |}.

(** What [collect_source] returns when the fetch failed. *)
Definition failed_stats : Coordinator.CollectionStats :=
  {| Coordinator.sources_processed := 1; Coordinator.items_fetched := 0;
     Coordinator.items_stored := 0; Coordinator.items_skipped_duplicate := 0;
     Coordinator.errors := 1 |}.

(** The states read from well-formed members of the state file, in file
    order: a later member for an id replaces an earlier one. *)
Definition states_of_members (members : list (string * SourceStateManager.SourceState))
  : gmap string SourceStateManager.SourceState :=
  foldl (fun m kv => <[kv.1 := kv.2]> m) ∅ members.

(** The members as the state file holds them. *)
Definition well_formed (members : list (string * SourceStateManager.SourceState))
  : list (string * option SourceStateManager.SourceState) :=
  prod_map id Some <$> members.

Definition is_failure (a : attempt) : bool :=
  match a with
  | Succeeded _ _ _ => false
  | Failed _ _ _ => true
  end.

(** [a or b or c] on optional strings *)
Definition first_truthy (a b c : option string) : option string :=
  RSSFetcher.or_else (RSSFetcher.or_else a b) c.

(** Every character of [s] satisfies [p]. *)
Fixpoint all_chars (p : ascii -> bool) (s : string) : bool :=
  match s with
  | EmptyString => true
  | String c s' => p c && all_chars p s'
  end.

(** The characters [str.lower] changes. *)
Definition is_upper (c : ascii) : bool :=
  PyStr.between 65 90 c || (PyStr.between 192 222 c && negb (PyStr.code c =? 215)%N).

(** What a slug is made of: hyphens, and word characters other than the
    underscore and the upper-case letters. *)
Definition slug_char (c : ascii) : bool :=
  PyStr.is_hyphen c
  || (PyStr.isword c && negb (PyStr.is_underscore c) && negb (is_upper c)).

(** No two hyphens stand next to each other. *)
Fixpoint no_hyphen_pair (s : string) : bool :=
  match s with
  | String a ((String b _) as s') =>
      negb (PyStr.is_hyphen a && PyStr.is_hyphen b) && no_hyphen_pair s'
  | _ => true
  end.

(** [l] is ordered by publication time, latest first. *)
Definition latest_first (l : list MarkdownStore.ContentFile) : Prop :=
  StronglySorted
    (fun a b => Aware.ge (MarkdownStore.published_at a) (MarkdownStore.published_at b)
                = Ok true) l.

(** The characters of a [%Y-%m-%d] date: digits and hyphens. *)
Definition date_char (c : ascii) : bool := PyStr.between 48 57 c || PyStr.is_hyphen c.

(** The header of a brief holds no run of three hyphens and is read by
    the YAML loader as [loaded]. *)
Definition brief_header_loads `{PyLib} (b : Briefs.Brief) (loaded : pyobj) : Prop :=
  let header := PyStr.universal_newlines (yaml_dump (Briefs.front_matter_of b)) in
  PyStr.find_at "---" (newline +:+ header +:+ "---") = Some (1 + PyStr.len header)
  /\ yaml_safe_load (newline +:+ header) = Ok loaded.

(** The names are in descending order. *)
Definition names_descending (names : list string) : Prop :=
  StronglySorted (fun a b => String.leb b a = true) names.

(** The record [cf] as read from the path [p]. *)
Definition with_file_path (p : MarkdownStore.path) (cf : MarkdownStore.ContentFile)
  : MarkdownStore.ContentFile :=
  {| MarkdownStore.id := MarkdownStore.id cf;
     MarkdownStore.source_id := MarkdownStore.source_id cf;
     MarkdownStore.source_name := MarkdownStore.source_name cf;
     MarkdownStore.title := MarkdownStore.title cf;
     MarkdownStore.url := MarkdownStore.url cf;
     MarkdownStore.published_at := MarkdownStore.published_at cf;
     MarkdownStore.fetched_at := MarkdownStore.fetched_at cf;
     MarkdownStore.category := MarkdownStore.category cf;
     MarkdownStore.author := MarkdownStore.author cf;
     MarkdownStore.content := MarkdownStore.content cf;
     MarkdownStore.file_path := p |}.

(** One component of a path: not empty, not [.], without separator. *)
Definition plain (s : string) : Prop :=
  all_chars (fun c => negb (Ascii.eqb "/" c)) s = true
  /\ s <> EmptyString /\ s <> ".".

(** ** Vocabulary of the store's reading operations *)

(** The records [_parse_content_file] gives for the files [md_files]. *)
Definition records_of `{PyLib} (md_files : list (MarkdownStore.path * string))
  : list MarkdownStore.ContentFile :=
  omap (fun f => MarkdownStore._parse_content_file f.1 f.2) md_files.

(** The records of the files [rglob] yields in the store. *)
Definition records `{PyLib} (st : MarkdownStore.t) : list MarkdownStore.ContentFile :=
  records_of (MarkdownStore.rglob_md (MarkdownStore.files st)).

(** The records of the files [glob] yields in the directory of a source. *)
Definition source_records `{PyLib} (st : MarkdownStore.t) (source_id : string)
  : list MarkdownStore.ContentFile :=
  records_of (MarkdownStore.glob_md (MarkdownStore.joinpath [] source_id)
                (MarkdownStore.files st)).

(** Both naive or both aware: the two can be ordered. *)
Definition same_kind (a b : pydatetime) : bool :=
  Bool.eqb (Aware.is_naive a) (Aware.is_naive b).

(** [cf.fetched_at >= since] is true. *)
Definition fetched_since (since : pydatetime) (cf : MarkdownStore.ContentFile) : bool :=
  match Aware.ge (MarkdownStore.fetched_at cf) since with
  | Ok keep => keep
  | Raise _ => false
  end.

(** Both timestamps of the record are naive. *)
Definition naive_record (cf : MarkdownStore.ContentFile) : Prop :=
  Aware.is_naive (MarkdownStore.published_at cf) = true
  /\ Aware.is_naive (MarkdownStore.fetched_at cf) = true.


(** ** Vocabulary of the index rebuild *)

(** The text of [lines], each ended by a line feed. *)
Definition unlines (lines : list string) : string :=
  foldr (fun line rest => line +:+ newline +:+ rest) EmptyString lines.





(** ** Further concrete inputs *)
Module Cases.

(** a successful outcome with the given items *)
Definition fetched_ok (results : list RSSFetcher.FetchResult) : RSSFetcher.FetchOutcome :=
  {| RSSFetcher.success := true; RSSFetcher.results := results;
     RSSFetcher.error_message := None; RSSFetcher.error_type := None |}.

(** the outcome of [Scenario.silent_failure] *)
Definition silent_outcome : RSSFetcher.FetchOutcome :=
  {| RSSFetcher.success := false; RSSFetcher.results := [];
     RSSFetcher.error_message := Some EmptyString;
     RSSFetcher.error_type := Some "AssertionError" |}.

Definition scenario_env : Coordinator.Env :=
  Scenario.env_of (Scenario.feed_of Scenario.three_entries).

Definition failing_env : Coordinator.Env := Scenario.env_of Scenario.silent_failure.

(** a feed whose only recent entry is already indexed *)
Definition nothing_new : list RSSFetcher.Entry :=
  [ Scenario.entry "old-1" "Ten days old" (Scenario.days_ago 10);
    Scenario.entry "seen-1" "Seen before" (Scenario.days_ago 1) ].

(** another item of the same source and day whose title differs from
    that of [Scenario.seen_item] in case and punctuation only *)
Definition shouted_item : MarkdownStore.Content :=
  {| MarkdownStore.arg_content_id := "seen-2";
     MarkdownStore.arg_source_id := "tech-news";
     MarkdownStore.arg_source_name := "Tech News";
     MarkdownStore.arg_title := "SEEN, before!";
     MarkdownStore.arg_url := "https://example.org/seen-2";
     MarkdownStore.arg_content := "Another text";
     MarkdownStore.arg_published_at := Scenario.days_ago 1;
     MarkdownStore.arg_fetched_at := Scenario.now;
     MarkdownStore.arg_category := "tech";
     MarkdownStore.arg_author := None;
     MarkdownStore.arg_metadata := None |}.

(** a source that is switched off *)
Definition paused : Curation.Source :=
  {| Curation.id := "paused"; Curation.name := "Paused";
     Curation.type := Curation.RSS; Curation.url := "https://example.org/paused.xml";
     Curation.category := "tech"; Curation.enabled := false |}.

(** the scenario's coordinator with [paused] in its registry *)
Definition two_sources : Coordinator.t :=
  {| Coordinator._registry := [Scenario.tech_news; paused];
     Coordinator._state := Scenario.empty_states;
     Coordinator._store := Coordinator._store Scenario.coordinator;
     Coordinator._dedup := Coordinator._dedup Scenario.coordinator;
     Coordinator._max_age_days := 7 |}.

(** [tech-news] listed a second time, switched off *)
Definition tech_news_off : Curation.Source :=
  {| Curation.id := "tech-news"; Curation.name := "Tech News (off)";
     Curation.type := Curation.RSS; Curation.url := "https://example.org/feed.xml";
     Curation.category := "tech"; Curation.enabled := false |}.

(** a brief generated at [Scenario.now] *)
Definition todays_brief : Briefs.Brief :=
  {| Briefs.arg_content := newline +:+ "# Daily Brief" +:+ newline;
     Briefs.arg_generated_at := Scenario.now;
     Briefs.arg_window_from := Scenario.days_ago 1;
     Briefs.arg_window_to := Scenario.now;
     Briefs.arg_sources_analyzed := 3;
     Briefs.arg_model := "some-model";
     Briefs.arg_source_map := [("1", "tech-news/2024-01-14-seen-before.md")] |}.

(** a briefs directory with an older brief that cannot be parsed *)
Definition old_briefs : Briefs.t :=
  {[ ["2024-01-10-brief.md"] := "no header" ]}.

(** a provider that answers every prompt with the same text *)
Definition world : BriefGenerator.World :=
  {| BriefGenerator.utcnow := Scenario.now;
     BriefGenerator.generate_completion := fun _ _ _ => Ok "# Daily Brief";
     BriefGenerator.repr := fun _ => "[]";
     BriefGenerator.strftime_ymd_hm := fun _ => "2024-01-14 10:30" |}.

(** the same clock with a provider that is out of reach *)
Definition offline : BriefGenerator.World :=
  {| BriefGenerator.utcnow := Scenario.now;
     BriefGenerator.generate_completion :=
       fun _ _ _ => Raise (Exn "APIConnectionError" "Connection error.");
     BriefGenerator.repr := fun _ => "[]";
     BriefGenerator.strftime_ymd_hm := fun _ => "2024-01-14 10:30" |}.

(** a generator over the scenario's store, looking back two days *)
Definition generator : BriefGenerator.t :=
  {| BriefGenerator._store := Coordinator._store Scenario.coordinator;
     BriefGenerator._content_dir := ["data"; "content"];
     BriefGenerator._briefs := old_briefs;
     BriefGenerator._system_prompt := "Write the brief.";
     BriefGenerator._model := "some-model";
     BriefGenerator._max_tokens := 8000;
     BriefGenerator._content_window_hours := 48 |}.

(** a record whose text has a line ended the way DOS does *)
Definition two_line_item : MarkdownStore.Content :=
  {| MarkdownStore.arg_content_id := "lines-1";
     MarkdownStore.arg_source_id := "tech-news";
     MarkdownStore.arg_source_name := "Tech News";
     MarkdownStore.arg_title := "Two lines";
     MarkdownStore.arg_url := "https://example.org/lines-1";
     MarkdownStore.arg_content := "first line" +:+ String "013" newline +:+ "second line";
     MarkdownStore.arg_published_at := Scenario.days_ago 1;
     MarkdownStore.arg_fetched_at := Scenario.now;
     MarkdownStore.arg_category := "tech";
     MarkdownStore.arg_author := Some "Ann";
     MarkdownStore.arg_metadata := None |}.

(** a record with three hyphens in a row in its title *)
Definition dashed_item : MarkdownStore.Content :=
  {| MarkdownStore.arg_content_id := "dash-1";
     MarkdownStore.arg_source_id := "tech-news";
     MarkdownStore.arg_source_name := "Tech News";
     MarkdownStore.arg_title := "Before --- and after";
     MarkdownStore.arg_url := "https://example.org/dash-1";
     MarkdownStore.arg_content := "Some text";
     MarkdownStore.arg_published_at := Scenario.days_ago 1;
     MarkdownStore.arg_fetched_at := Scenario.now;
     MarkdownStore.arg_category := "tech";
     MarkdownStore.arg_author := Some "Ann";
     MarkdownStore.arg_metadata := None |}.

(** a content file, not written by this program, whose timestamps say
    which zone they are in *)
Definition zoned_file : string :=
  MarkdownStore.opening
  +:+ unlines
        [ "id: zone-1"; "source_id: tech-news"; "source_name: Tech News";
          "title: From another zone"; "url: https://example.org/zone-1";
          "published_at: '2024-01-14T12:30:00+02:00'";
          "fetched_at: '2024-01-15T12:30:00+02:00'"; "category: tech" ]
  +:+ MarkdownStore.closing +:+ "Some text".

(** a store that holds [zoned_file] *)
Definition zoned_store : MarkdownStore.t :=
  {| MarkdownStore.files := {[ ["tech-news"; "2024-01-14-from-another-zone.md"] := zoned_file ]};
     MarkdownStore.written := [] |}.





(** a second source, collected after [tech-news] *)
Definition world_news : Curation.Source :=
  {| Curation.id := "world-news"; Curation.name := "World News";
     Curation.type := Curation.RSS; Curation.url := "https://example.org/world.xml";
     Curation.category := "world"; Curation.enabled := true |}.

(** a coordinator over both sources with nothing stored yet *)
Definition two_feeds : Coordinator.t :=
  {| Coordinator._registry := [Scenario.tech_news; world_news];
     Coordinator._state := Scenario.empty_states;
     Coordinator._store := Scenario.empty_store;
     Coordinator._dedup := Scenario.empty_index;
     Coordinator._max_age_days := 7 |}.

Definition half_hour : Z := 1800000000.

(** one run that starts at [Scenario.now]: the feed of [tech-news] is
    there at once, that of [world-news] an hour later; the entry of the
    second feed is half an hour younger than that of the first *)
Definition slow_run (source_id : string) : Coordinator.Env :=
  if String.eqb source_id "world-news" then
    {| Coordinator.net :=
         Scenario.feed_of
           [Scenario.entry "late-1" "Half an hour younger"
              (Scenario.days_ago 7 + half_hour)%Z];
       Coordinator.duration := S754_zero false;
       Coordinator.utcnow_cutoff := (Scenario.now + 2 * half_hour)%Z;
       Coordinator.utcnow_record := (Scenario.now + 2 * half_hour)%Z |}
  else
    {| Coordinator.net :=
         Scenario.feed_of [Scenario.entry "edge-1" "Seven days old" (Scenario.days_ago 7)];
       Coordinator.duration := S754_zero false;
       Coordinator.utcnow_cutoff := Scenario.now;
       Coordinator.utcnow_record := Scenario.now |}.

End Cases.

(** * Proofs *)

(** ** Source State Tracker *)
Section StateProofs.
Context {py : PyLib}.
Import SourceStateManager.

Lemma state_of_record sid self a :
  get_state (record sid self a) sid = Some (state_of (record sid self a) sid).
Proof.
  unfold state_of, get_state.
  destruct a; simpl; rewrite lookup_insert_eq; reflexivity.
Qed.

Lemma record_other sid sid' self a :
  sid <> sid' -> get_state (record sid self a) sid' = get_state self sid'.
Proof.
  intros Hne. unfold get_state.
  destruct a; simpl; rewrite lookup_insert_ne; auto.
Qed.

Lemma record_counters sid self a :
  match a with
  | Succeeded _ n _ =>
      consecutive_failures (state_of (record sid self a) sid) = 0%Z /\
      total_items_fetched (state_of (record sid self a) sid)
      = (total_items_fetched (state_of self sid) + n)%Z
  | Failed _ _ _ =>
      consecutive_failures (state_of (record sid self a) sid)
      = (consecutive_failures (state_of self sid) + 1)%Z /\
      total_items_fetched (state_of (record sid self a) sid)
      = total_items_fetched (state_of self sid)
  end.
Proof.
  unfold state_of, get_state.
  destruct a; simpl; rewrite lookup_insert_eq; simpl; split; reflexivity.
Qed.

Lemma record_total_le sid self a :
  nonnegative_count a ->
  (total_items_fetched (state_of self sid)
   <= total_items_fetched (state_of (record sid self a) sid))%Z.
Proof.
  intros Hpos. pose proof (record_counters sid self a) as Hc.
  destruct a; simpl in Hpos; destruct Hc as [_ ->]; lia.
Qed.

Lemma record_all_total_le sid l : forall self,
  Forall nonnegative_count l ->
  (total_items_fetched (state_of self sid)
   <= total_items_fetched (state_of (record_all sid self l) sid))%Z.
Proof.
  induction l as [|a l IH]; intros self Hall; simpl.
  - lia.
  - inversion Hall as [|? ? Ha Hl]; subst.
    etransitivity; [apply (record_total_le sid self a Ha)|].
    apply IH, Hl.
Qed.

Lemma record_history sid self a :
  fetch_history (state_of (record sid self a) sid)
  = take MAX_HISTORY_ENTRIES (entry_of a :: fetch_history (state_of self sid)).
Proof.
  unfold state_of, get_state.
  destruct a; simpl; rewrite lookup_insert_eq; reflexivity.
Qed.

Lemma take_app_take {A} (xs ys : list A) : forall n m,
  n <= m -> take n (xs ++ take m ys) = take n (xs ++ ys).
Proof.
  induction xs as [|x xs IH]; intros n m Hle; simpl.
  - rewrite take_take. f_equal. lia.
  - destruct n as [|n]; [reflexivity|]. simpl. f_equal. apply IH. lia.
Qed.

Lemma record_all_history sid l : forall self,
  take MAX_HISTORY_ENTRIES (fetch_history (state_of (record_all sid self l) sid))
  = take MAX_HISTORY_ENTRIES
      (rev (entry_of <$> l) ++ fetch_history (state_of self sid)).
Proof.
  induction l as [|a l IH]; intros self; simpl.
  - reflexivity.
  - rewrite (IH (record sid self a)), record_history.
    rewrite take_app_take by lia.
    rewrite <- app_assoc. reflexivity.
Qed.

Lemma record_all_history_length sid l self :
  l <> [] \/ List.length (fetch_history (state_of self sid)) <= MAX_HISTORY_ENTRIES ->
  List.length (fetch_history (state_of (record_all sid self l) sid)) <= MAX_HISTORY_ENTRIES.
Proof.
  destruct l as [|a l _] using rev_ind.
  - intros [Hne | Hlen]; [congruence | exact Hlen].
  - intros _. unfold record_all. rewrite foldl_app. simpl.
    rewrite record_history, length_take. lia.
Qed.

(** C5.  A [record_success] call leaves [consecutive_failures] at 0 and
    adds its item count to [total_items_fetched]; a [record_failure] call
    adds one to [consecutive_failures] and leaves the total alone; the
    states of other sources are untouched.  An item count is a number of
    items ([collect_source] passes its count of the items it stored, which
    starts at 0 and only grows), so it is never negative, and across any
    such calls the total never decreases. *)
Theorem C5_failure_counter_and_total (sid : string) (self : SourceStateManager.t)
    (a : attempt) (later : list attempt) :
  let before := state_of self sid in
  let after := state_of (record sid self a) sid in
  get_state (record sid self a) sid = Some after /\
  match a with
  | Succeeded _ n _ =>
      consecutive_failures after = 0%Z /\
      total_items_fetched after = (total_items_fetched before + n)%Z
  | Failed _ _ _ =>
      consecutive_failures after = (consecutive_failures before + 1)%Z /\
      total_items_fetched after = total_items_fetched before
  end /\
  (forall sid', sid <> sid' -> get_state (record sid self a) sid' = get_state self sid') /\
  (Forall nonnegative_count later ->
   (total_items_fetched before
    <= total_items_fetched (state_of (record_all sid self later) sid))%Z).
Proof.
  intros before after. split; [apply state_of_record|].
  split; [apply record_counters|].
  split; [intros sid' Hne; apply record_other, Hne|].
  apply record_all_total_le.
Qed.

(** C6.  After any sequence of recorded attempts (one at least, or
    starting from a history within the cap) the history of the source is
    the first [MAX_HISTORY_ENTRIES] = 10 entries of the attempts' entries,
    latest first, followed by the earlier history: it never exceeds the
    cap, is ordered most recent first, and loses its oldest entries. *)
Theorem C6_history_bounded (sid : string) (self : SourceStateManager.t)
    (attempts : list attempt) :
  let h0 := fetch_history (state_of self sid) in
  let h := fetch_history (state_of (record_all sid self attempts) sid) in
  attempts <> [] \/ List.length h0 <= MAX_HISTORY_ENTRIES ->
  h = take MAX_HISTORY_ENTRIES (rev (entry_of <$> attempts) ++ h0)
  /\ List.length h <= MAX_HISTORY_ENTRIES.
Proof.
  intros h0 h Hstart. subst h0 h.
  pose proof (record_all_history_length sid attempts self Hstart) as Hlen.
  split; [|exact Hlen].
  rewrite <- (record_all_history sid attempts self).
  symmetry. apply take_ge. exact Hlen.
Qed.

End StateProofs.

(** Two successes and a failure, none with a negative count. *)
Lemma C5_witness :
  (SourceStateManager.total_items_fetched (state_of Scenario.empty_states "tech-news")
   <= SourceStateManager.total_items_fetched
        (state_of (record_all (py := Reference.lib) "tech-news" Scenario.empty_states
                     [Succeeded Scenario.now 2 (S754_zero false);
                      Failed Scenario.now (Exn "Exception" "timed out") (S754_zero false);
                      Succeeded Scenario.now 0 (S754_zero false)])
                  "tech-news"))%Z.
Proof.
  refine (proj2 (proj2 (proj2 (C5_failure_counter_and_total (py := Reference.lib)
            "tech-news" Scenario.empty_states
            (Failed Scenario.now (Exn "Exception" "timed out") (S754_zero false))
            _))) _).
  repeat constructor; simpl; lia.
Defined.

(** Twelve attempts on a fresh tracker leave ten entries. *)
Lemma C6_witness :
  List.length (SourceStateManager.fetch_history
            (state_of (record_all (py := Reference.lib) "tech-news" Scenario.empty_states
                         (replicate 12 (Succeeded Scenario.now 1 (S754_zero false))))
                      "tech-news"))
  <= SourceStateManager.MAX_HISTORY_ENTRIES.
Proof.
  refine (proj2 (C6_history_bounded (py := Reference.lib) "tech-news"
                   Scenario.empty_states _ (or_introl _))).
  discriminate.
Defined.

(** ** Loading the persisted files *)

Lemma state_load_returns (self : SourceStateManager.t) :
  exists self', SourceStateManager._load self = Ok self'.
Proof.
  unfold SourceStateManager._load.
  destruct (negb _); [eauto|].
  destruct (SourceStateManager.try_block self) as [self' [e|]]; eauto.
Qed.

(** C8, evaluated on the code.  With no file both components start empty.
    The state tracker returns whatever it finds at its path, and starts
    empty on a file that is not JSON.  The Duplicate Index does not:
    [Deduplicator._load] has no [try], and the [JSONDecodeError] of
    [json.load] leaves the constructor. *)
Theorem C8_corrupt_index_file_raises :
  Deduplicator.init Deduplicator.Missing = Ok Scenario.empty_index
  /\ SourceStateManager.init SourceStateManager.Missing = Ok Scenario.empty_states
  /\ (forall f, exists self', SourceStateManager.init f = Ok self')
  /\ SourceStateManager.init SourceStateManager.Unparsable
     = Ok {| SourceStateManager._states := ∅;
             SourceStateManager._state_file := SourceStateManager.Unparsable |}
  /\ Deduplicator.init Deduplicator.Unparsable
     = Raise (Exn "JSONDecodeError" "Expecting value").
Proof.
  repeat split. intros f. apply state_load_returns.
Qed.

(** ** Feed Fetcher *)

Lemma omap_cons_eq {A B} (f : A -> option B) (x : A) (l : list A) :
  omap f (x :: l) = match f x with Some y => y :: omap f l | None => omap f l end.
Proof. reflexivity. Qed.

Lemma length_omap_le {A B} (f : A -> option B) (l : list A) :
  List.length (omap f l) <= List.length l.
Proof.
  induction l as [|x l IH]; [reflexivity|].
  rewrite omap_cons_eq. destruct (f x); simpl; lia.
Qed.

Lemma parse_entry_needs_identifier net entry source fetched_at :
  RSSFetcher.truthy (RSSFetcher.e_id entry) = false ->
  RSSFetcher.truthy (RSSFetcher.e_link entry) = false ->
  RSSFetcher.truthy (RSSFetcher.e_title entry) = false ->
  RSSFetcher._parse_entry net entry source fetched_at = None.
Proof.
  intros Hid Hlink Htitle. unfold RSSFetcher._parse_entry, RSSFetcher.or_else.
  rewrite Hid, Hlink.
  destruct (RSSFetcher.e_title entry) as [[|c t]|]; simpl in *; congruence.
Qed.

Lemma parse_entry_bad_date net entry source fetched_at e :
  RSSFetcher.e_published_parsed entry = Some (Raise e) ->
  RSSFetcher._parse_entry net entry source fetched_at = None.
Proof.
  intros Hdate. unfold RSSFetcher._parse_entry, RSSFetcher.entry_published.
  rewrite Hdate.
  destruct (RSSFetcher.or_else _ _) as [[|c t]|]; reflexivity.
Qed.

(** C7 (as amended).  [fetch] returns an outcome in every case.  When the
    feed parser raises, or reports a malformed feed without entries, the
    outcome has [success = false], no items, the exception's string form
    as message and its class name as classification; otherwise it has
    [success = true] and holds, in feed order, exactly the entries that
    [_parse_entry] could parse, the others being dropped: among them
    the entries without identifier, link and title, and those whose
    publication time cannot be converted. *)
Theorem C7_fetch_never_raises (net : RSSFetcher.Net) (source : Curation.Source) :
  exists outcome : RSSFetcher.FetchOutcome,
    RSSFetcher.fetch net source = Ok outcome /\
    match RSSFetcher.feedparser_parse net (Curation.url source) with
    | Raise e =>
        outcome = {| RSSFetcher.success := false; RSSFetcher.results := [];
                     RSSFetcher.error_message := Some (exn_msg e);
                     RSSFetcher.error_type := Some (exn_type e) |}
    | Ok feed =>
        if RSSFetcher.bozo feed && bool_decide (RSSFetcher.entries feed = [])
        then outcome = {| RSSFetcher.success := false; RSSFetcher.results := [];
                          RSSFetcher.error_message :=
                            Some (exn_msg (RSSFetcher.bozo_exception feed));
                          RSSFetcher.error_type :=
                            Some (exn_type (RSSFetcher.bozo_exception feed)) |}
        else RSSFetcher.success outcome = true /\
             RSSFetcher.error_message outcome = None /\
             RSSFetcher.error_type outcome = None /\
             RSSFetcher.results outcome
             = omap (fun entry => RSSFetcher._parse_entry net entry source
                                    (RSSFetcher.utcnow net))
                    (RSSFetcher.entries feed) /\
             List.length (RSSFetcher.results outcome)
             <= List.length (RSSFetcher.entries feed)
    end /\
    (forall entry fetched_at,
       (RSSFetcher.truthy (RSSFetcher.e_id entry) = false
        /\ RSSFetcher.truthy (RSSFetcher.e_link entry) = false
        /\ RSSFetcher.truthy (RSSFetcher.e_title entry) = false)
       \/ (exists e, RSSFetcher.e_published_parsed entry = Some (Raise e)) ->
       RSSFetcher._parse_entry net entry source fetched_at = None).
Proof.
  assert (forall entry fetched_at,
            (RSSFetcher.truthy (RSSFetcher.e_id entry) = false
             /\ RSSFetcher.truthy (RSSFetcher.e_link entry) = false
             /\ RSSFetcher.truthy (RSSFetcher.e_title entry) = false)
            \/ (exists e, RSSFetcher.e_published_parsed entry = Some (Raise e)) ->
            RSSFetcher._parse_entry net entry source fetched_at = None) as Hdrop.
  { intros entry fetched_at [(Hid & Hlink & Htitle) | [e He]].
    - apply parse_entry_needs_identifier; assumption.
    - eapply parse_entry_bad_date, He. }
  unfold RSSFetcher.fetch.
  destruct (RSSFetcher.feedparser_parse net (Curation.url source)) as [feed|e]; simpl.
  - destruct (RSSFetcher.bozo feed && bool_decide (RSSFetcher.entries feed = [])); simpl.
    + eexists; split; [reflexivity|]. split; [reflexivity | exact Hdrop].
    + eexists; split; [reflexivity|]. simpl.
      split; [|exact Hdrop]. repeat split. apply length_omap_le.
  - eexists; split; [reflexivity|]. split; [reflexivity | exact Hdrop].
Qed.

(** An entry that cannot be named is dropped from the feed's items. *)
Lemma C7_witness :
  RSSFetcher._parse_entry (Scenario.feed_of [Scenario.anonymous_entry])
    Scenario.anonymous_entry Scenario.tech_news Scenario.now = None.
Proof.
  destruct (C7_fetch_never_raises (Scenario.feed_of [Scenario.anonymous_entry])
              Scenario.tech_news) as (outcome & _ & _ & Hdrop).
  apply Hdrop. left. repeat split.
Defined.

(** C7, failing instance of the claim as stated: when the parser fails
    with an exception that carries no message, the outcome's error message
    is the empty string. *)
Lemma C7_empty_error_message :
  exists outcome : RSSFetcher.FetchOutcome,
    RSSFetcher.fetch Scenario.silent_failure Scenario.tech_news = Ok outcome /\
    RSSFetcher.success outcome = false /\
    RSSFetcher.error_message outcome = Some EmptyString.
Proof. eexists. repeat split. Qed.

(** ** Duplicate Index *)

Lemma exists_spec (d : Deduplicator.t) (i : string) :
  Deduplicator.exists_ d i = true <-> i ∈ Deduplicator._ids d.
Proof. unfold Deduplicator.exists_. apply bool_decide_eq_true. Qed.

Lemma exists_false (d : Deduplicator.t) (i : string) :
  Deduplicator.exists_ d i = false <-> i ∉ Deduplicator._ids d.
Proof. unfold Deduplicator.exists_. apply bool_decide_eq_false. Qed.

Lemma add_ids (d : Deduplicator.t) (i : string) :
  Deduplicator._ids (Deduplicator.add d i) = {[i]} ∪ Deduplicator._ids d.
Proof. reflexivity. Qed.

Lemma add_present (d : Deduplicator.t) (i : string) :
  i ∈ Deduplicator._ids d ->
  Deduplicator._ids (Deduplicator.add d i) = Deduplicator._ids d.
Proof. rewrite add_ids. set_solver. Qed.

Lemma add_twice (d : Deduplicator.t) (i : string) :
  Deduplicator.add (Deduplicator.add d i) i = Deduplicator.add d i.
Proof.
  unfold Deduplicator.add, Deduplicator._save; simpl.
  assert ({[i]} ∪ ({[i]} ∪ Deduplicator._ids d) = {[i]} ∪ Deduplicator._ids d) as ->
    by set_solver.
  reflexivity.
Qed.

(** ** Collection Coordinator *)
Section CoordinatorProofs.
Context {py : PyLib}.
Import Coordinator.

Variables (reg : Curation.SourceRegistry) (source : Curation.Source).

Lemma cutoff_of_value now days cutoff :
  cutoff_of now days = Ok cutoff -> cutoff = (now - days * Datetime.us_per_day)%Z.
Proof.
  unfold cutoff_of, Datetime.timedelta_days, Datetime.sub.
  destruct (Z.abs days <=? 999999999)%Z; simpl; [|discriminate].
  destruct (Datetime.in_range _); [|discriminate].
  intros H. inversion H. reflexivity.
Qed.

Lemma cutoff_of_raise now days e :
  cutoff_of now days = Raise e -> exn_type e = "OverflowError".
Proof.
  unfold cutoff_of, Datetime.timedelta_days, Datetime.sub.
  destruct (Z.abs days <=? 999999999)%Z; simpl.
  - destruct (Datetime.in_range _); [discriminate|]. intros H. inversion H. reflexivity.
  - intros H. inversion H. reflexivity.
Qed.

Lemma fetch_returns net :
  exists outcome, RSSFetcher.fetch net source = Ok outcome.
Proof.
  unfold RSSFetcher.fetch.
  destruct (RSSFetcher.feedparser_parse net (Curation.url source)) as [feed|e]; simpl;
    [destruct (_ && _)|]; eauto.
Qed.

(** *** One iteration *)

Lemma collect_item_old force cutoff s r :
  (RSSFetcher.published_at r < cutoff)%Z ->
  collect_item reg source force cutoff s r
  = {| stats := count_fetched (stats s); items_stored_local := items_stored_local s;
       store := store s; dedup := dedup s |}.
Proof.
  intros Hold. unfold collect_item.
  destruct (Z.ltb_spec (RSSFetcher.published_at r) cutoff); [reflexivity | lia].
Qed.

Lemma collect_item_duplicate cutoff s r :
  fresh_enough cutoff r ->
  RSSFetcher.id r ∈ Deduplicator._ids (dedup s) ->
  collect_item reg source false cutoff s r
  = {| stats := count_skipped (count_fetched (stats s));
       items_stored_local := items_stored_local s;
       store := store s; dedup := dedup s |}.
Proof.
  unfold fresh_enough. intros Hage Hin. unfold collect_item.
  destruct (Z.ltb_spec (RSSFetcher.published_at r) cutoff); [lia|].
  apply exists_spec in Hin. rewrite Hin. reflexivity.
Qed.

Lemma collect_item_stored force cutoff s r :
  fresh_enough cutoff r ->
  force = true \/ RSSFetcher.id r ∉ Deduplicator._ids (dedup s) ->
  collect_item reg source force cutoff s r
  = {| stats := count_stored (count_fetched (stats s));
       items_stored_local := (items_stored_local s + 1)%Z;
       store := (MarkdownStore.store_content (content_of reg source r) (store s)).2;
       dedup := Deduplicator.add (dedup s) (RSSFetcher.id r) |}.
Proof.
  unfold fresh_enough. intros Hage Hnew. unfold collect_item.
  destruct (Z.ltb_spec (RSSFetcher.published_at r) cutoff); [lia|].
  destruct Hnew as [-> | Hnot]; [reflexivity|].
  apply exists_false in Hnot. rewrite Hnot, andb_false_r. reflexivity.
Qed.

(** The three cases are exhaustive. *)
Lemma collect_item_cases force cutoff s r :
  (RSSFetcher.published_at r < cutoff)%Z
  \/ (fresh_enough cutoff r /\ force = false
      /\ RSSFetcher.id r ∈ Deduplicator._ids (dedup s))
  \/ (fresh_enough cutoff r
      /\ (force = true \/ RSSFetcher.id r ∉ Deduplicator._ids (dedup s))).
Proof.
  unfold fresh_enough.
  destruct (Z.lt_ge_cases (RSSFetcher.published_at r) cutoff) as [Hlt|Hge]; [auto|].
  right. destruct force; [right; auto|].
  destruct (decide (RSSFetcher.id r ∈ Deduplicator._ids (dedup s))); [left|right]; auto.
Qed.

(** *** The loop *)

Lemma collect_items_written force cutoff results : forall s,
  exists new,
    MarkdownStore.written (store (collect_items reg source force cutoff s results))
    = new ++ MarkdownStore.written (store s)
    /\ Forall (stored_from reg source cutoff results) new.
Proof.
  induction results as [|r results IH]; intros s.
  - exists []. split; [reflexivity | constructor].
  - destruct (IH (collect_item reg source force cutoff s r)) as (new & Hnew & Hall).
    assert (Forall (stored_from reg source cutoff (r :: results)) new) as Hall'.
    { eapply Forall_impl; [exact Hall|].
      intros c (r' & Hin & Hc & Hage). exists r'. split; [right; exact Hin | auto]. }
    change (collect_items reg source force cutoff s (r :: results))
      with (collect_items reg source force cutoff
              (collect_item reg source force cutoff s r) results).
    rewrite Hnew.
    destruct (collect_item_cases force cutoff s r) as [Hold | [(Hage & -> & Hin) | (Hage & Hst)]].
    + rewrite collect_item_old by exact Hold. simpl. eauto.
    + rewrite collect_item_duplicate by assumption. simpl. eauto.
    + rewrite collect_item_stored by assumption. simpl.
      exists (new ++ [content_of reg source r]). split.
      * rewrite <- app_assoc. reflexivity.
      * apply Forall_app. split; [exact Hall'|].
        constructor; [|constructor].
        exists r. split; [left | auto].
Qed.

Lemma collect_item_tracks force cutoff s r :
  tracks s -> tracks (collect_item reg source force cutoff s r).
Proof.
  intros Htr.
  destruct (collect_item_cases force cutoff s r) as [Hold | [(Hage & -> & Hin) | (Hage & Hst)]].
  - rewrite collect_item_old by exact Hold. exact Htr.
  - rewrite collect_item_duplicate by assumption. exact Htr.
  - rewrite collect_item_stored by assumption. intros i. simpl.
    rewrite elem_of_union, elem_of_singleton, (Htr i). split.
    + intros [-> | (c & Hc & Hid)].
      * exists (content_of reg source r). split; [left | reflexivity].
      * exists c. split; [right; exact Hc | exact Hid].
    + intros (c & Hc & Hid). apply elem_of_cons in Hc as [-> | Hc].
      * left. symmetry. exact Hid.
      * right. eauto.
Qed.

Lemma collect_items_tracks force cutoff results : forall s,
  tracks s -> tracks (collect_items reg source force cutoff s results).
Proof.
  induction results as [|r results IH]; intros s Htr; [exact Htr|].
  apply (IH (collect_item reg source force cutoff s r)), collect_item_tracks, Htr.
Qed.

(** With [force] set the loop stores every item that passes the age
    filter, in feed order, and skips none. *)
Lemma collect_items_forced cutoff results : forall s,
  let kept := filter (fresh_enough cutoff) results in
  let s' := collect_items reg source true cutoff s results in
  MarkdownStore.written (store s')
  = rev (content_of reg source <$> kept) ++ MarkdownStore.written (store s)
  /\ items_stored (stats s') = (items_stored (stats s) + Z.of_nat (List.length kept))%Z
  /\ items_stored_local s' = (items_stored_local s + Z.of_nat (List.length kept))%Z
  /\ items_skipped_duplicate (stats s') = items_skipped_duplicate (stats s)
  /\ items_fetched (stats s') = (items_fetched (stats s) + Z.of_nat (List.length results))%Z
  /\ Deduplicator._ids (dedup s')
     = list_to_set (RSSFetcher.id <$> kept) ∪ Deduplicator._ids (dedup s).
Proof.
  induction results as [|r results IH]; intros s; simpl.
  - repeat split; try lia. set_solver.
  - change (collect_items reg source true cutoff s (r :: results))
      with (collect_items reg source true cutoff
              (collect_item reg source true cutoff s r) results).
    destruct (IH (collect_item reg source true cutoff s r))
      as (Hw & Hst & Hloc & Hsk & Hfe & Hids).
    rewrite Hw, Hst, Hloc, Hsk, Hfe, Hids. clear Hw Hst Hloc Hsk Hfe Hids.
    destruct (decide (fresh_enough cutoff r)) as [Hage | Hold].
    + rewrite filter_cons_True by exact Hage.
      rewrite collect_item_stored by auto. simpl.
      rewrite <- app_assoc. simpl.
      repeat split; try lia. set_solver.
    + rewrite filter_cons_False by exact Hold.
      rewrite collect_item_old by (unfold fresh_enough in Hold; lia). simpl.
      repeat split; lia.
Qed.

(** The files after a sequence of writes, the latest write first in
    [new]: a path holds what the latest write to it left. *)
Lemma lookup_written_latest (fs : gmap MarkdownStore.path string)
    (later : list MarkdownStore.Content) (c : MarkdownStore.Content)
    (earlier : list MarkdownStore.Content) :
  (forall c', c' ∈ later ->
     MarkdownStore.file_path_of c' <> MarkdownStore.file_path_of c) ->
  foldr (fun c fs => <[MarkdownStore.file_path_of c := MarkdownStore.md_content_of c]> fs)
    fs (later ++ c :: earlier) !! MarkdownStore.file_path_of c
  = Some (MarkdownStore.md_content_of c).
Proof.
  induction later as [|c' later IH]; intros Hother; simpl.
  - apply lookup_insert_eq.
  - rewrite lookup_insert_ne by (apply Hother; left).
    apply IH. intros c'' Hin. apply Hother. right. exact Hin.
Qed.

Lemma lookup_written_some (fs : gmap MarkdownStore.path string)
    (new : list MarkdownStore.Content) (c : MarkdownStore.Content) :
  c ∈ new ->
  is_Some (foldr (fun c fs => <[MarkdownStore.file_path_of c
                                 := MarkdownStore.md_content_of c]> fs)
             fs new !! MarkdownStore.file_path_of c).
Proof.
  induction new as [|c' new IH]; intros Hin; [inversion Hin|]. simpl.
  destruct (decide (MarkdownStore.file_path_of c' = MarkdownStore.file_path_of c))
    as [-> | Hne].
  - rewrite lookup_insert_eq. eauto.
  - rewrite lookup_insert_ne by exact Hne. apply IH.
    inversion Hin; subst; [congruence | assumption].
Qed.

(** With [force] set the files of the store are those of the start with
    the kept items' files written over them, in feed order. *)
Lemma collect_items_files cutoff results : forall s,
  MarkdownStore.files (store (collect_items reg source true cutoff s results))
  = foldr (fun c fs => <[MarkdownStore.file_path_of c := MarkdownStore.md_content_of c]> fs)
      (MarkdownStore.files (store s))
      (rev (content_of reg source <$> filter (fresh_enough cutoff) results)).
Proof.
  induction results as [|r results IH]; intros s; [reflexivity|].
  change (collect_items reg source true cutoff s (r :: results))
    with (collect_items reg source true cutoff
            (collect_item reg source true cutoff s r) results).
  rewrite IH.
  destruct (decide (fresh_enough cutoff r)) as [Hage | Hold].
  - rewrite filter_cons_True by exact Hage.
    rewrite collect_item_stored by auto. simpl.
    rewrite foldr_app. reflexivity.
  - rewrite filter_cons_False by exact Hold.
    rewrite collect_item_old by (unfold fresh_enough in Hold; lia). reflexivity.
Qed.

(** The successful path of [collect_source]. *)
Lemma collect_source_success env force self outcome cutoff :
  RSSFetcher.fetch (net env) source = Ok outcome ->
  RSSFetcher.success outcome = true ->
  cutoff_of (utcnow_cutoff env) (_max_age_days self) = Ok cutoff ->
  let s := collect_items (_registry self) source force cutoff
             {| stats := {| sources_processed := 1; items_fetched := 0;
                            items_stored := 0; items_skipped_duplicate := 0;
                            errors := 0 |};
                items_stored_local := 0;
                store := _store self; dedup := _dedup self |}
             (RSSFetcher.results outcome) in
  collect_source env source force self
  = Ok (stats s,
        {| _registry := _registry self;
           _state := SourceStateManager.record_success (utcnow_record env)
                       (Curation.id source) (items_stored_local s)
                       (duration env) (_state self);
           _store := store s; _dedup := dedup s;
           _max_age_days := _max_age_days self |}).
Proof.
  intros Hfetch Hok Hcut s. unfold collect_source.
  destruct (Curation.type source). simpl.
  rewrite Hfetch. simpl. rewrite Hok. simpl. rewrite Hcut. reflexivity.
Qed.

End CoordinatorProofs.

Section CoordinatorClaims.
Context {py : PyLib}.
Import Coordinator.

(** C2 (as amended).  In a run of [collect_source] with [force = false],
    take any fetched item [r] that passes the age filter and whose
    identifier is in the Duplicate Index when its turn comes ([s] is the
    state of the loop after the items before it).  Its iteration does not
    write to the store, leaves the index and its file as they are, and
    adds exactly one to [items_skipped_duplicate] (and one to
    [items_fetched]); the run then goes on with the remaining items and
    returns. *)
Theorem C2_indexed_item_is_skipped (env : Env) (source : Curation.Source) (self : t)
    (outcome : RSSFetcher.FetchOutcome) (cutoff : datetime)
    (earlier later : list RSSFetcher.FetchResult) (r : RSSFetcher.FetchResult) :
  RSSFetcher.fetch (net env) source = Ok outcome ->
  RSSFetcher.success outcome = true ->
  cutoff_of (utcnow_cutoff env) (_max_age_days self) = Ok cutoff ->
  RSSFetcher.results outcome = earlier ++ r :: later ->
  let start :=
    {| stats := {| sources_processed := 1; items_fetched := 0; items_stored := 0;
                   items_skipped_duplicate := 0; errors := 0 |};
       items_stored_local := 0; store := _store self; dedup := _dedup self |} in
  let s := collect_items (_registry self) source false cutoff start earlier in
  let s' := collect_item (_registry self) source false cutoff s r in
  RSSFetcher.id r ∈ Deduplicator._ids (dedup s) ->
  fresh_enough cutoff r ->
  store s' = store s
  /\ dedup s' = dedup s
  /\ items_skipped_duplicate (stats s') = (items_skipped_duplicate (stats s) + 1)%Z
  /\ items_stored (stats s') = items_stored (stats s)
  /\ items_stored_local s' = items_stored_local s
  /\ items_fetched (stats s') = (items_fetched (stats s) + 1)%Z
  /\ (exists stats self',
        collect_source env source false self = Ok (stats, self')
        /\ stats = Coordinator.stats
                     (collect_items (_registry self) source false cutoff s' later)
        /\ _store self' = store (collect_items (_registry self) source false cutoff s' later)
        /\ _dedup self' = dedup (collect_items (_registry self) source false cutoff s' later)).
Proof.
  intros Hfetch Hok Hcut Hresults start s s' Hin Hage. subst s'.
  rewrite (collect_item_duplicate (_registry self) source cutoff s r Hage Hin). simpl.
  repeat split.
  rewrite (collect_source_success source env false self outcome cutoff Hfetch Hok Hcut).
  rewrite Hresults. fold start.
  assert (collect_items (_registry self) source false cutoff start (earlier ++ r :: later)
          = collect_items (_registry self) source false cutoff
              {| stats := count_skipped (count_fetched (stats s));
                 items_stored_local := items_stored_local s;
                 store := store s; dedup := dedup s |} later) as ->.
  { unfold collect_items. rewrite foldl_app. simpl.
    fold (collect_items (_registry self) source false cutoff start earlier). fold s.
    rewrite (collect_item_duplicate (_registry self) source cutoff s r Hage Hin).
    reflexivity. }
  eexists _, _. split; [reflexivity|]. simpl. repeat split.
Qed.

(** C4 (as amended).  The cutoff of a [collect_source] call is the clock
    reading taken after the fetch of its source has returned, minus
    [max_age_days] days.  Every item the call writes to the store was
    published at or after the cutoff, so no older item reaches
    [store_content]; an older item only counts as fetched.  The
    comparison is strict: an item published exactly at the cutoff is
    not dropped by the age filter (it is stored, or skipped as a
    duplicate). *)
Theorem C4_age_filter (env : Env) (source : Curation.Source) (force : bool)
    (self : t) (outcome : RSSFetcher.FetchOutcome) (cutoff : datetime) :
  RSSFetcher.fetch (net env) source = Ok outcome ->
  RSSFetcher.success outcome = true ->
  cutoff_of (utcnow_cutoff env) (_max_age_days self) = Ok cutoff ->
  cutoff = (utcnow_cutoff env - _max_age_days self * Datetime.us_per_day)%Z
  /\ (exists stats self' new,
        collect_source env source force self = Ok (stats, self')
        /\ MarkdownStore.written (_store self')
           = new ++ MarkdownStore.written (_store self)
        /\ (forall c, c ∈ new -> (cutoff <= MarkdownStore.arg_published_at c)%Z)
        /\ (forall r, (RSSFetcher.published_at r < cutoff)%Z ->
                      content_of (_registry self) source r ∉ new))
  /\ (forall s r,
        (RSSFetcher.published_at r < cutoff)%Z ->
        collect_item (_registry self) source force cutoff s r
        = {| stats := count_fetched (stats s);
             items_stored_local := items_stored_local s;
             store := store s; dedup := dedup s |})
  /\ (forall s r,
        RSSFetcher.published_at r = cutoff ->
        let s' := collect_item (_registry self) source force cutoff s r in
        (MarkdownStore.written (store s')
         = content_of (_registry self) source r :: MarkdownStore.written (store s)
         /\ items_stored (stats s') = (items_stored (stats s) + 1)%Z)
        \/ (force = false /\ RSSFetcher.id r ∈ Deduplicator._ids (dedup s)
            /\ items_skipped_duplicate (stats s')
               = (items_skipped_duplicate (stats s) + 1)%Z)).
Proof.
  intros Hfetch Hok Hcut.
  split; [apply cutoff_of_value, Hcut|].
  split; [|split].
  - rewrite (collect_source_success source env force self outcome cutoff Hfetch Hok Hcut).
    destruct (collect_items_written (_registry self) source force cutoff
                (RSSFetcher.results outcome)
                {| stats := {| sources_processed := 1; items_fetched := 0;
                               items_stored := 0; items_skipped_duplicate := 0;
                               errors := 0 |};
                   items_stored_local := 0;
                   store := _store self; dedup := _dedup self |})
      as (new & Hnew & Hall).
    rewrite Forall_forall in Hall.
    eexists _, _, new. split; [reflexivity|]. simpl.
    split; [exact Hnew|]. split.
    + intros c Hc. destruct (Hall c Hc) as (r & _ & -> & Hage). exact Hage.
    + intros r Hold Hc. destruct (Hall _ Hc) as (r' & _ & Heq & Hage).
      unfold fresh_enough in Hage.
      assert (RSSFetcher.published_at r = RSSFetcher.published_at r') as Hpub
        by (change (MarkdownStore.arg_published_at (content_of (_registry self) source r)
                    = MarkdownStore.arg_published_at (content_of (_registry self) source r'));
            rewrite Heq; reflexivity).
      lia.
  - intros s r Hold. apply collect_item_old, Hold.
  - intros s r Heq s'. subst s'.
    assert (fresh_enough cutoff r) as Hage by (unfold fresh_enough; lia).
    destruct (collect_item_cases force cutoff s r)
      as [Hold | [(_ & -> & Hin) | (_ & Hst)]]; [lia | right | left].
    + rewrite collect_item_duplicate by assumption. simpl. auto.
    + rewrite collect_item_stored by assumption. simpl. auto.
Qed.

(** C9.  With [force = true] every fetched item that passes the age
    filter is handed to [store_content], in feed order, and counted in
    [items_stored], whether or not its identifier was in the Duplicate
    Index; [items_skipped_duplicate] is 0, and every stored identifier is
    in the index afterwards.  The record stored for an item carries the
    item's identifier, source id, title, url, text, timestamps, author
    and metadata, the category of the source and the name the registry
    has for the item's source id; its file is in the store afterwards
    and holds the item's header and text unless a later item of the run
    was written to the same path. *)
Theorem C9_force_stores_again (env : Env) (source : Curation.Source)
    (self : t) (outcome : RSSFetcher.FetchOutcome) (cutoff : datetime) :
  RSSFetcher.fetch (net env) source = Ok outcome ->
  RSSFetcher.success outcome = true ->
  cutoff_of (utcnow_cutoff env) (_max_age_days self) = Ok cutoff ->
  let kept := filter (fresh_enough cutoff) (RSSFetcher.results outcome) in
  exists stats self',
    collect_source env source true self = Ok (stats, self')
    /\ items_stored stats = Z.of_nat (List.length kept)
    /\ items_skipped_duplicate stats = 0%Z
    /\ items_fetched stats = Z.of_nat (List.length (RSSFetcher.results outcome))
    /\ MarkdownStore.written (_store self')
       = rev (content_of (_registry self) source <$> kept)
         ++ MarkdownStore.written (_store self)
    /\ (forall r, r ∈ kept -> RSSFetcher.id r ∈ Deduplicator._ids (_dedup self'))
    /\ (forall r, r ∈ kept ->
          exists c,
            c ∈ MarkdownStore.written (_store self')
            /\ MarkdownStore.arg_content_id c = RSSFetcher.id r
            /\ MarkdownStore.arg_source_id c = RSSFetcher.source_id r
            /\ MarkdownStore.arg_source_name c
               = match Curation.get_source_by_id (_registry self) (RSSFetcher.source_id r) with
                 | Some source_obj => Curation.name source_obj
                 | None => RSSFetcher.source_id r
                 end
            /\ MarkdownStore.arg_title c = RSSFetcher.title r
            /\ MarkdownStore.arg_url c = RSSFetcher.url r
            /\ MarkdownStore.arg_content c = RSSFetcher.content r
            /\ MarkdownStore.arg_published_at c = RSSFetcher.published_at r
            /\ MarkdownStore.arg_fetched_at c = RSSFetcher.fetched_at r
            /\ MarkdownStore.arg_category c = Curation.category source
            /\ MarkdownStore.arg_author c = RSSFetcher.author r
            /\ MarkdownStore.arg_metadata c = Some (RSSFetcher.metadata r)
            /\ is_Some (MarkdownStore.files (_store self')
                        !! MarkdownStore.file_path_of c))
    /\ (forall before r after,
          kept = before ++ r :: after ->
          (forall r', r' ∈ after ->
             MarkdownStore.file_path_of (content_of (_registry self) source r')
             <> MarkdownStore.file_path_of (content_of (_registry self) source r)) ->
          MarkdownStore.files (_store self')
            !! MarkdownStore.file_path_of (content_of (_registry self) source r)
          = Some (MarkdownStore.md_content_of (content_of (_registry self) source r)))
    /\ (forall p,
          (forall r, r ∈ kept ->
             MarkdownStore.file_path_of (content_of (_registry self) source r) <> p) ->
          MarkdownStore.files (_store self') !! p
          = MarkdownStore.files (_store self) !! p).
Proof.
  intros Hfetch Hok Hcut kept.
  rewrite (collect_source_success source env true self outcome cutoff Hfetch Hok Hcut).
  eexists _, _. split; [reflexivity|]. simpl.
  match goal with
  | |- context [collect_items ?reg ?src true ?c ?s0 ?rs] =>
      destruct (collect_items_forced reg src c rs s0)
        as (Hw & Hst & _ & Hsk & Hfe & Hids);
      pose proof (collect_items_files reg src c rs s0) as Hfiles
  end.
  simpl in *. fold kept in Hw, Hst, Hids, Hfiles.
  rewrite Hw, Hst, Hsk, Hfe, Hids, Hfiles.
  split; [lia|]. split; [lia|]. split; [lia|]. split; [reflexivity|].
  split; [|split; [|split]].
  - intros r Hr. apply elem_of_union_l, elem_of_list_to_set, list_elem_of_fmap.
    exists r. auto.
  - intros r Hr. exists (content_of (_registry self) source r).
    assert (content_of (_registry self) source r
            ∈ rev (content_of (_registry self) source <$> kept)) as Hin.
    { apply list_elem_of_In. rewrite <- in_rev.
      apply list_elem_of_In, list_elem_of_fmap. exists r. auto. }
    split; [apply elem_of_app; left; exact Hin|].
    repeat (split; [reflexivity|]).
    apply lookup_written_some, Hin.
  - intros before r after Hsplit Hother. rewrite Hsplit.
    rewrite fmap_app, fmap_cons, rev_app_distr. simpl. rewrite <- app_assoc. simpl.
    apply lookup_written_latest.
    intros c' Hc'. apply list_elem_of_In in Hc'. rewrite <- in_rev in Hc'.
    apply list_elem_of_In, list_elem_of_fmap in Hc' as (r' & -> & Hr').
    apply Hother, Hr'.
  - intros p Hp.
    assert (forall c, c ∈ rev (content_of (_registry self) source <$> kept) ->
                      MarkdownStore.file_path_of c <> p) as Hnone.
    { intros c Hc. apply list_elem_of_In in Hc. rewrite <- in_rev in Hc.
      apply list_elem_of_In, list_elem_of_fmap in Hc as (r & -> & Hr). apply Hp, Hr. }
    clear -Hnone.
    induction (rev (content_of (_registry self) source <$> kept)) as [|c l IH];
      [reflexivity|]. simpl.
    rewrite lookup_insert_ne by (apply Hnone; left).
    apply IH. intros c' Hc'. apply Hnone. right. exact Hc'.
Qed.

End CoordinatorClaims.

Section IndexInvariant.
Context {py : PyLib}.
Import Coordinator.

Lemma collect_source_tracks env source force self :
  index_tracks_store self -> keeps_invariant (collect_source env source force self).
Proof.
  intros Hinv. unfold collect_source.
  destruct (Curation.type source). simpl.
  destruct (fetch_returns source (net env)) as [outcome ->]. simpl.
  destruct (RSSFetcher.success outcome); simpl.
  - destruct (cutoff_of (utcnow_cutoff env) (_max_age_days self)) as [cutoff|e] eqn:Hcut;
      simpl.
    + unfold index_tracks_store. simpl.
      apply (collect_items_tracks (_registry self) source force cutoff
               (RSSFetcher.results outcome)).
      exact Hinv.
    + eapply cutoff_of_raise, Hcut.
  - exact Hinv.
Qed.

Lemma collect_each_tracks envs force sources : forall stats self,
  index_tracks_store self -> keeps_invariant (collect_each envs force sources stats self).
Proof.
  induction sources as [|source rest IH]; intros stats self Hinv; simpl.
  - exact Hinv.
  - pose proof (collect_source_tracks (envs (Curation.id source)) source force self Hinv)
      as Hstep.
    destruct (collect_source (envs (Curation.id source)) source force self)
      as [[st self']|e]; simpl in *.
    + apply IH, Hstep.
    + exact Hstep.
Qed.

(** C10.  When [collect_item] stores an item it writes it and adds its
    identifier to the index in the same step, on the [force] path too;
    [add] changes nothing when the identifier is already there.  So
    [collect_source], [collect_all] and [collect_by_id] keep the
    invariant that the index holds an identifier iff an item with that
    identifier has been stored; they return unless the cutoff is not
    representable ([OverflowError], before anything is written). *)
Theorem C10_index_tracks_store (envs : string -> Env) (force : bool) (self : t) :
  index_tracks_store self ->
  (forall env source, keeps_invariant (collect_source env source force self))
  /\ keeps_invariant (collect_all envs force self)
  /\ (forall source_id,
        match collect_by_id envs source_id force self with
        | Ok (_, self') => index_tracks_store self'
        | Raise e => exn_type e = "OverflowError"
        end)
  /\ (forall reg source cutoff s r,
        fresh_enough cutoff r ->
        force = true \/ RSSFetcher.id r ∉ Deduplicator._ids (dedup s) ->
        let s' := collect_item reg source force cutoff s r in
        MarkdownStore.written (store s')
        = content_of reg source r :: MarkdownStore.written (store s)
        /\ Deduplicator._ids (dedup s') = {[RSSFetcher.id r]} ∪ Deduplicator._ids (dedup s))
  /\ (forall d i,
        i ∈ Deduplicator._ids d ->
        Deduplicator._ids (Deduplicator.add d i) = Deduplicator._ids d
        /\ Deduplicator.add (Deduplicator.add d i) i = Deduplicator.add d i).
Proof.
  intros Hinv. split; [|split; [|split; [|split]]].
  - intros env source. apply collect_source_tracks, Hinv.
  - apply collect_each_tracks, Hinv.
  - intros source_id. unfold collect_by_id.
    destruct (Curation.get_source_by_id (_registry self) source_id) as [source|]; simpl.
    + pose proof (collect_source_tracks (envs source_id) source force self Hinv) as Hstep.
      destruct (collect_source (envs source_id) source force self) as [[st self']|e];
        simpl in *; exact Hstep.
    + exact Hinv.
  - intros reg source cutoff s r Hage Hnew s'. subst s'.
    rewrite collect_item_stored by assumption. simpl. split; reflexivity.
  - intros d i Hin. split; [apply add_present, Hin | apply add_twice].
Qed.

End IndexInvariant.

(** *** The scenario *)

Lemma scenario_coordinator_tracks : index_tracks_store Scenario.coordinator.
Proof.
  intros i. simpl. rewrite elem_of_union, elem_of_singleton. split.
  - intros [-> | Hin]; [|set_solver].
    exists Scenario.seen_item. split; [left | reflexivity].
  - intros (c & Hc & Hid). apply elem_of_cons in Hc as [-> | Hc]; [|inversion Hc].
    left. symmetry. exact Hid.
Qed.

(** C2, failing instance of the claim as stated: the only fetched item
    carries an identifier that is in the Duplicate Index, the run has
    [force = false], and [items_skipped_duplicate] stays 0, because the
    item is older than the cutoff and the age filter comes first. *)
Lemma C2_old_duplicate_not_counted :
  exists outcome r stats self',
    RSSFetcher.fetch (Scenario.feed_of Scenario.old_and_seen) Scenario.tech_news = Ok outcome
    /\ RSSFetcher.results outcome = [r]
    /\ Deduplicator.exists_ (Coordinator._dedup Scenario.coordinator) (RSSFetcher.id r) = true
    /\ Coordinator.collect_source (py := Reference.lib)
         (Scenario.env_of (Scenario.feed_of Scenario.old_and_seen))
         Scenario.tech_news false Scenario.coordinator = Ok (stats, self')
    /\ Coordinator.items_fetched stats = 1%Z
    /\ Coordinator.items_skipped_duplicate stats = 0%Z.
Proof.
  eexists _, _, _, _.
  split; [vm_compute; reflexivity|].
  split; [reflexivity|].
  split; [vm_compute; reflexivity|].
  split; [vm_compute; reflexivity|].
  split; reflexivity.
Qed.

(** The scenario: the entry [seen-1], met after the ten-day-old
    entry, is counted as the run's one skipped duplicate. *)
Lemma C2_witness :
  exists stats self',
    Coordinator.collect_source (py := Reference.lib)
      (Scenario.env_of (Scenario.feed_of Scenario.three_entries))
      Scenario.tech_news false Scenario.coordinator = Ok (stats, self')
    /\ Coordinator.items_skipped_duplicate stats = 1%Z.
Proof.
  edestruct (C2_indexed_item_is_skipped (py := Reference.lib)
               (Scenario.env_of (Scenario.feed_of Scenario.three_entries))
               Scenario.tech_news Scenario.coordinator
               {| RSSFetcher.success := true;
                  RSSFetcher.results :=
                    [Scenario.old_result; Scenario.seen_result; Scenario.new_result];
                  RSSFetcher.error_message := None; RSSFetcher.error_type := None |}
               (Scenario.days_ago 7)
               [Scenario.old_result] [Scenario.new_result] Scenario.seen_result)
    as (_ & _ & _ & _ & _ & _ & stats & self' & Hrun & Hstats & _).
  - vm_compute. reflexivity.
  - reflexivity.
  - vm_compute. reflexivity.
  - reflexivity.
  - simpl. apply elem_of_union_l, elem_of_singleton. reflexivity.
  - vm_compute. discriminate.
  - exists stats, self'. split; [exact Hrun|].
    rewrite Hstats. vm_compute. reflexivity.
Defined.

(** The scenario: what the run writes is not older than seven days. *)
Lemma C4_witness :
  exists stats self' new,
    Coordinator.collect_source (py := Reference.lib)
      (Scenario.env_of (Scenario.feed_of Scenario.three_entries))
      Scenario.tech_news false Scenario.coordinator = Ok (stats, self')
    /\ MarkdownStore.written (Coordinator._store self')
       = new ++ MarkdownStore.written (Coordinator._store Scenario.coordinator)
    /\ (forall c, c ∈ new -> (Scenario.days_ago 7 <= MarkdownStore.arg_published_at c)%Z).
Proof.
  edestruct (C4_age_filter (py := Reference.lib)
               (Scenario.env_of (Scenario.feed_of Scenario.three_entries))
               Scenario.tech_news false Scenario.coordinator)
    as (Hcut & (stats & self' & new & Hrun & Hnew & Hage & _) & _).
  - vm_compute. reflexivity.
  - reflexivity.
  - vm_compute. reflexivity.
  - exists stats, self', new. split; [exact Hrun|]. split; [exact Hnew|]. exact Hage.
Defined.

(** C4, failing instance of the claim as stated: the cutoff is not taken
    at the start of the run but after each source's fetch has returned.
    In one [collect_all] run over two sources the entry published seven
    days before the start is stored, and the entry of the second source,
    published half an hour later, is dropped: no single cutoff keeps the
    first and drops the second. *)
Lemma C4_cutoff_read_after_each_fetch :
  exists stats self',
    Coordinator.collect_all (py := Reference.lib) Cases.slow_run false Cases.two_feeds
    = Ok (stats, self')
    /\ Coordinator.items_fetched stats = 2%Z
    /\ Coordinator.items_stored stats = 1%Z
    /\ Coordinator.items_skipped_duplicate stats = 0%Z
    /\ (MarkdownStore.arg_content_id <$> MarkdownStore.written (Coordinator._store self'))
       = ["edge-1"]
    /\ (MarkdownStore.arg_published_at <$> MarkdownStore.written (Coordinator._store self'))
       = [Scenario.days_ago 7]
    /\ (RSSFetcher.published_at <$>
         match RSSFetcher.fetch
                 (Coordinator.net (Cases.slow_run "world-news")) Cases.world_news with
         | Ok outcome => RSSFetcher.results outcome
         | Raise _ => []
         end) = [(Scenario.days_ago 7 + Cases.half_hour)%Z]
    /\ (forall cutoff : datetime,
          ~ ((cutoff <= Scenario.days_ago 7)%Z
             /\ (Scenario.days_ago 7 + Cases.half_hour < cutoff)%Z)).
Proof.
  eexists _, _. split; [vm_compute; reflexivity|].
  repeat (split; [vm_compute; reflexivity|]).
  intros cutoff [H1 H2]. unfold Cases.half_hour in H2. lia.
Qed.

(** The scenario with [force]: the indexed entry is stored again. *)
Lemma C9_witness :
  exists stats self',
    Coordinator.collect_source (py := Reference.lib)
      (Scenario.env_of (Scenario.feed_of Scenario.three_entries))
      Scenario.tech_news true Scenario.coordinator = Ok (stats, self')
    /\ Coordinator.items_stored stats = 2%Z
    /\ Coordinator.items_skipped_duplicate stats = 0%Z.
Proof.
  edestruct (C9_force_stores_again (py := Reference.lib)
               (Scenario.env_of (Scenario.feed_of Scenario.three_entries))
               Scenario.tech_news Scenario.coordinator)
    as (stats & self' & Hrun & Hstored & Hskipped & _).
  - vm_compute. reflexivity.
  - reflexivity.
  - vm_compute. reflexivity.
  - exists stats, self'. split; [exact Hrun|]. split; [|exact Hskipped].
    rewrite Hstored. vm_compute. reflexivity.
Defined.

(** A forced [collect_all] from the scenario's coordinator keeps the invariant. *)
Lemma C10_witness :
  keeps_invariant
    (Coordinator.collect_all (py := Reference.lib)
       (fun _ => Scenario.env_of (Scenario.feed_of Scenario.three_entries))
       true Scenario.coordinator).
Proof.
  exact (proj1 (proj2 (C10_index_tracks_store (py := Reference.lib)
                         (fun _ => Scenario.env_of (Scenario.feed_of Scenario.three_entries))
                         true Scenario.coordinator scenario_coordinator_tracks))).
Defined.

(** ** Facts about Python strings *)

#[local] Arguments String.append !s1 s2 : simpl nomatch.

Section StringFacts.
Import PyStr.

Lemma len_app (a b : string) : len (a +:+ b) = len a + len b.
Proof. induction a as [|c a IH]; simpl; [reflexivity | unfold len in *; simpl; lia]. Qed.

Lemma str_app_assoc (a b c : string) : (a +:+ b) +:+ c = a +:+ (b +:+ c).
Proof. induction a as [|x a IH]; simpl; [reflexivity | rewrite IH; reflexivity]. Qed.

Lemma drop_app_len (a b : string) : drop (len a) (a +:+ b) = b.
Proof. induction a as [|c a IH]; simpl; [destruct b; reflexivity | exact IH]. Qed.

Lemma take_app_len (a b : string) : take (len a) (a +:+ b) = a.
Proof. induction a as [|c a IH]; simpl; [reflexivity | unfold len in *; rewrite IH; reflexivity]. Qed.

Lemma startswith_app (p s t : string) :
  startswith p s = true -> startswith p (s +:+ t) = true.
Proof.
  revert s. induction p as [|a p IH]; intros s H; [reflexivity|].
  destruct s as [|b s]; simpl in *; [discriminate|].
  destruct (Ascii.eqb a b); [apply IH, H | discriminate].
Qed.

Lemma startswith_len (p s : string) : startswith p s = true -> len p <= len s.
Proof.
  revert s. induction p as [|a p IH]; intros s H; unfold len in *; simpl; [lia|].
  destruct s as [|b s]; simpl in *; [discriminate|].
  destruct (Ascii.eqb a b); [apply IH in H; lia | discriminate].
Qed.

Lemma startswith_false_app (p s t : string) :
  startswith p s = false -> len p <= len s -> startswith p (s +:+ t) = false.
Proof.
  revert s. induction p as [|a p IH]; intros s H Hlen; [discriminate|].
  destruct s as [|b s]; unfold len in *; simpl in *; [lia|].
  destruct (Ascii.eqb a b); [apply IH; [exact H | lia] | reflexivity].
Qed.

Lemma find_at_bound (sub s : string) (n : nat) :
  find_at sub s = Some n -> n + len sub <= len s.
Proof.
  revert n. induction s as [|c s IH]; intros n; simpl.
  - destruct (startswith sub EmptyString) eqn:Hp; [|discriminate].
    intros H. inversion H. apply startswith_len in Hp. simpl. exact Hp.
  - destruct (startswith sub (String c s)) eqn:Hp.
    + intros H. inversion H. apply startswith_len in Hp. simpl. exact Hp.
    + destruct (find_at sub s) as [m|]; simpl; [|discriminate].
      intros H. inversion H. specialize (IH m eq_refl). unfold len in *. simpl. lia.
Qed.

(** The first occurrence in a string is still the first one after more
    text is appended. *)
Lemma find_at_app (sub s t : string) (n : nat) :
  find_at sub s = Some n -> find_at sub (s +:+ t) = Some n.
Proof.
  revert n. induction s as [|c s IH]; intros n; simpl.
  - destruct (startswith sub EmptyString) eqn:Hp; [|discriminate].
    intros H. inversion H. subst.
    destruct sub; [|discriminate]. destruct t; reflexivity.
  - destruct (startswith sub (String c s)) eqn:Hp.
    + intros H. inversion H. subst.
      change (String c (s +:+ t)) with (String c s +:+ t).
      rewrite (startswith_app _ _ _ Hp). reflexivity.
    + destruct (find_at sub s) as [m|] eqn:Hm; simpl; [|discriminate].
      intros H. inversion H. subst.
      change (String c (s +:+ t)) with (String c s +:+ t).
      rewrite (startswith_false_app _ _ _ Hp).
      * simpl. rewrite (IH m eq_refl). reflexivity.
      * apply find_at_bound in Hm. unfold len in *. simpl. lia.
Qed.

(** The last component of a path that ends in [suffix]. *)
Lemma split_app_last (sep : ascii) (s suffix : string) :
  mem_char sep suffix = false ->
  exists init t, split sep (s +:+ suffix) = init ++ [t +:+ suffix].
Proof.
  intros Hsep. induction s as [|c s (init & t & IH)].
  - exists [], EmptyString. simpl.
    induction suffix as [|d suffix IHs]; [reflexivity|].
    simpl in *. apply orb_false_elim in Hsep as [Hd Hrest].
    rewrite Ascii.eqb_sym, Hd. rewrite (IHs Hrest). reflexivity.
  - simpl. destruct (Ascii.eqb c sep).
    + exists (EmptyString :: init), t. rewrite IH. reflexivity.
    + rewrite IH. destruct init as [|w init]; simpl.
      * exists [], (String c t). reflexivity.
      * exists (String c w :: init), t. reflexivity.
Qed.

Lemma endswith_app (t suffix : string) : endswith suffix (t +:+ suffix) = true.
Proof.
  unfold endswith. rewrite len_app.
  replace (len t + len suffix - len suffix) with (len t) by lia.
  rewrite drop_app_len, String.eqb_refl.
  apply andb_true_intro. split; [apply Nat.leb_le; lia | reflexivity].
Qed.

Lemma startswith_char (a d : ascii) (r : string) :
  startswith (String a EmptyString) (String d r) = Ascii.eqb a d.
Proof. cbn [startswith]. destruct (Ascii.eqb a d); reflexivity. Qed.

Lemma split_no_sep (sep : ascii) (s : string) :
  all_chars (fun c => negb (Ascii.eqb sep c)) s = true -> PyStr.split sep s = [s].
Proof.
  induction s as [|c s IH]; [reflexivity|].
  cbn [all_chars PyStr.split]. intros H. apply andb_prop in H as [Hc Hs].
  rewrite Ascii.eqb_sym. apply negb_true_iff in Hc. rewrite Hc, (IH Hs). reflexivity.
Qed.










(** A character that is no line break is read as it is, and the text
    after it as after any such character. *)
Lemma translate_newlines_app (after_cr : bool) (a : string) (c : ascii) (b : string) :
  Ascii.eqb c "013" = false -> Ascii.eqb c "010" = false ->
  translate_newlines after_cr (a +:+ String c b)
  = translate_newlines after_cr a +:+ String c (translate_newlines false b).
Proof.
  intros Hcr Hlf. revert after_cr. induction a as [|d a IH]; intros after_cr.
  - simpl. rewrite Hcr, Hlf. reflexivity.
  - simpl. destruct (Ascii.eqb d "013"); [rewrite IH; reflexivity|].
    destruct (Ascii.eqb d "010"); [destruct after_cr; rewrite IH; reflexivity|].
    rewrite IH. reflexivity.
Qed.

(** Reading a file made of a header and a body between the delimiters
    translates the line breaks of the two and leaves the delimiters. *)
Lemma universal_newlines_md (header body : string) :
  universal_newlines (MarkdownStore.opening +:+ header +:+ MarkdownStore.closing +:+ body)
  = MarkdownStore.opening +:+ universal_newlines header
    +:+ MarkdownStore.closing +:+ universal_newlines body.
Proof.
  unfold universal_newlines, MarkdownStore.opening, MarkdownStore.closing, newline.
  simpl. rewrite translate_newlines_app by reflexivity.
  reflexivity.
Qed.

End StringFacts.

(** ** Content Store *)
Section StoreProofs.
Context {py : PyLib}.
Import MarkdownStore.

Lemma elem_of_insert_desc {A} (key : A -> Z) (x y : A) (l : list A) :
  y ∈ insert_desc key x l <-> y = x \/ y ∈ l.
Proof.
  induction l as [|z l IH]; simpl.
  - rewrite list_elem_of_singleton, elem_of_nil. tauto.
  - destruct (key x <? key z)%Z; rewrite !elem_of_cons; [rewrite IH|]; tauto.
Qed.

Lemma elem_of_sort_desc {A} (key : A -> Z) (y : A) (l : list A) :
  y ∈ sort_desc key l <-> y ∈ l.
Proof.
  induction l as [|x l IH]; simpl; [reflexivity|].
  rewrite elem_of_insert_desc, elem_of_cons, IH. reflexivity.
Qed.

Lemma drop_add (a b : nat) (s : string) :
  PyStr.drop (a + b) s = PyStr.drop b (PyStr.drop a s).
Proof.
  revert s. induction a as [|a IH]; intros s; [reflexivity|].
  destruct s as [|c s]; simpl; [destruct b; reflexivity | apply IH].
Qed.

(** Where the closing delimiter is found, and what lies on either side
    of it, when the header holds no run of three hyphens. *)
Lemma delimiters (header body : string) :
  PyStr.find_at "---" (newline +:+ header +:+ "---") = Some (1 + PyStr.len header) ->
  let text := opening +:+ header +:+ closing +:+ body in
  PyStr.startswith "---" text = true
  /\ PyStr.find text "---" 3 = Z.of_nat (4 + PyStr.len header)
  /\ PyStr.slice 3 (4 + PyStr.len header) text = newline +:+ header
  /\ PyStr.strip (PyStr.drop (4 + PyStr.len header + 3) text) = PyStr.strip body.
Proof.
  intros Hfind text.
  assert (text = "---" +:+ ((newline +:+ header +:+ "---")
                            +:+ (newline +:+ newline +:+ body))) as Htext.
  { subst text. unfold opening, closing.
    rewrite !str_app_assoc. reflexivity. }
  assert (PyStr.drop 3 text
          = (newline +:+ header +:+ "---") +:+ (newline +:+ newline +:+ body)) as Hdrop
    by (rewrite Htext; reflexivity).
  split; [rewrite Htext; reflexivity|].
  split; [|split].
  - unfold PyStr.find. rewrite Hdrop, (find_at_app _ _ _ _ Hfind).
    rewrite Htext. reflexivity.
  - unfold PyStr.slice.
    replace (4 + PyStr.len header - 3) with (PyStr.len (newline +:+ header))
      by (rewrite len_app; unfold newline, PyStr.len; simpl; lia).
    rewrite Hdrop. rewrite <- (str_app_assoc newline header "---").
    rewrite str_app_assoc. apply take_app_len.
  - replace (4 + PyStr.len header + 3) with (3 + (PyStr.len (newline +:+ header) + 3))
      by (rewrite len_app; unfold newline, PyStr.len; simpl; lia).
    rewrite drop_add, Hdrop, drop_add.
    rewrite <- (str_app_assoc newline header "---").
    rewrite str_app_assoc, drop_app_len.
    reflexivity.
Qed.

Lemma last_parts_md (s : string) :
  exists init t, parts (s +:+ ".md") = init ++ [t +:+ ".md"].
Proof.
  destruct (split_app_last "/" s ".md" eq_refl) as (init & t & Hsplit).
  unfold parts. rewrite Hsplit, filter_app.
  eexists _, t. f_equal.
  rewrite filter_cons_True; [reflexivity|].
  split; intros H; apply (f_equal PyStr.len) in H; rewrite len_app in H;
    unfold PyStr.len in H; simpl in H; lia.
Qed.

(** The file [store_content] writes always has a name ending in [.md]. *)
Lemma file_path_is_md (c : Content) : is_md (file_path_of c).
Proof.
  unfold file_path_of, filename_of.
  rewrite <- !str_app_assoc.
  match goal with
  | |- context [joinpath ?base (?s +:+ ".md")] =>
      destruct (last_parts_md s) as (init & t & Hparts);
      assert (exists l, joinpath base (s +:+ ".md") = l ++ [t +:+ ".md"]) as [l ->]
  end.
  { unfold joinpath. rewrite Hparts.
    destruct (PyStr.startswith _ _).
    - exists ("/" :: init). reflexivity.
    - eexists. rewrite app_assoc. reflexivity. }
  unfold is_md. rewrite last_snoc. apply endswith_app.
Qed.

End StoreProofs.


Section RoundTripProofs.
Context {py : PyLib}.
Import MarkdownStore.

Lemma parse_written (c : Content) :
  header_round_trips c ->
  _parse_content_file (file_path_of c) (md_content_of c) = Some (read_back c).
Proof.
  intros (Hfind & (loaded & Hload & Hkeys) & Hpub & Hfet).
  destruct (delimiters _ (PyStr.universal_newlines (arg_content c)) Hfind)
    as (Hstart & Hend & Hslice & Hbody).
  unfold _parse_content_file, md_content_of.
  rewrite universal_newlines_md, Hstart, Hend. simpl negb. cbv iota.
  destruct (Z.ltb_spec
              (Z.of_nat (4 + PyStr.len (PyStr.universal_newlines
                                          (yaml_dump (front_matter_of c))))) 0);
    [lia|].
  cbv zeta. rewrite Nat2Z.id, Hslice, Hbody, Hload.
  unfold mbind, result_bind, getitem, get_method.
  rewrite !Hkeys by (unfold read_keys; set_solver).
  unfold read_back, front_matter_of.
  destruct (arg_author c) as [[|a0 a]|], (arg_metadata c) as [[|m0 m]|];
    simpl; rewrite Hpub, Hfet; reflexivity.
Qed.

Lemma records_of_elem (md_files : list (path * string)) (cf : ContentFile) :
  cf ∈ records_of md_files
  <-> exists f, f ∈ md_files /\ _parse_content_file f.1 f.2 = Some cf.
Proof. unfold records_of. apply list_elem_of_omap. Qed.

Lemma records_elem (st : MarkdownStore.t) (cf : ContentFile) :
  cf ∈ records st
  <-> exists p text, files st !! p = Some text
                     /\ below_content_dir p /\ is_md p
                     /\ _parse_content_file p text = Some cf.
Proof.
  unfold records. rewrite records_of_elem. split.
  - intros ([p text] & Hin & Hparse). unfold rglob_md in Hin.
    apply list_elem_of_filter in Hin as [[Hbelow Hmd] Hin].
    apply elem_of_map_to_list in Hin. exists p, text. auto.
  - intros (p & text & Hfile & Hbelow & Hmd & Hparse). exists (p, text).
    split; [|exact Hparse]. unfold rglob_md. apply list_elem_of_filter.
    split; [split; assumption | apply elem_of_map_to_list, Hfile].
Qed.

(** The loop of [get_content_since] raises when a record cannot be
    compared with [since], and collects the records fetched since then
    otherwise. *)
Lemma since_loop_eq (since : pydatetime) (md_files : list (path * string)) :
  forall results,
    since_loop since md_files results
    = if forallb (fun cf => same_kind (fetched_at cf) since) (records_of md_files)
      then Ok (results ++ filter (fun cf => fetched_since since cf = true)
                            (records_of md_files))
      else Raise Aware.mixed.
Proof.
  induction md_files as [|f md_files IH]; intros results.
  - simpl. rewrite app_nil_r. reflexivity.
  - unfold records_of. rewrite omap_cons_eq. fold (records_of md_files).
    cbn [since_loop].
    destruct (_parse_content_file f.1 f.2) as [cf|]; [|apply IH].
    cbn [forallb]. unfold fetched_since at 1, Aware.ge at 1, same_kind at 1.
    destruct (Bool.eqb _ _) eqn:Hkind; [|reflexivity].
    cbn [mbind result_bind andb]. rewrite IH.
    destruct (forallb _ _); [|reflexivity]. f_equal.
    destruct (decide (fetched_since since cf = true)) as [Hkeep | Hdrop].
    + rewrite filter_cons_True by exact Hkeep.
      unfold fetched_since, Aware.ge in Hkeep. rewrite Hkind in Hkeep. rewrite Hkeep.
      rewrite <- app_assoc. reflexivity.
    + rewrite filter_cons_False by exact Hdrop.
      unfold fetched_since, Aware.ge in Hdrop. rewrite Hkind in Hdrop.
      apply not_true_is_false in Hdrop. rewrite Hdrop. reflexivity.
Qed.

Lemma get_content_since_eq (st : MarkdownStore.t) (since : pydatetime) :
  get_content_since st since
  = if forallb (fun cf => same_kind (fetched_at cf) since) (records st)
    then sort_by_published
           (filter (fun cf => fetched_since since cf = true) (records st))
    else Raise Aware.mixed.
Proof.
  unfold get_content_since, records. rewrite since_loop_eq.
  destruct (forallb _ _); reflexivity.
Qed.

Lemma sort_by_published_ok (results l : list ContentFile) :
  sort_by_published results = Ok l
  <-> comparable (published_at <$> results) = true
      /\ l = sort_desc (fun x => Aware.instant (published_at x)) results.
Proof.
  unfold sort_by_published. destruct (comparable _).
  - split; [intros H; injection H as <-; auto | intros [_ ->]; reflexivity].
  - split; [discriminate | intros [H _]; discriminate].
Qed.

Lemma get_content_since_ok (st : MarkdownStore.t) (since : pydatetime)
    (l : list ContentFile) :
  get_content_since st since = Ok l
  <-> forallb (fun cf => same_kind (fetched_at cf) since) (records st) = true
      /\ comparable (published_at
                       <$> filter (fun cf => fetched_since since cf = true) (records st))
         = true
      /\ l = sort_desc (fun x => Aware.instant (published_at x))
               (filter (fun cf => fetched_since since cf = true) (records st)).
Proof.
  rewrite get_content_since_eq. destruct (forallb _ _).
  - rewrite sort_by_published_ok. tauto.
  - split; [discriminate | intros [H _]; discriminate].
Qed.

Lemma comparable_naive (results : list ContentFile) :
  Forall naive_record results -> comparable (published_at <$> results) = true.
Proof.
  intros Hall. unfold comparable. apply orb_true_intro. left.
  apply forallb_forall. intros d Hd. apply list_elem_of_In, list_elem_of_fmap in Hd
    as (cf & -> & Hcf).
  rewrite Forall_forall in Hall. apply (Hall cf Hcf).
Qed.

(** With naive timestamps everywhere and a naive [since], nothing
    raises. *)
Lemma get_content_since_naive (st : MarkdownStore.t) (since : datetime) :
  Forall naive_record (records st) ->
  exists l, get_content_since st (Naive since) = Ok l.
Proof.
  intros Hall. eexists. apply get_content_since_ok. split; [|split; [|reflexivity]].
  - apply forallb_forall. intros cf Hcf. apply list_elem_of_In in Hcf.
    rewrite Forall_forall in Hall. destruct (Hall cf Hcf) as [_ Hf].
    unfold same_kind. rewrite Hf. reflexivity.
  - apply comparable_naive. apply Forall_forall. intros cf Hcf.
    apply list_elem_of_filter in Hcf as [_ Hcf].
    rewrite Forall_forall in Hall. apply Hall, Hcf.
Qed.

(** The records of the store after a write: the records it had, and the
    one of the file just written. *)
Lemma records_after_store (c : Content) (st : MarkdownStore.t) (cf : ContentFile) :
  cf ∈ records (store_content c st).2 ->
  _parse_content_file (file_path_of c) (md_content_of c) = Some cf \/ cf ∈ records st.
Proof.
  rewrite !records_elem. intros (p & text & Hfile & Hbelow & Hmd & Hparse).
  simpl in Hfile.
  destruct (decide (file_path_of c = p)) as [<- | Hne].
  - rewrite lookup_insert_eq in Hfile. injection Hfile as <-. left. exact Hparse.
  - rewrite lookup_insert_ne in Hfile by exact Hne. right. exists p, text. auto.
Qed.

(** C1 (as amended).  After [store_content c], the file is where
    [store_content] says and [_parse_content_file] reads from it the
    record [read_back c]; provided the file lies below the content
    directory, every list that [get_content_since since] returns, for a
    naive [since] not after the fetch timestamp (the minimal timestamp
    in particular), holds that record; and the call does return when
    the records the store held before have naive timestamps.
    [read_back c] has the identifier, source, title, url, both
    timestamps and category of [c]; its body is the body of [c] with
    each carriage return (and a line feed after it) read as one line
    feed and stripped of surrounding whitespace, its author is [None]
    when [c] has an empty author, and the metadata is not part of it.
    All this is for a record whose header holds no run of three hyphens
    and is loaded by PyYAML as it was dumped. *)
Theorem C1_store_then_read (c : Content) (st : MarkdownStore.t) (since : datetime) :
  header_round_trips c ->
  below_content_dir (file_path_of c) ->
  (since <= arg_fetched_at c)%Z ->
  let st' := (store_content c st).2 in
  (store_content c st).1 = file_path_of c
  /\ files st' !! file_path_of c = Some (md_content_of c)
  /\ _parse_content_file (file_path_of c) (md_content_of c) = Some (read_back c)
  /\ (forall l, get_content_since st' (Naive since) = Ok l -> read_back c ∈ l)
  /\ (Forall naive_record (records st) ->
      exists l, get_content_since st' (Naive since) = Ok l /\ read_back c ∈ l).
Proof.
  intros Hlib Hbelow Hsince st'.
  assert (files st' !! file_path_of c = Some (md_content_of c)) as Hfile
    by (subst st'; simpl; apply lookup_insert_eq).
  assert (forall l, get_content_since st' (Naive since) = Ok l -> read_back c ∈ l)
    as Hback.
  { intros l Hl. apply get_content_since_ok in Hl as (_ & _ & ->).
    apply elem_of_sort_desc, list_elem_of_filter. split.
    - unfold fetched_since, Aware.ge. simpl.
      destruct (Z.leb_spec since (arg_fetched_at c)); [reflexivity | lia].
    - apply records_elem. exists (file_path_of c), (md_content_of c).
      split; [exact Hfile|]. split; [exact Hbelow|].
      split; [apply file_path_is_md | apply parse_written, Hlib]. }
  split; [reflexivity|]. split; [exact Hfile|].
  split; [apply parse_written, Hlib|]. split; [exact Hback|].
  intros Hnaive.
  destruct (get_content_since_naive st' since) as [l Hl].
  - apply Forall_forall. intros cf Hcf.
    apply records_after_store in Hcf as [Hparse | Hold].
    + rewrite (parse_written c Hlib) in Hparse. injection Hparse as <-.
      split; reflexivity.
    + rewrite Forall_forall in Hnaive. apply Hnaive, Hold.
  - exists l. split; [exact Hl | apply Hback, Hl].
Qed.

End RoundTripProofs.

(** C1, failing instances of the claim as stated.  A record whose body
    has surrounding whitespace and whose author is the empty string is
    read back, with the minimal timestamp, with another body and with
    author [None]; a body with a carriage return is read back with a
    line feed in its place; a record whose title holds three hyphens in
    a row is not read back at all; and next to a file whose timestamps
    carry a UTC offset the call raises [TypeError]. *)
Lemma C1_fields_change_or_vanish :
  (exists content_file,
     MarkdownStore.get_content_since (py := Reference.lib)
       (MarkdownStore.store_content Scenario.padded_item Scenario.empty_store).2 (Naive 0)
     = Ok [content_file]
     /\ MarkdownStore.title content_file = PStr (MarkdownStore.arg_title Scenario.padded_item)
     /\ MarkdownStore.content content_file <> MarkdownStore.arg_content Scenario.padded_item
     /\ MarkdownStore.author content_file <> PStr EmptyString)
  /\ (exists content_file,
        MarkdownStore.get_content_since (py := Reference.lib)
          (MarkdownStore.store_content Cases.two_line_item Scenario.empty_store).2 (Naive 0)
        = Ok [content_file]
        /\ MarkdownStore.arg_content Cases.two_line_item
           = "first line" +:+ String "013" newline +:+ "second line"
        /\ MarkdownStore.content content_file = "first line" +:+ newline +:+ "second line")
  /\ MarkdownStore.get_content_since (py := Reference.lib)
       (MarkdownStore.store_content Cases.dashed_item Scenario.empty_store).2 (Naive 0)
     = Ok []
  /\ MarkdownStore.get_content_since (py := Reference.lib)
       (MarkdownStore.store_content Scenario.seen_item Cases.zoned_store).2 (Naive 0)
     = Raise Aware.mixed.
Proof.
  split; [|split; [|split]].
  - eexists. split; [vm_compute; reflexivity|].
    split; [reflexivity|]. split; discriminate.
  - eexists. split; [vm_compute; reflexivity|].
    split; reflexivity.
  - vm_compute. reflexivity.
  - vm_compute. reflexivity.
Qed.

(** [seen_item], written to an empty store, is read back. *)
Lemma C1_witness :
  exists l,
    MarkdownStore.get_content_since (py := Reference.lib)
      (MarkdownStore.store_content Scenario.seen_item Scenario.empty_store).2 (Naive 0)
    = Ok l
    /\ read_back Scenario.seen_item ∈ l.
Proof.
  refine (proj2 (proj2 (proj2 (proj2
            (C1_store_then_read (py := Reference.lib) Scenario.seen_item
               Scenario.empty_store 0 _ _ _)))) _).
  - repeat split; try (vm_compute; reflexivity).
    eexists. split; [vm_compute; reflexivity|].
    intros k Hk. unfold read_keys in Hk.
    repeat (apply elem_of_cons in Hk as [-> | Hk]; [vm_compute; reflexivity|]).
    inversion Hk.
  - assert (MarkdownStore.file_path_of Scenario.seen_item
            = ["tech-news"; "2024-01-14-seen-before.md"]) as ->
      by (vm_compute; reflexivity).
    split; rewrite !not_elem_of_cons; repeat split; try discriminate; apply not_elem_of_nil.
  - vm_compute. discriminate.
  - vm_compute. constructor.
Defined.

(** ** Rebuilding the Duplicate Index *)
Section RebuildProofs.
Context {py : PyLib}.
Import Deduplicator.

Lemma omap_all_some {A B} (f : A -> option B) (l : list A) :
  Forall (fun x => is_Some (f x)) l -> List.length (omap f l) = List.length l.
Proof.
  induction 1 as [|x l [y Hy] _ IH]; [reflexivity|].
  rewrite omap_cons_eq, Hy. simpl. rewrite IH. reflexivity.
Qed.












End RebuildProofs.



(** * Further properties *)

(** ** The coordinator's counters and what a run leaves behind *)
Section CoordinatorMore.
Context {py : PyLib}.
Import Coordinator.

Variables (reg : Curation.SourceRegistry) (source : Curation.Source).

Lemma collect_items_cons force cutoff s r results :
  collect_items reg source force cutoff s (r :: results)
  = collect_items reg source force cutoff (collect_item reg source force cutoff s r) results.
Proof. reflexivity. Qed.

Lemma fresh_or_old cutoff r : fresh_enough cutoff r <-> ~ too_old cutoff r.
Proof. unfold fresh_enough, too_old. lia. Qed.

(** Every fetched item is counted once: as stored, as skipped, or as
    dropped by the age filter. *)
Lemma collect_items_accounting force cutoff results : forall s,
  let s' := collect_items reg source force cutoff s results in
  items_fetched (stats s') = (items_fetched (stats s) + Z.of_nat (List.length results))%Z
  /\ ((items_stored (stats s') - items_stored (stats s))
      + (items_skipped_duplicate (stats s') - items_skipped_duplicate (stats s))
      + Z.of_nat (List.length (filter (too_old cutoff) results))
      = Z.of_nat (List.length results))%Z
  /\ (items_stored (stats s) <= items_stored (stats s'))%Z
  /\ (items_skipped_duplicate (stats s) <= items_skipped_duplicate (stats s'))%Z
  /\ (items_stored_local s' - items_stored_local s
      = items_stored (stats s') - items_stored (stats s))%Z
  /\ Z.of_nat (List.length (MarkdownStore.written (store s')))
     = (Z.of_nat (List.length (MarkdownStore.written (store s)))
        + (items_stored (stats s') - items_stored (stats s)))%Z
  /\ sources_processed (stats s') = sources_processed (stats s)
  /\ errors (stats s') = errors (stats s).
Proof.
  induction results as [|r results IH]; intros s; cbv zeta.
  - simpl. repeat split; lia.
  - rewrite collect_items_cons.
    destruct (IH (collect_item reg source force cutoff s r))
      as (Hf & Hsum & Hst & Hsk & Hloc & Hlen & Hsp & Her).
    destruct (collect_item_cases force cutoff s r)
      as [Hold | [(Hage & -> & Hin) | (Hage & Hnew)]].
    + rewrite filter_cons_True by exact Hold.
      rewrite collect_item_old in * by exact Hold. simpl in *.
      repeat split; lia.
    + rewrite filter_cons_False by (apply fresh_or_old; exact Hage).
      rewrite collect_item_duplicate in * by assumption. simpl in *.
      repeat split; lia.
    + rewrite filter_cons_False by (apply fresh_or_old; exact Hage).
      rewrite collect_item_stored in * by assumption. simpl in *.
      repeat split; lia.
Qed.

(** The index never loses an identifier in the loop. *)
Lemma collect_items_ids_grow force cutoff results : forall s,
  Deduplicator._ids (dedup s)
  ⊆ Deduplicator._ids (dedup (collect_items reg source force cutoff s results)).
Proof.
  induction results as [|r results IH]; intros s; [reflexivity|].
  rewrite collect_items_cons. etransitivity; [|apply IH].
  destruct (collect_item_cases force cutoff s r)
    as [Hold | [(Hage & -> & Hin) | (Hage & Hnew)]].
  - rewrite collect_item_old by exact Hold. reflexivity.
  - rewrite collect_item_duplicate by assumption. reflexivity.
  - rewrite collect_item_stored by assumption. simpl. set_solver.
Qed.

(** After the loop every item that passed the age filter is indexed. *)
Lemma collect_items_indexes_fresh force cutoff results : forall s r,
  r ∈ results -> fresh_enough cutoff r ->
  RSSFetcher.id r ∈ Deduplicator._ids (dedup (collect_items reg source force cutoff s results)).
Proof.
  induction results as [|r0 results IH]; intros s r Hin Hage; [inversion Hin|].
  rewrite collect_items_cons.
  apply elem_of_cons in Hin as [-> | Hin]; [|apply IH; assumption].
  apply collect_items_ids_grow.
  destruct (collect_item_cases force cutoff s r0)
    as [Hold | [(_ & -> & Hseen) | (_ & Hnew)]].
  - unfold fresh_enough in Hage. lia.
  - rewrite collect_item_duplicate by assumption. exact Hseen.
  - rewrite collect_item_stored by assumption. simpl. set_solver.
Qed.

(** When every fresh item is already indexed, a run without [force]
    changes neither the store nor the index. *)
Lemma collect_items_all_seen cutoff results : forall s,
  (forall r, r ∈ results -> fresh_enough cutoff r ->
             RSSFetcher.id r ∈ Deduplicator._ids (dedup s)) ->
  let s' := collect_items reg source false cutoff s results in
  store s' = store s /\ dedup s' = dedup s
  /\ items_stored (stats s') = items_stored (stats s)
  /\ items_stored_local s' = items_stored_local s
  /\ items_skipped_duplicate (stats s')
     = (items_skipped_duplicate (stats s)
        + Z.of_nat (List.length (filter (fresh_enough cutoff) results)))%Z.
Proof.
  induction results as [|r results IH]; intros s Hseen; cbv zeta.
  - simpl. repeat split; lia.
  - rewrite collect_items_cons.
    destruct (decide (fresh_enough cutoff r)) as [Hage | Hold].
    + pose proof (Hseen r (list_elem_of_here _ _) Hage) as Hin.
      rewrite filter_cons_True by exact Hage.
      rewrite collect_item_duplicate by assumption.
      destruct (IH {| stats := count_skipped (count_fetched (stats s));
                      items_stored_local := items_stored_local s;
                      store := store s; dedup := dedup s |})
        as (Hs & Hd & Hst & Hloc & Hsk).
      { intros r' Hr' Hage'. simpl. apply Hseen; [right; exact Hr' | exact Hage']. }
      simpl in *. rewrite Hs, Hd, Hst, Hloc, Hsk. simpl.
      repeat split; lia.
    + rewrite filter_cons_False by exact Hold.
      rewrite collect_item_old by (unfold fresh_enough in Hold; lia).
      destruct (IH {| stats := count_fetched (stats s);
                      items_stored_local := items_stored_local s;
                      store := store s; dedup := dedup s |})
        as (Hs & Hd & Hst & Hloc & Hsk).
      { intros r' Hr' Hage'. simpl. apply Hseen; [right; exact Hr' | exact Hage']. }
      simpl in *. rewrite Hs, Hd, Hst, Hloc, Hsk. simpl.
      repeat split; lia.
Qed.

(** Without [force] the loop stores no identifier twice and none that was
    indexed before. *)
Lemma collect_items_distinct cutoff results : forall s,
  exists new,
    MarkdownStore.written (store (collect_items reg source false cutoff s results))
    = new ++ MarkdownStore.written (store s)
    /\ NoDup (MarkdownStore.arg_content_id <$> new)
    /\ (forall c, c ∈ new -> MarkdownStore.arg_content_id c ∉ Deduplicator._ids (dedup s))
    /\ Deduplicator._ids (dedup (collect_items reg source false cutoff s results))
       = list_to_set (MarkdownStore.arg_content_id <$> new) ∪ Deduplicator._ids (dedup s).
Proof.
  induction results as [|r results IH]; intros s.
  - exists []. simpl. repeat split; [constructor | intros c Hc; inversion Hc | set_solver].
  - rewrite collect_items_cons.
    destruct (IH (collect_item reg source false cutoff s r)) as (new & Hw & Hnd & Hnot & Hids).
    rewrite Hw, Hids. clear Hw Hids.
    destruct (collect_item_cases false cutoff s r)
      as [Hold | [(Hage & _ & Hin) | (Hage & [Hf | Hnew])]]; [| |discriminate|].
    + rewrite collect_item_old in * by exact Hold. simpl in *. eauto.
    + rewrite collect_item_duplicate in * by assumption. simpl in *. eauto.
    + rewrite collect_item_stored in * by auto. simpl in *.
      exists (new ++ [content_of reg source r]).
      rewrite <- app_assoc, fmap_app. simpl.
      split; [reflexivity|]. split; [|split].
      * apply NoDup_app. split; [exact Hnd|]. split; [|apply NoDup_singleton].
        intros i Hi Hi'. apply list_elem_of_singleton in Hi'. subst i.
        apply list_elem_of_fmap in Hi as (c & Hc & Hcin).
        apply (Hnot c Hcin). rewrite <- Hc. set_solver.
      * intros c Hc. apply elem_of_app in Hc as [Hc | Hc].
        -- specialize (Hnot c Hc). set_solver.
        -- apply list_elem_of_singleton in Hc. subst c. exact Hnew.
      * rewrite list_to_set_app_L. simpl. set_solver.
Qed.

Lemma collect_items_files_grow force cutoff results : forall s,
  dom (MarkdownStore.files (store s))
  ⊆ dom (MarkdownStore.files (store (collect_items reg source force cutoff s results))).
Proof.
  induction results as [|r results IH]; intros s; [reflexivity|].
  rewrite collect_items_cons. etransitivity; [|apply IH].
  destruct (collect_item_cases force cutoff s r)
    as [Hold | [(Hage & -> & Hin) | (Hage & Hnew)]].
  - rewrite collect_item_old by exact Hold. reflexivity.
  - rewrite collect_item_duplicate by assumption. reflexivity.
  - rewrite collect_item_stored by assumption. simpl. rewrite dom_insert_L. set_solver.
Qed.

End CoordinatorMore.

Section CollectSourceMore.
Context {py : PyLib}.
Import Coordinator.

(** The three ways [collect_source] ends. *)
Lemma collect_source_cases env source force self :
  exists outcome,
    RSSFetcher.fetch (net env) source = Ok outcome
    /\ ((RSSFetcher.success outcome = false
         /\ collect_source env source force self
            = Ok (failed_stats,
                  {| _registry := _registry self;
                     _state := SourceStateManager.record_failure (utcnow_record env)
                                 (Curation.id source)
                                 (Exn "Exception" (failure_message outcome))
                                 (duration env) (_state self);
                     _store := _store self; _dedup := _dedup self;
                     _max_age_days := _max_age_days self |}))
        \/ (RSSFetcher.success outcome = true
            /\ exists cutoff,
                 cutoff_of (utcnow_cutoff env) (_max_age_days self) = Ok cutoff
                 /\ let s := collect_items (_registry self) source force cutoff
                               (loop_start self) (RSSFetcher.results outcome) in
                    collect_source env source force self
                    = Ok (stats s,
                          {| _registry := _registry self;
                             _state := SourceStateManager.record_success (utcnow_record env)
                                         (Curation.id source) (items_stored_local s)
                                         (duration env) (_state self);
                             _store := store s; _dedup := dedup s;
                             _max_age_days := _max_age_days self |}))
        \/ (RSSFetcher.success outcome = true
            /\ exists e,
                 cutoff_of (utcnow_cutoff env) (_max_age_days self) = Raise e
                 /\ collect_source env source force self = Raise e)).
Proof.
  destruct (fetch_returns source (net env)) as [outcome Hfetch].
  exists outcome. split; [exact Hfetch|].
  destruct (RSSFetcher.success outcome) eqn:Hok.
  - right.
    destruct (cutoff_of (utcnow_cutoff env) (_max_age_days self)) as [cutoff|e] eqn:Hcut.
    + left. split; [reflexivity|]. exists cutoff. split; [reflexivity|].
      apply (collect_source_success source env force self outcome cutoff Hfetch Hok Hcut).
    + right. split; [reflexivity|]. exists e. split; [reflexivity|].
      unfold collect_source. destruct (Curation.type source). simpl.
      rewrite Hfetch. simpl. rewrite Hok. simpl. rewrite Hcut. reflexivity.
  - left. split; [reflexivity|].
    unfold collect_source. destruct (Curation.type source). simpl.
    rewrite Hfetch. simpl. rewrite Hok. simpl.
    unfold failure_message, failed_stats, with_error.
    destruct (RSSFetcher.error_message outcome) as [[|c m]|]; reflexivity.
Qed.

(** X1.  The counters of one [collect_source] run add up: every fetched
    item is counted exactly once, as stored, as skipped duplicate or as
    dropped by the age filter; the history of writes grows by
    [items_stored]; no error is counted. *)
Theorem collect_source_accounting (env : Env) (source : Curation.Source) (force : bool)
    (self : t) (outcome : RSSFetcher.FetchOutcome) (cutoff : datetime) :
  RSSFetcher.fetch (net env) source = Ok outcome ->
  RSSFetcher.success outcome = true ->
  cutoff_of (utcnow_cutoff env) (_max_age_days self) = Ok cutoff ->
  exists stats self',
    collect_source env source force self = Ok (stats, self')
    /\ sources_processed stats = 1%Z
    /\ errors stats = 0%Z
    /\ items_fetched stats = Z.of_nat (List.length (RSSFetcher.results outcome))
    /\ (items_stored stats + items_skipped_duplicate stats
        + Z.of_nat (List.length (filter (too_old cutoff) (RSSFetcher.results outcome)))
        = items_fetched stats)%Z
    /\ (0 <= items_stored stats)%Z
    /\ (0 <= items_skipped_duplicate stats)%Z
    /\ List.length (MarkdownStore.written (_store self'))
       = List.length (MarkdownStore.written (_store self)) + Z.to_nat (items_stored stats).
Proof.
  intros Hfetch Hok Hcut.
  rewrite (collect_source_success source env force self outcome cutoff Hfetch Hok Hcut).
  eexists _, _. split; [reflexivity|].
  destruct (collect_items_accounting (_registry self) source force cutoff
              (RSSFetcher.results outcome) (loop_start self))
    as (Hf & Hsum & Hst & Hsk & _ & Hlen & Hsp & Her).
  unfold loop_start in *. simpl in *.
  repeat split; try lia.
Qed.

(** X2.  After a successful run the state tracker holds the number of
    items stored (not fetched) as [items_fetched_last_run], has added it
    to the total, and shows a success; the states of other sources are as
    before. *)
Theorem collect_source_records_stored_count (env : Env) (source : Curation.Source)
    (force : bool) (self : t) (outcome : RSSFetcher.FetchOutcome) (cutoff : datetime) :
  RSSFetcher.fetch (net env) source = Ok outcome ->
  RSSFetcher.success outcome = true ->
  cutoff_of (utcnow_cutoff env) (_max_age_days self) = Ok cutoff ->
  exists stats self',
    collect_source env source force self = Ok (stats, self')
    /\ let before := state_of (_state self) (Curation.id source) in
       let after := state_of (_state self') (Curation.id source) in
       SourceStateManager.get_state (_state self') (Curation.id source) = Some after
       /\ SourceStateManager.items_fetched_last_run after = items_stored stats
       /\ SourceStateManager.total_items_fetched after
          = (SourceStateManager.total_items_fetched before + items_stored stats)%Z
       /\ (SourceStateManager.total_items_fetched before
           <= SourceStateManager.total_items_fetched after)%Z
       /\ SourceStateManager.last_fetch_success after = true
       /\ SourceStateManager.last_error after = None
       /\ SourceStateManager.consecutive_failures after = 0%Z
       /\ SourceStateManager.last_successful_fetch after
          = SourceStateManager.last_fetch_attempt after
       /\ (forall sid, sid <> Curation.id source ->
             SourceStateManager.get_state (_state self') sid
             = SourceStateManager.get_state (_state self) sid).
Proof.
  intros Hfetch Hok Hcut.
  rewrite (collect_source_success source env force self outcome cutoff Hfetch Hok Hcut).
  eexists _, _. split; [reflexivity|].
  destruct (collect_items_accounting (_registry self) source force cutoff
              (RSSFetcher.results outcome) (loop_start self))
    as (_ & _ & Hst & _ & Hloc & _).
  unfold loop_start in *. simpl in *.
  unfold state_of, SourceStateManager.get_state. simpl.
  rewrite lookup_insert_eq. simpl.
  repeat split; try lia.
  intros sid Hne. rewrite lookup_insert_ne by congruence. reflexivity.
Qed.

(** X3.  A failed fetch touches neither the store nor the index: the run
    counts one error and nothing else, and records a failure whose
    message is the outcome's message, or [Unknown error] when that is
    empty, and whose classification is always [Exception]. *)
Theorem collect_source_on_failure (env : Env) (source : Curation.Source) (force : bool)
    (self : t) (outcome : RSSFetcher.FetchOutcome) :
  RSSFetcher.fetch (net env) source = Ok outcome ->
  RSSFetcher.success outcome = false ->
  exists self',
    collect_source env source force self = Ok (failed_stats, self')
    /\ _store self' = _store self
    /\ _dedup self' = _dedup self
    /\ let before := state_of (_state self) (Curation.id source) in
       let after := state_of (_state self') (Curation.id source) in
       SourceStateManager.last_fetch_success after = false
       /\ SourceStateManager.last_error after = Some (failure_message outcome)
       /\ failure_message outcome <> EmptyString
       /\ SourceStateManager.last_error_type after = Some "Exception"
       /\ SourceStateManager.consecutive_failures after
          = (SourceStateManager.consecutive_failures before + 1)%Z
       /\ SourceStateManager.total_items_fetched after
          = SourceStateManager.total_items_fetched before
       /\ SourceStateManager.last_successful_fetch after
          = SourceStateManager.last_successful_fetch before.
Proof.
  intros Hfetch Hfail.
  destruct (collect_source_cases env source force self)
    as (outcome' & Hfetch' & [(_ & Hrun) | [(Hok & _) | (Hok & _)]]);
    rewrite Hfetch in Hfetch'; inversion Hfetch'; subst outcome'; try congruence.
  rewrite Hrun. eexists. split; [reflexivity|]. simpl.
  unfold state_of, SourceStateManager.get_state. simpl.
  rewrite lookup_insert_eq. simpl.
  repeat split.
  unfold failure_message. destruct (RSSFetcher.error_message outcome) as [[|c m]|]; discriminate.
Qed.

(** X4.  Ingestion is idempotent: when every item of a run without
    [force] that passes the age filter carries an identifier the index
    already holds (as after an earlier run over the same feed), the run
    stores nothing, leaves the store and the index as they are and counts
    each such item as a skipped duplicate. *)
Theorem collect_source_idempotent (env : Env) (source : Curation.Source) (self : t)
    (outcome : RSSFetcher.FetchOutcome) (cutoff : datetime) :
  RSSFetcher.fetch (net env) source = Ok outcome ->
  RSSFetcher.success outcome = true ->
  cutoff_of (utcnow_cutoff env) (_max_age_days self) = Ok cutoff ->
  (forall r, r ∈ RSSFetcher.results outcome -> fresh_enough cutoff r ->
             RSSFetcher.id r ∈ Deduplicator._ids (_dedup self)) ->
  exists stats self',
    collect_source env source false self = Ok (stats, self')
    /\ _store self' = _store self
    /\ _dedup self' = _dedup self
    /\ items_stored stats = 0%Z
    /\ items_skipped_duplicate stats
       = Z.of_nat (List.length (filter (fresh_enough cutoff) (RSSFetcher.results outcome))).
Proof.
  intros Hfetch Hok Hcut Hseen.
  rewrite (collect_source_success source env false self outcome cutoff Hfetch Hok Hcut).
  eexists _, _. split; [reflexivity|].
  destruct (collect_items_all_seen (_registry self) source cutoff
              (RSSFetcher.results outcome) (loop_start self) Hseen)
    as (Hs & Hd & Hst & _ & Hsk).
  unfold loop_start in *. simpl in *.
  rewrite Hs, Hd, Hst, Hsk. repeat split.
Qed.

(** X5.  Whatever [force] is, after a successful run the index holds the
    identifier of every fetched item that passed the age filter, so the
    next run without [force] over the same items stores nothing. *)
Theorem collect_source_then_again (env env2 : Env) (source : Curation.Source)
    (force : bool) (self : t) (outcome : RSSFetcher.FetchOutcome) (cutoff : datetime) :
  RSSFetcher.fetch (net env) source = Ok outcome ->
  RSSFetcher.success outcome = true ->
  cutoff_of (utcnow_cutoff env) (_max_age_days self) = Ok cutoff ->
  RSSFetcher.fetch (net env2) source = Ok outcome ->
  utcnow_cutoff env2 = utcnow_cutoff env ->
  exists stats self' stats2 self2,
    collect_source env source force self = Ok (stats, self')
    /\ (forall r, r ∈ RSSFetcher.results outcome -> fresh_enough cutoff r ->
                  RSSFetcher.id r ∈ Deduplicator._ids (_dedup self'))
    /\ collect_source env2 source false self' = Ok (stats2, self2)
    /\ items_stored stats2 = 0%Z
    /\ _store self2 = _store self'
    /\ _dedup self2 = _dedup self'.
Proof.
  intros Hfetch Hok Hcut Hfetch2 Hclock.
  rewrite (collect_source_success source env force self outcome cutoff Hfetch Hok Hcut).
  eexists _, _.
  match goal with
  | |- exists stats2 self2, Ok (_, ?self1) = _ /\ _ =>
      assert (forall r, r ∈ RSSFetcher.results outcome -> fresh_enough cutoff r ->
                        RSSFetcher.id r ∈ Deduplicator._ids (_dedup self1)) as Hseen
        by (intros r Hr Hage; simpl; apply collect_items_indexes_fresh; assumption);
      assert (cutoff_of (utcnow_cutoff env2) (_max_age_days self1) = Ok cutoff) as Hcut2
        by (rewrite Hclock; exact Hcut);
      rewrite (collect_source_success source env2 false self1 outcome cutoff
                 Hfetch2 Hok Hcut2);
      destruct (collect_items_all_seen (_registry self1) source cutoff
                  (RSSFetcher.results outcome) (loop_start self1) Hseen)
        as (Hs2 & Hd2 & Hst2 & _)
  end.
  eexists _, _.
  split; [reflexivity|]. split; [exact Hseen|]. split; [reflexivity|].
  unfold loop_start in *. simpl in *.
  rewrite Hs2, Hd2, Hst2. repeat split.
Qed.

(** X6.  A run without [force] never stores an identifier twice: the
    identifiers of the items it writes are pairwise distinct, none of
    them was in the index before, and the index afterwards is the old
    one plus exactly these. *)
Theorem collect_source_stores_new_only (env : Env) (source : Curation.Source) (self : t)
    (outcome : RSSFetcher.FetchOutcome) (cutoff : datetime) :
  RSSFetcher.fetch (net env) source = Ok outcome ->
  RSSFetcher.success outcome = true ->
  cutoff_of (utcnow_cutoff env) (_max_age_days self) = Ok cutoff ->
  exists stats self' new,
    collect_source env source false self = Ok (stats, self')
    /\ MarkdownStore.written (_store self') = new ++ MarkdownStore.written (_store self)
    /\ NoDup (MarkdownStore.arg_content_id <$> new)
    /\ (forall c, c ∈ new ->
          MarkdownStore.arg_content_id c ∉ Deduplicator._ids (_dedup self))
    /\ Deduplicator._ids (_dedup self')
       = list_to_set (MarkdownStore.arg_content_id <$> new) ∪ Deduplicator._ids (_dedup self).
Proof.
  intros Hfetch Hok Hcut.
  rewrite (collect_source_success source env false self outcome cutoff Hfetch Hok Hcut).
  destruct (collect_items_distinct (_registry self) source cutoff
              (RSSFetcher.results outcome) (loop_start self))
    as (new & Hw & Hnd & Hnot & Hids).
  eexists _, _, new. split; [reflexivity|]. simpl. auto.
Qed.

End CollectSourceMore.

(** The scenario's run: one stored, one skipped, one too old, three fetched. *)
Lemma collect_source_accounting_witness :
  exists stats self',
    Coordinator.collect_source (py := Reference.lib) Cases.scenario_env
      Scenario.tech_news false Scenario.coordinator = Ok (stats, self')
    /\ Coordinator.items_fetched stats = 3%Z.
Proof.
  edestruct (collect_source_accounting (py := Reference.lib) Cases.scenario_env
               Scenario.tech_news false Scenario.coordinator
               (Cases.fetched_ok
                  [Scenario.old_result; Scenario.seen_result; Scenario.new_result])
               (Scenario.days_ago 7))
    as (stats & self' & Hrun & _ & _ & Hfetched & _).
  - vm_compute. reflexivity.
  - reflexivity.
  - vm_compute. reflexivity.
  - exists stats, self'. split; [exact Hrun | exact Hfetched].
Defined.

(** The scenario's run leaves a success with one item in the tracker. *)
Lemma collect_source_records_stored_count_witness :
  exists stats self',
    Coordinator.collect_source (py := Reference.lib) Cases.scenario_env
      Scenario.tech_news false Scenario.coordinator = Ok (stats, self')
    /\ SourceStateManager.items_fetched_last_run
         (state_of (Coordinator._state self') "tech-news")
       = Coordinator.items_stored stats.
Proof.
  edestruct (collect_source_records_stored_count (py := Reference.lib) Cases.scenario_env
               Scenario.tech_news false Scenario.coordinator
               (Cases.fetched_ok
                  [Scenario.old_result; Scenario.seen_result; Scenario.new_result])
               (Scenario.days_ago 7))
    as (stats & self' & Hrun & _ & Hlast & _).
  - vm_compute. reflexivity.
  - reflexivity.
  - vm_compute. reflexivity.
  - exists stats, self'. split; [exact Hrun | exact Hlast].
Defined.

(** A parser failure without a message is recorded as [Unknown error]. *)
Lemma collect_source_on_failure_witness :
  exists self',
    Coordinator.collect_source (py := Reference.lib) Cases.failing_env
      Scenario.tech_news false Scenario.coordinator = Ok (failed_stats, self')
    /\ SourceStateManager.last_error (state_of (Coordinator._state self') "tech-news")
       = Some "Unknown error".
Proof.
  edestruct (collect_source_on_failure (py := Reference.lib) Cases.failing_env
               Scenario.tech_news false Scenario.coordinator Cases.silent_outcome)
    as (self' & Hrun & _ & _ & _ & Herr & _).
  - reflexivity.
  - reflexivity.
  - exists self'. split; [exact Hrun | exact Herr].
Defined.

(** A feed with nothing new stores nothing. *)
Lemma collect_source_idempotent_witness :
  exists stats self',
    Coordinator.collect_source (py := Reference.lib)
      (Scenario.env_of (Scenario.feed_of Cases.nothing_new))
      Scenario.tech_news false Scenario.coordinator = Ok (stats, self')
    /\ Coordinator._store self' = Coordinator._store Scenario.coordinator
    /\ Coordinator.items_stored stats = 0%Z.
Proof.
  edestruct (collect_source_idempotent (py := Reference.lib)
               (Scenario.env_of (Scenario.feed_of Cases.nothing_new))
               Scenario.tech_news Scenario.coordinator
               (Cases.fetched_ok [Scenario.old_result; Scenario.seen_result])
               (Scenario.days_ago 7))
    as (stats & self' & Hrun & Hstore & _ & Hstored & _).
  - vm_compute. reflexivity.
  - reflexivity.
  - vm_compute. reflexivity.
  - intros r Hr Hage. simpl in Hr.
    apply elem_of_cons in Hr as [-> | Hr].
    + exfalso. revert Hage. vm_compute. intros H. apply H. reflexivity.
    + apply list_elem_of_singleton in Hr. subst r.
      simpl. apply elem_of_union_l, elem_of_singleton. reflexivity.
  - exists stats, self'. auto.
Defined.

(** The scenario's feed collected twice: the second run stores nothing. *)
Lemma collect_source_then_again_witness :
  exists stats self' stats2 self2,
    Coordinator.collect_source (py := Reference.lib) Cases.scenario_env
      Scenario.tech_news true Scenario.coordinator = Ok (stats, self')
    /\ Coordinator.collect_source (py := Reference.lib) Cases.scenario_env
         Scenario.tech_news false self' = Ok (stats2, self2)
    /\ Coordinator.items_stored stats2 = 0%Z.
Proof.
  edestruct (collect_source_then_again (py := Reference.lib) Cases.scenario_env
               Cases.scenario_env Scenario.tech_news true Scenario.coordinator
               (Cases.fetched_ok
                  [Scenario.old_result; Scenario.seen_result; Scenario.new_result])
               (Scenario.days_ago 7))
    as (stats & self' & stats2 & self2 & Hrun & _ & Hrun2 & Hstored & _).
  - vm_compute. reflexivity.
  - reflexivity.
  - vm_compute. reflexivity.
  - vm_compute. reflexivity.
  - reflexivity.
  - exists stats, self', stats2, self2. auto.
Defined.

(** The scenario's run writes one new identifier. *)
Lemma collect_source_stores_new_only_witness :
  exists stats self' new,
    Coordinator.collect_source (py := Reference.lib) Cases.scenario_env
      Scenario.tech_news false Scenario.coordinator = Ok (stats, self')
    /\ MarkdownStore.written (Coordinator._store self')
       = new ++ MarkdownStore.written (Coordinator._store Scenario.coordinator)
    /\ NoDup (MarkdownStore.arg_content_id <$> new).
Proof.
  edestruct (collect_source_stores_new_only (py := Reference.lib) Cases.scenario_env
               Scenario.tech_news Scenario.coordinator
               (Cases.fetched_ok
                  [Scenario.old_result; Scenario.seen_result; Scenario.new_result])
               (Scenario.days_ago 7))
    as (stats & self' & new & Hrun & Hw & Hnd & _).
  - vm_compute. reflexivity.
  - reflexivity.
  - vm_compute. reflexivity.
  - exists stats, self', new. auto.
Defined.

Section CollectAllMore.
Context {py : PyLib}.
Import Coordinator.

Lemma grown_from_refl self : grown_from self self.
Proof. repeat split; try reflexivity. exists []. reflexivity. Qed.

Lemma grown_from_trans a b c : grown_from a b -> grown_from b c -> grown_from a c.
Proof.
  intros (Hi & (n1 & Hw) & Hf & Hr & Hm) (Hi' & (n2 & Hw') & Hf' & Hr' & Hm').
  repeat split; try (etransitivity; eassumption); try congruence.
  exists (n2 ++ n1). rewrite Hw', Hw, app_assoc. reflexivity.
Qed.

(** One source of a [collect_all] run whose cutoff is representable. *)
Lemma collect_source_step envs source force self cutoff :
  cutoff_of (utcnow_cutoff (envs (Curation.id source))) (_max_age_days self) = Ok cutoff ->
  exists stats self',
    collect_source (envs (Curation.id source)) source force self = Ok (stats, self')
    /\ grown_from self self'
    /\ sources_processed stats = 1%Z
    /\ errors stats = (if fetch_failed envs source then 1 else 0)%Z
    /\ (0 <= items_stored stats)%Z
    /\ (0 <= items_skipped_duplicate stats)%Z
    /\ (items_stored stats + items_skipped_duplicate stats <= items_fetched stats)%Z.
Proof.
  intros Hcut. unfold fetch_failed.
  destruct (collect_source_cases (envs (Curation.id source)) source force self)
    as (outcome & Hfetch & [(Hfail & Hrun) | [(Hok & c & Hc & Hrun) | (Hok & e & He & _)]]);
    [| |congruence]; rewrite Hfetch.
  - rewrite Hrun, Hfail. eexists _, _. split; [reflexivity|].
    split; [|simpl; repeat split; lia].
    repeat split; try reflexivity. exists []. reflexivity.
  - cbv zeta in Hrun. rewrite Hrun, Hok. eexists _, _. split; [reflexivity|].
    destruct (collect_items_accounting (_registry self) source force c
                (RSSFetcher.results outcome) (loop_start self))
      as (Hf & Hsum & Hst & Hsk & _ & _ & Hsp & Her).
    destruct (collect_items_written (_registry self) source force c
                (RSSFetcher.results outcome) (loop_start self)) as (new & Hnew & _).
    split.
    + repeat split; simpl.
      * apply (collect_items_ids_grow (_registry self) source force c
                 (RSSFetcher.results outcome) (loop_start self)).
      * exists new. exact Hnew.
      * apply (collect_items_files_grow (_registry self) source force c
                 (RSSFetcher.results outcome) (loop_start self)).
    + unfold loop_start in *. simpl in *. repeat split; lia.
Qed.

Lemma collect_each_counts envs force sources : forall stats self,
  (forall source, source ∈ sources ->
     exists cutoff,
       cutoff_of (utcnow_cutoff (envs (Curation.id source))) (_max_age_days self) = Ok cutoff) ->
  exists stats' self',
    collect_each envs force sources stats self = Ok (stats', self')
    /\ grown_from self self'
    /\ sources_processed stats'
       = (sources_processed stats + Z.of_nat (List.length sources))%Z
    /\ errors stats'
       = (errors stats + Z.of_nat (List.length (filter (fun s => fetch_failed envs s = true)
                                                        sources)))%Z
    /\ (items_stored stats <= items_stored stats')%Z
    /\ (items_skipped_duplicate stats <= items_skipped_duplicate stats')%Z
    /\ (items_fetched stats' - items_fetched stats
        >= (items_stored stats' - items_stored stats)
           + (items_skipped_duplicate stats' - items_skipped_duplicate stats))%Z.
Proof.
  induction sources as [|source rest IH]; intros stats self Hcuts.
  - exists stats, self. simpl. split; [reflexivity|].
    split; [apply grown_from_refl|]. repeat split; lia.
  - destruct (Hcuts source (list_elem_of_here _ _)) as [cutoff Hcut].
    destruct (collect_source_step envs source force self cutoff Hcut)
      as (st & self1 & Hrun & Hgrow & Hsp & Her & Hst & Hsk & Hle).
    assert (Hmax : _max_age_days self1 = _max_age_days self) by apply Hgrow.
    destruct (IH (add_stats stats st) self1) as (stats' & self' & Hrest & Hgrow' & Hsp' & Her' & Hst' & Hsk' & Hle').
    { intros s Hs. rewrite Hmax. apply Hcuts. right. exact Hs. }
    exists stats', self'. simpl. rewrite Hrun. simpl.
    split; [exact Hrest|]. split; [eapply grown_from_trans; eassumption|].
    simpl in *.
    destruct (fetch_failed envs source) eqn:Hff.
    + rewrite filter_cons_True by exact Hff. simpl. repeat split; lia.
    + rewrite filter_cons_False by (rewrite Hff; discriminate). repeat split; lia.
Qed.

(** X7.  Nothing is ever taken away by collecting: after [collect_source]
    the index holds every identifier it held, the history of writes is
    the old one with new writes in front, every file that existed still
    exists, and the registry and [max_age_days] are untouched. *)
Theorem collect_source_only_grows (env : Env) (source : Curation.Source) (force : bool)
    (self : t) (stats : CollectionStats) (self' : t) :
  collect_source env source force self = Ok (stats, self') ->
  grown_from self self'.
Proof.
  intros Hrun.
  destruct (collect_source_cases env source force self)
    as (outcome & Hfetch & [(Hfail & Hrun') | [(Hok & c & Hc & Hrun') | (Hok & e & He & Hrun')]]);
    rewrite Hrun' in Hrun; inversion Hrun; subst; clear Hrun.
  - repeat split; try reflexivity. exists []. reflexivity.
  - destruct (collect_items_written (_registry self) source force c
                (RSSFetcher.results outcome) (loop_start self)) as (new & Hnew & _).
    repeat split; simpl.
    + apply (collect_items_ids_grow (_registry self) source force c
               (RSSFetcher.results outcome) (loop_start self)).
    + exists new. exact Hnew.
    + apply (collect_items_files_grow (_registry self) source force c
               (RSSFetcher.results outcome) (loop_start self)).
Qed.

(** X8.  [collect_all] visits every enabled source once, in registry
    order, and a failing source does not stop it: whenever the cutoff is
    representable it returns, [sources_processed] is the number of enabled
    sources, [errors] is the number of them whose fetch failed, the
    counters add up, and nothing stored or indexed before is lost. *)
Theorem collect_all_counts (envs : string -> Env) (force : bool) (self : t) :
  (forall source, source ∈ Curation.get_enabled_sources (_registry self) ->
     exists cutoff,
       cutoff_of (utcnow_cutoff (envs (Curation.id source))) (_max_age_days self) = Ok cutoff) ->
  exists stats self',
    collect_all envs force self = Ok (stats, self')
    /\ sources_processed stats
       = Z.of_nat (List.length (Curation.get_enabled_sources (_registry self)))
    /\ errors stats
       = Z.of_nat (List.length (filter (fun s => fetch_failed envs s = true)
                                  (Curation.get_enabled_sources (_registry self))))
    /\ (0 <= items_stored stats)%Z
    /\ (0 <= items_skipped_duplicate stats)%Z
    /\ (items_stored stats + items_skipped_duplicate stats <= items_fetched stats)%Z
    /\ grown_from self self'.
Proof.
  intros Hcuts.
  destruct (collect_each_counts envs force (Curation.get_enabled_sources (_registry self))
              no_stats self Hcuts)
    as (stats & self' & Hrun & Hgrow & Hsp & Her & Hst & Hsk & Hle).
  exists stats, self'. unfold collect_all. simpl in *.
  split; [exact Hrun|]. repeat split; try lia. all: apply Hgrow.
Qed.

End CollectAllMore.

(** The scenario's run only adds to the coordinator's state. *)
Lemma collect_source_only_grows_witness :
  match Coordinator.collect_source (py := Reference.lib) Cases.scenario_env
          Scenario.tech_news false Scenario.coordinator with
  | Ok (_, self') => grown_from Scenario.coordinator self'
  | Raise _ => False
  end.
Proof.
  destruct (Coordinator.collect_source (py := Reference.lib) Cases.scenario_env
              Scenario.tech_news false Scenario.coordinator)
    as [[stats self']|e] eqn:Hrun.
  - exact (collect_source_only_grows (py := Reference.lib) _ _ _ _ _ _ Hrun).
  - vm_compute in Hrun. discriminate Hrun.
Defined.

(** One enabled source whose fetch fails: one processed, one error. *)
Lemma collect_all_counts_witness :
  exists stats self',
    Coordinator.collect_all (py := Reference.lib) (fun _ => Cases.failing_env)
      false Scenario.coordinator = Ok (stats, self')
    /\ Coordinator.sources_processed stats = 1%Z
    /\ Coordinator.errors stats = 1%Z.
Proof.
  edestruct (collect_all_counts (py := Reference.lib) (fun _ => Cases.failing_env)
               false Scenario.coordinator)
    as (stats & self' & Hrun & Hsp & Her & _).
  - intros source _. eexists. vm_compute. reflexivity.
  - exists stats, self'. split; [exact Hrun|]. split; [exact Hsp | exact Her].
Defined.

(** ** Persistence of the index and of the source states *)
Section PersistenceMore.
Context {py : PyLib}.

Lemma dedup_reload_saved (d : Deduplicator.t) :
  Deduplicator.init (Deduplicator._index_path (Deduplicator._save d))
  = Ok (Deduplicator._save d).
Proof.
  unfold Deduplicator.init, Deduplicator._load, Deduplicator._save. simpl.
  rewrite list_to_set_elements_L. reflexivity.
Qed.

(** X9.  [add] persists at once: a Duplicate Index constructed from the
    file that [add] (or a [rebuild_from_files] that returned) wrote is
    the same index; after [add] the identifier is found and no other
    identifier changes its answer. *)
Theorem dedup_add_survives_restart (d : Deduplicator.t) (i : string)
    (content_dir : MarkdownStore.tree) :
  Deduplicator.init (Deduplicator._index_path (Deduplicator.add d i))
  = Ok (Deduplicator.add d i)
  /\ Deduplicator.exists_ (Deduplicator.add d i) i = true
  /\ (forall j, j <> i ->
        Deduplicator.exists_ (Deduplicator.add d i) j = Deduplicator.exists_ d j)
  /\ (forall count d',
        Deduplicator.rebuild_from_files d content_dir = Ok (count, d') ->
        Deduplicator.init (Deduplicator._index_path d') = Ok d').
Proof.
  split; [apply dedup_reload_saved|]. split; [|split].
  - apply exists_spec. rewrite add_ids. set_solver.
  - intros j Hne. unfold Deduplicator.exists_. rewrite add_ids.
    apply bool_decide_ext. set_solver.
  - intros count d'. unfold Deduplicator.rebuild_from_files.
    destruct (Deduplicator.scan _ _) as [[ids n]|e]; [|discriminate].
    cbn [mbind result_bind fst snd]. intros H. injection H as _ <-.
    apply dedup_reload_saved.
Qed.

(** The names of a dictionary after an assignment. *)
Lemma set_member_keys {V} (k : string) (v : V) (d : list (string * V)) (j : string) :
  j ∈ (SourceStateManager.set_member k v d).*1 <-> j = k \/ j ∈ d.*1.
Proof.
  induction d as [|[k' v'] d IH]; cbn [SourceStateManager.set_member].
  - cbn. rewrite list_elem_of_singleton, elem_of_nil. tauto.
  - destruct (String.eqb_spec k k') as [-> | Hne]; cbn; rewrite !elem_of_cons.
    + tauto.
    + rewrite IH. tauto.
Qed.

Lemma set_member_nodup {V} (k : string) (v : V) (d : list (string * V)) :
  NoDup d.*1 -> NoDup (SourceStateManager.set_member k v d).*1.
Proof.
  induction d as [|[k' v'] d IH]; cbn [SourceStateManager.set_member]; intros Hnd.
  - cbn. apply NoDup_singleton.
  - cbn in Hnd. apply NoDup_cons in Hnd as [Hk' Hnd].
    destruct (String.eqb_spec k k') as [-> | Hne]; cbn; apply NoDup_cons.
    + auto.
    + split; [|apply IH, Hnd]. rewrite set_member_keys. intros [-> | Hin]; auto.
Qed.

Lemma set_member_fresh {V} (k : string) (v : V) (d : list (string * V)) :
  k ∉ d.*1 -> SourceStateManager.set_member k v d = d ++ [(k, v)].
Proof.
  induction d as [|[k' v'] d IH]; cbn [SourceStateManager.set_member]; intros Hk;
    [reflexivity|].
  cbn in Hk. apply not_elem_of_cons in Hk as [Hne Hk].
  destruct (String.eqb_spec k k') as [-> | _]; [congruence|].
  rewrite IH by exact Hk. reflexivity.
Qed.

(** The dictionary made of an object has each name once. *)
Lemma json_object_nodup_keys {V} (members : list (string * V)) :
  NoDup (SourceStateManager.json_object members).*1.
Proof.
  unfold SourceStateManager.json_object.
  assert (forall d : list (string * V), NoDup d.*1 ->
            NoDup (foldl (fun d kv => SourceStateManager.set_member kv.1 kv.2 d)
                     d members).*1) as Hfold.
  { induction members as [|[k v] members IH]; intros d Hd; [exact Hd|].
    cbn [foldl]. apply IH, set_member_nodup, Hd. }
  apply Hfold. constructor.
Qed.

(** An object without repeated names is read as its text lists it. *)
Lemma json_object_nodup {V} (members : list (string * V)) :
  NoDup members.*1 -> SourceStateManager.json_object members = members.
Proof.
  unfold SourceStateManager.json_object.
  assert (forall d : list (string * V), NoDup (d ++ members).*1 ->
            foldl (fun d kv => SourceStateManager.set_member kv.1 kv.2 d) d members
            = d ++ members) as Hfold.
  { induction members as [|[k v] members IH]; intros d Hd.
    - cbn. rewrite app_nil_r. reflexivity.
    - cbn [foldl fst snd]. rewrite set_member_fresh.
      + rewrite IH; rewrite <- app_assoc; [reflexivity | exact Hd].
      + rewrite fmap_app in Hd. apply NoDup_app in Hd as (_ & Hd & _).
        intros Hk. apply (Hd k Hk). cbn. left.
  }
  intros Hnd. apply (Hfold [] Hnd).
Qed.

Lemma load_entries_well_formed members : forall states,
  SourceStateManager.load_entries (well_formed members) states
  = (foldl (fun m kv => <[kv.1 := kv.2]> m) states members, None).
Proof.
  induction members as [|[k v] members IH]; intros states; [reflexivity|].
  simpl. apply IH.
Qed.

Lemma load_entries_stops members sid rest : forall states,
  SourceStateManager.load_entries (well_formed members ++ (sid, None) :: rest) states
  = (foldl (fun m kv => <[kv.1 := kv.2]> m) states members,
     Some (Exn "TypeError" "unexpected keyword argument")).
Proof.
  induction members as [|[k v] members IH]; intros states; [reflexivity|].
  simpl. apply IH.
Qed.

Lemma foldl_insert_lookup_None (members : list (string * SourceStateManager.SourceState)) k :
  forall states : gmap string SourceStateManager.SourceState,
  k ∉ members.*1 ->
  foldl (fun m kv => <[kv.1 := kv.2]> m) states members !! k = states !! k.
Proof.
  induction members as [|[k' v] members IH]; intros states Hk; [reflexivity|].
  simpl in *. apply not_elem_of_cons in Hk as [Hne Hk].
  rewrite IH by exact Hk. apply lookup_insert_ne. congruence.
Qed.

Lemma foldl_insert_map_to_list (m : gmap string SourceStateManager.SourceState) :
  foldl (fun acc kv => <[kv.1 := kv.2]> acc) ∅ (map_to_list m) = m.
Proof.
  apply map_eq. intros k.
  assert (forall (l : list (string * SourceStateManager.SourceState))
                 (acc : gmap string SourceStateManager.SourceState),
            NoDup l.*1 ->
            foldl (fun acc kv => <[kv.1 := kv.2]> acc) acc l !! k
            = match list_to_map (M := gmap string SourceStateManager.SourceState) l !! k with
              | Some v => Some v
              | None => acc !! k
              end) as Hfold.
  { induction l as [|[k' v] l IH]; intros acc Hnd; [reflexivity|].
    simpl in *. apply NoDup_cons in Hnd as [Hk' Hnd].
    rewrite IH by exact Hnd.
    destruct (decide (k = k')) as [->|Hne].
    - rewrite (not_elem_of_list_to_map_1 _ _ Hk'), !lookup_insert_eq. reflexivity.
    - rewrite !(lookup_insert_ne _ k' k) by congruence. reflexivity. }
  rewrite Hfold by apply NoDup_fst_map_to_list.
  rewrite list_to_map_to_list, lookup_empty.
  destruct (m !! k); reflexivity.
Qed.

Lemma state_reload_saved (self : SourceStateManager.t) :
  SourceStateManager.init (SourceStateManager._state_file (SourceStateManager._save self))
  = Ok (SourceStateManager._save self).
Proof.
  unfold SourceStateManager.init, SourceStateManager._load, SourceStateManager._save,
    SourceStateManager.try_block. simpl.
  change (prod_map id Some <$> map_to_list (SourceStateManager._states self))
    with (well_formed (map_to_list (SourceStateManager._states self))).
  rewrite json_object_nodup
    by (unfold well_formed; rewrite <- list_fmap_compose; apply NoDup_fst_map_to_list).
  rewrite load_entries_well_formed. simpl.
  rewrite foldl_insert_map_to_list. reflexivity.
Qed.

(** X10.  Every record call writes the whole state through: a tracker
    constructed from the file a [record_success] or [record_failure] call
    left is the same tracker, with the same state for every source. *)
Theorem state_survives_restart (sid : string) (self : SourceStateManager.t) (a : attempt) :
  SourceStateManager.init (SourceStateManager._state_file (record sid self a))
  = Ok (record sid self a)
  /\ (forall self', SourceStateManager.init
                      (SourceStateManager._state_file (record sid self a)) = Ok self' ->
                    forall sid', SourceStateManager.get_state self' sid'
                                 = SourceStateManager.get_state (record sid self a) sid').
Proof.
  assert (SourceStateManager.init (SourceStateManager._state_file (record sid self a))
          = Ok (record sid self a)) as Hinit
    by (destruct a; apply state_reload_saved).
  split; [exact Hinit|].
  intros self' Hself' sid'. rewrite Hinit in Hself'. inversion Hself'. reflexivity.
Qed.

(** X11.  [json.load] makes a dictionary of the state file, in which of
    the members with one name the last one counts, at the place of the
    first.  Loading stops at the first member of this dictionary that
    does not fit [SourceState]: nothing is raised, the members before
    it are loaded, and every member after it is lost, well-formed or
    not.  A file of well-formed members only is loaded whole. *)
Theorem state_load_stops_at_bad_member
    (entries : list (string * option SourceStateManager.SourceState))
    (members : list (string * SourceStateManager.SourceState)) (sid : string)
    (rest : list (string * option SourceStateManager.SourceState)) :
  SourceStateManager.json_object entries = well_formed members ++ (sid, None) :: rest ->
  let file := SourceStateManager.Document entries in
  SourceStateManager.init file
  = Ok {| SourceStateManager._states := states_of_members members;
          SourceStateManager._state_file := file |}
  /\ (forall k, k ∉ members.*1 ->
        SourceStateManager.get_state
          {| SourceStateManager._states := states_of_members members;
             SourceStateManager._state_file := file |} k = None)
  /\ (forall k state, (k, state) ∈ members ->
        SourceStateManager.get_state
          {| SourceStateManager._states := states_of_members members;
             SourceStateManager._state_file := file |} k = Some state)
  /\ SourceStateManager.init (SourceStateManager.Document (well_formed members))
     = Ok {| SourceStateManager._states := states_of_members members;
             SourceStateManager._state_file :=
               SourceStateManager.Document (well_formed members) |}.
Proof.
  intros Hobject file. subst file.
  assert (NoDup members.*1) as Hnd.
  { pose proof (json_object_nodup_keys entries) as Hkeys.
    rewrite Hobject, fmap_app in Hkeys. apply NoDup_app in Hkeys as (Hkeys & _).
    unfold well_formed in Hkeys. rewrite <- list_fmap_compose in Hkeys. exact Hkeys. }
  unfold SourceStateManager.init, SourceStateManager._load, SourceStateManager.try_block.
  simpl. rewrite Hobject, load_entries_stops.
  rewrite json_object_nodup
    by (unfold well_formed; rewrite <- list_fmap_compose; exact Hnd).
  rewrite load_entries_well_formed. simpl.
  split; [reflexivity|]. split; [|split; [|reflexivity]].
  - intros k Hk. unfold SourceStateManager.get_state, states_of_members. simpl.
    rewrite foldl_insert_lookup_None by exact Hk. apply lookup_empty.
  - intros k state Hin. unfold SourceStateManager.get_state, states_of_members. simpl.
    clear Hobject. revert Hin Hnd.
    generalize (∅ : gmap string SourceStateManager.SourceState).
    induction members as [|[k' v] members IH]; intros acc Hin Hnd; [inversion Hin|].
    cbn in Hnd. apply NoDup_cons in Hnd as [Hk' Hnd]. cbn [foldl fst snd].
    apply elem_of_cons in Hin as [Heq | Hin].
    + injection Heq as -> ->. rewrite foldl_insert_lookup_None by exact Hk'.
      apply lookup_insert_eq.
    + apply IH; assumption.
Qed.

(** X12.  After a record call the source's state is among the sources
    needing attention exactly when the call recorded a failure, whatever
    the state was before (a success clears the flag at once, one failure
    sets it). *)
Theorem attention_iff_last_attempt_failed (sid : string) (self : SourceStateManager.t)
    (a : attempt) :
  let after := state_of (record sid self a) sid in
  SourceStateManager.needs_attention after = is_failure a
  /\ (after ∈ SourceStateManager.get_sources_needing_attention (record sid self a)
      <-> is_failure a = true).
Proof.
  intros after.
  assert (SourceStateManager.needs_attention after = is_failure a) as Hneeds.
  { subst after. unfold state_of, SourceStateManager.get_state, SourceStateManager.needs_attention.
    destruct a; simpl; rewrite lookup_insert_eq; simpl; [reflexivity|].
    apply orb_true_r. }
  split; [exact Hneeds|].
  unfold SourceStateManager.get_sources_needing_attention.
  rewrite list_elem_of_filter, list_elem_of_fmap, Hneeds. split.
  - intros [Hn _]. exact Hn.
  - intros Hfail. split; [exact Hfail|].
    exists (sid, after). split; [reflexivity|].
    apply elem_of_map_to_list. apply (state_of_record sid self a).
Qed.

End PersistenceMore.

(** ** What the Feed Fetcher hands over *)
Section FetcherMore.

Lemma parse_entry_some net entry source fetched_at r :
  RSSFetcher._parse_entry net entry source fetched_at = Some r ->
  first_truthy (RSSFetcher.e_id entry) (RSSFetcher.e_link entry) (RSSFetcher.e_title entry)
  = Some (RSSFetcher.id r)
  /\ RSSFetcher.id r <> EmptyString
  /\ r = {| RSSFetcher.id := RSSFetcher.id r;
            RSSFetcher.source_id := Curation.id source;
            RSSFetcher.title := default "Untitled" (RSSFetcher.e_title entry);
            RSSFetcher.content :=
              RSSFetcher.enrich net (default EmptyString (RSSFetcher.e_link entry))
                (RSSFetcher.feed_content entry);
            RSSFetcher.url := default EmptyString (RSSFetcher.e_link entry);
            RSSFetcher.published_at := RSSFetcher.published_at r;
            RSSFetcher.fetched_at := fetched_at;
            RSSFetcher.author := RSSFetcher.e_author entry;
            RSSFetcher.metadata := [("tags", PList (RSSFetcher.entry_tags entry))] |}
  /\ RSSFetcher.entry_published entry fetched_at = Ok (RSSFetcher.published_at r).
Proof.
  unfold RSSFetcher._parse_entry, first_truthy.
  destruct (RSSFetcher.or_else _ _) as [[|a ident]|]; simpl; try discriminate.
  destruct (RSSFetcher.entry_published entry fetched_at) as [published|e]; simpl;
    try discriminate.
  intros [= <-]. simpl. repeat split; discriminate.
Qed.

(** X13.  Every item of a fetch outcome comes from an entry of the parsed
    feed: its identifier is the entry's id, else its link, else its title
    (the first that is present and non-empty) and is never empty; it
    carries the source's id and the one clock reading of the fetch; title
    and url default to "Untitled" and the empty string; the publication
    time is the entry's published time, else its updated time, else the
    fetch time; the metadata is one "tags" list. *)
Theorem fetched_item_shape (net : RSSFetcher.Net) (source : Curation.Source)
    (outcome : RSSFetcher.FetchOutcome) (r : RSSFetcher.FetchResult) :
  RSSFetcher.fetch net source = Ok outcome ->
  r ∈ RSSFetcher.results outcome ->
  RSSFetcher.success outcome = true
  /\ RSSFetcher.id r <> EmptyString
  /\ RSSFetcher.source_id r = Curation.id source
  /\ RSSFetcher.fetched_at r = RSSFetcher.utcnow net
  /\ exists feed entry,
       RSSFetcher.feedparser_parse net (Curation.url source) = Ok feed
       /\ entry ∈ RSSFetcher.entries feed
       /\ first_truthy (RSSFetcher.e_id entry) (RSSFetcher.e_link entry)
            (RSSFetcher.e_title entry) = Some (RSSFetcher.id r)
       /\ RSSFetcher.title r = default "Untitled" (RSSFetcher.e_title entry)
       /\ RSSFetcher.url r = default EmptyString (RSSFetcher.e_link entry)
       /\ RSSFetcher.content r
          = RSSFetcher.enrich net (RSSFetcher.url r) (RSSFetcher.feed_content entry)
       /\ RSSFetcher.entry_published entry (RSSFetcher.utcnow net)
          = Ok (RSSFetcher.published_at r)
       /\ RSSFetcher.author r = RSSFetcher.e_author entry
       /\ RSSFetcher.metadata r = [("tags", PList (RSSFetcher.entry_tags entry))].
Proof.
  unfold RSSFetcher.fetch, try_except.
  destruct (RSSFetcher.feedparser_parse net (Curation.url source)) as [feed|e] eqn:Hfeed;
    simpl.
  - destruct (RSSFetcher.bozo feed && bool_decide (RSSFetcher.entries feed = [])).
    + intros [= <-]. simpl. intros Hr. apply elem_of_nil in Hr. contradiction.
    + intros [= <-]. simpl. intros Hr.
      apply list_elem_of_omap in Hr as (entry & Hentry & Hparse).
      apply parse_entry_some in Hparse as (Hid & Hne & Hr & Hpub).
      split; [reflexivity|]. split; [exact Hne|].
      split; [rewrite Hr; reflexivity|]. split; [rewrite Hr; reflexivity|].
      exists feed, entry. split; [reflexivity|]. split; [exact Hentry|].
      split; [exact Hid|]. repeat split; try (rewrite Hr; reflexivity). exact Hpub.
  - intros [= <-]. simpl. intros Hr. apply elem_of_nil in Hr. contradiction.
Qed.

(** X14.  Fetching the full article never loses text: the content kept
    is the feed's own or the strictly longer extracted article; and for an
    entry without link, or with at least 500 characters of content that
    holds no anchor tag, the feed's content is kept whatever the network
    would answer. *)
Theorem enrich_never_shortens (net : RSSFetcher.Net) (url content : string) :
  (PyStr.len content <= PyStr.len (RSSFetcher.enrich net url content))%nat
  /\ (RSSFetcher.enrich net url content = content
      \/ (RSSFetcher._fetch_full_article net url = Some (RSSFetcher.enrich net url content)
          /\ PyStr.len content < PyStr.len (RSSFetcher.enrich net url content))%nat)
  /\ (url = EmptyString
      \/ (500 <= PyStr.len content)%nat /\ PyStr.contains "<a href=" content = false ->
      forall net', RSSFetcher.enrich net' url content = content).
Proof.
  split; [|split].
  - unfold RSSFetcher.enrich.
    destruct (negb _ && _); [|lia].
    destruct (RSSFetcher._fetch_full_article net url) as [full|]; [|lia].
    destruct (RSSFetcher.truthy (Some full)); simpl; [|lia].
    destruct (Nat.ltb_spec (PyStr.len content) (PyStr.len full)); lia.
  - unfold RSSFetcher.enrich.
    destruct (negb _ && _); [|left; reflexivity].
    destruct (RSSFetcher._fetch_full_article net url) as [full|]; [|left; reflexivity].
    destruct (RSSFetcher.truthy (Some full)); simpl; [|left; reflexivity].
    destruct (Nat.ltb_spec (PyStr.len content) (PyStr.len full));
      [right; split; [reflexivity|lia] | left; reflexivity].
  - intros Hquiet net'. unfold RSSFetcher.enrich.
    destruct Hquiet as [-> | [Hlong Hplain]]; [reflexivity|].
    rewrite Hplain.
    destruct (Nat.ltb_spec (PyStr.len content) 500); [lia|].
    rewrite andb_false_r. reflexivity.
Qed.

End FetcherMore.

(** A state file whose second member is malformed, and which names its
    first member again after it: the first member is loaded with the
    later value, the last member is lost. *)
Lemma state_load_stops_at_bad_member_witness :
  exists self',
    SourceStateManager.init
      (SourceStateManager.Document
         [("tech-news", Some (SourceStateManager.new_state "stale"));
          ("broken", None);
          ("tech-news", Some (SourceStateManager.new_state "tech-news"));
          ("later", Some (SourceStateManager.new_state "later"))]) = Ok self'
    /\ SourceStateManager.get_state self' "tech-news"
       = Some (SourceStateManager.new_state "tech-news")
    /\ SourceStateManager.get_state self' "later" = None.
Proof.
  destruct (state_load_stops_at_bad_member
              [("tech-news", Some (SourceStateManager.new_state "stale"));
               ("broken", None);
               ("tech-news", Some (SourceStateManager.new_state "tech-news"));
               ("later", Some (SourceStateManager.new_state "later"))]
              [("tech-news", SourceStateManager.new_state "tech-news")] "broken"
              [("later", Some (SourceStateManager.new_state "later"))])
    as (Hinit & Hlost & _).
  - reflexivity.
  - eexists. split; [exact Hinit|]. split; [reflexivity|].
    apply Hlost. simpl. rewrite not_elem_of_cons. split; [discriminate|apply not_elem_of_nil].
Defined.

(** The scenario's feed: the item made of its third entry. *)
Lemma fetched_item_shape_witness :
  RSSFetcher.fetch (Scenario.feed_of Scenario.three_entries) Scenario.tech_news
  = Ok (Cases.fetched_ok [Scenario.old_result; Scenario.seen_result; Scenario.new_result])
  /\ RSSFetcher.id Scenario.new_result <> EmptyString
  /\ RSSFetcher.source_id Scenario.new_result = "tech-news".
Proof.
  assert (RSSFetcher.fetch (Scenario.feed_of Scenario.three_entries) Scenario.tech_news
          = Ok (Cases.fetched_ok
                  [Scenario.old_result; Scenario.seen_result; Scenario.new_result]))
    as Hfetch by (vm_compute; reflexivity).
  split; [exact Hfetch|].
  destruct (fetched_item_shape (Scenario.feed_of Scenario.three_entries) Scenario.tech_news
              (Cases.fetched_ok
                 [Scenario.old_result; Scenario.seen_result; Scenario.new_result])
              Scenario.new_result Hfetch)
    as (_ & Hid & Hsource & _).
  - simpl. rewrite !elem_of_cons. right. right. left. reflexivity.
  - split; [exact Hid | exact Hsource].
Defined.

(** An entry without link keeps its summary, whatever could be downloaded. *)
Lemma enrich_never_shortens_witness :
  RSSFetcher.enrich Scenario.silent_failure EmptyString "short" = "short".
Proof.
  destruct (enrich_never_shortens (Scenario.feed_of []) EmptyString "short")
    as (_ & _ & Hquiet).
  apply Hquiet. left. reflexivity.
Defined.

(** ** The shape of a slug *)
Section SlugProofs.
Import PyStr.

Lemma all_chars_app p a b : all_chars p (a +:+ b) = all_chars p a && all_chars p b.
Proof.
  induction a as [|c a IH]; simpl; [reflexivity|].
  rewrite IH. apply andb_assoc.
Qed.

Lemma all_chars_impl (p q : ascii -> bool) s :
  (forall c, p c = true -> q c = true) -> all_chars p s = true -> all_chars q s = true.
Proof.
  intros Hpq. induction s as [|c s IH]; simpl; [reflexivity|].
  intros H. apply andb_prop in H as [Hc Hs].
  rewrite (Hpq c Hc), (IH Hs). reflexivity.
Qed.

Lemma no_hyphen_pair_cons a b s :
  no_hyphen_pair (String a (String b s))
  = negb (PyStr.is_hyphen a && PyStr.is_hyphen b) && no_hyphen_pair (String b s).
Proof. reflexivity. Qed.

Lemma no_hyphen_pair_tail c s : no_hyphen_pair (String c s) = true -> no_hyphen_pair s = true.
Proof.
  destruct s as [|b s]; [reflexivity|].
  rewrite no_hyphen_pair_cons. intros H. apply andb_prop in H as [_ H]. exact H.
Qed.

Lemma no_hyphen_pair_app a b :
  no_hyphen_pair (a +:+ b) = true -> no_hyphen_pair a = true /\ no_hyphen_pair b = true.
Proof.
  induction a as [|c a IH]; [intros H; split; [reflexivity | exact H]|].
  intros H. change (String c a +:+ b) with (String c (a +:+ b)) in H.
  pose proof (no_hyphen_pair_tail _ _ H) as Htail.
  destruct (IH Htail) as [Ha Hb]. split; [|exact Hb].
  destruct a as [|d a]; [reflexivity|].
  change (String c (String d a +:+ b)) with (String c (String d (a +:+ b))) in H.
  rewrite no_hyphen_pair_cons in H |- *.
  apply andb_prop in H as [Hcd _]. rewrite Hcd. exact Ha.
Qed.

Lemma take_drop_app n s : s = take n s +:+ drop n s.
Proof.
  revert s. induction n as [|n IH]; intros s; [reflexivity|].
  destruct s as [|c s]; [reflexivity|]. simpl. rewrite <- IH. reflexivity.
Qed.

Lemma len_take n s : len (take n s) <= n.
Proof.
  revert s. induction n as [|n IH]; intros s; [simpl; unfold len; simpl; lia|].
  destruct s as [|c s]; unfold len in *; simpl; [lia|]. specialize (IH s). lia.
Qed.

Lemma lstrip_suffix p s : exists pre, s = pre +:+ lstrip_with p s.
Proof.
  induction s as [|c s [pre IH]]; [exists EmptyString; reflexivity|].
  simpl. destruct (p c).
  - exists (String c pre). simpl. rewrite <- IH. reflexivity.
  - exists EmptyString. reflexivity.
Qed.

Lemma rstrip_prefix p s : exists suf, s = rstrip_with p s +:+ suf.
Proof.
  induction s as [|c s [suf IH]]; [exists EmptyString; reflexivity|].
  simpl. destruct (rstrip_with p s) as [|d r] eqn:Hr.
  - destruct (p c).
    + exists (String c s). reflexivity.
    + exists s. reflexivity.
  - exists suf. simpl. simpl in IH. rewrite <- IH. reflexivity.
Qed.

Lemma lstrip_head p s : lstrip_with p s = EmptyString
                        \/ exists c r, lstrip_with p s = String c r /\ p c = false.
Proof.
  induction s as [|c s IH]; [left; reflexivity|].
  simpl. destruct (p c) eqn:Hc; [exact IH|].
  right. exists c, s. split; [reflexivity | exact Hc].
Qed.

Lemma endswith_cons (suffix : string) c s :
  len suffix <= len s -> endswith suffix (String c s) = endswith suffix s.
Proof.
  intros Hlen. unfold endswith, len in *. cbn [String.length].
  replace (S (String.length s) - String.length suffix)
    with (S (String.length s - String.length suffix)) by lia.
  cbn [drop].
  destruct (Nat.leb_spec (String.length suffix) (S (String.length s))); [|lia].
  destruct (Nat.leb_spec (String.length suffix) (String.length s)); [|lia].
  reflexivity.
Qed.

Lemma rstrip_last (a : ascii) p s :
  p a = true -> endswith (String a EmptyString) (rstrip_with p s) = false.
Proof.
  intros Ha. induction s as [|c s IH]; [reflexivity|].
  simpl. destruct (rstrip_with p s) as [|d r] eqn:Hr.
  - destruct (p c) eqn:Hc; [reflexivity|].
    unfold endswith. cbn [len String.length Nat.sub drop Nat.leb andb String.eqb].
    destruct (Ascii.eqb_spec c a) as [->|Hne]; [congruence|reflexivity].
  - rewrite endswith_cons; [exact IH|]. unfold len. simpl. lia.
Qed.

Lemma squeeze_chars (p q q' : ascii -> bool) s :
  q' "-"%char = true ->
  (forall c, q c = true -> p c = false -> q' c = true) ->
  all_chars q s = true ->
  forall in_run, all_chars q' (squeeze p in_run s) = true.
Proof.
  intros Hhyphen Hkeep. induction s as [|c s IH]; intros Hq in_run; [reflexivity|].
  simpl in Hq. apply andb_prop in Hq as [Hc Hs]. simpl.
  destruct (p c) eqn:Hp.
  - destruct in_run; [apply IH, Hs|]. simpl. rewrite Hhyphen. apply IH, Hs.
  - simpl. rewrite (Hkeep c Hc Hp). apply IH, Hs.
Qed.

Lemma squeeze_hyphens s : forall in_run,
  no_hyphen_pair (squeeze is_hyphen in_run s) = true
  /\ (in_run = true -> startswith "-" (squeeze is_hyphen in_run s) = false).
Proof.
  induction s as [|c s IH]; intros in_run; [split; reflexivity|].
  cbn [squeeze]. destruct (is_hyphen c) eqn:Hc.
  - destruct in_run.
    + apply IH.
    + split; [|discriminate].
      destruct (IH true) as [Hpair Hstart].
      destruct (squeeze is_hyphen true s) as [|d r] eqn:Hr; [reflexivity|].
      rewrite no_hyphen_pair_cons. rewrite Hpair.
      specialize (Hstart eq_refl). rewrite startswith_char in Hstart.
      unfold is_hyphen at 2. rewrite Ascii.eqb_sym, Hstart.
      rewrite andb_false_r. reflexivity.
  - destruct (IH false) as [Hpair _]. split.
    + destruct (squeeze is_hyphen false s) as [|d r] eqn:Hr; [reflexivity|].
      rewrite no_hyphen_pair_cons. rewrite Hpair, Hc. reflexivity.
    + intros _. rewrite startswith_char. unfold is_hyphen in Hc.
      rewrite Ascii.eqb_sym. exact Hc.
Qed.

Lemma filter_lower_chars (text : string) :
  all_chars (fun c => (isword c || isspace c || is_hyphen c) && negb (is_upper c))
    (filter_chars (fun c => isword c || isspace c || is_hyphen c) (lower text)) = true.
Proof.
  assert (forall c, negb (is_upper (lower_char c)) = true) as Hlower.
  { intros c. destruct c as [[] [] [] [] [] [] [] []]; vm_compute; reflexivity. }
  induction text as [|c text IH]; [reflexivity|].
  unfold lower in *. simpl.
  destruct (isword (lower_char c) || isspace (lower_char c) || is_hyphen (lower_char c))
    eqn:Hkeep; [|exact IH].
  simpl. rewrite Hkeep, Hlower, IH. reflexivity.
Qed.

Lemma no_hyphen_pair_contains s : no_hyphen_pair s = true -> contains "--" s = false.
Proof.
  unfold contains.
  induction s as [|a s IH]; [reflexivity|].
  intros H. pose proof (no_hyphen_pair_tail _ _ H) as Htail.
  specialize (IH Htail).
  cbn [find_at].
  assert (startswith "--" (String a s) = false) as ->.
  { destruct s as [|b s]; cbn [startswith].
    - destruct (Ascii.eqb "-" a); reflexivity.
    - rewrite no_hyphen_pair_cons in H. apply andb_prop in H as [Hab _].
      unfold is_hyphen in Hab.
      rewrite (Ascii.eqb_sym a), (Ascii.eqb_sym b) in Hab.
      destruct (Ascii.eqb "-" a); [|reflexivity].
      destruct (Ascii.eqb "-" b); [discriminate | reflexivity]. }
  destruct (find_at "--" s); [discriminate | reflexivity].
Qed.

Lemma all_chars_contains (a : ascii) p s :
  p a = false -> all_chars p s = true -> contains (String a EmptyString) s = false.
Proof.
  intros Ha. unfold contains.
  induction s as [|c s IH]; [reflexivity|].
  cbn [all_chars find_at]. intros H. apply andb_prop in H as [Hc Hs]. specialize (IH Hs).
  rewrite startswith_char.
  destruct (Ascii.eqb_spec a c) as [->|Hne]; [congruence|].
  destruct (find_at (String a EmptyString) s); [discriminate | reflexivity].
Qed.

(** The shape of the value [_slugify] returns. *)
Lemma slug_parts (text : string) :
  let slug := MarkdownStore._slugify text in
  len slug <= 50
  /\ all_chars slug_char slug = true
  /\ startswith "-" slug = false
  /\ endswith "-" slug = false
  /\ contains "--" slug = false
  /\ contains "/" slug = false
  /\ contains "." slug = false.
Proof.
  intros slug. subst slug. unfold MarkdownStore._slugify.
  set (kept := filter_chars _ (lower text)).
  set (dashed := squeeze (fun c => isspace c || is_underscore c) false kept).
  set (single := squeeze is_hyphen false dashed).
  set (q := fun c => is_hyphen c
                     || ((isword c || isspace c || is_hyphen c) && negb (is_upper c)
                         && negb (isspace c || is_underscore c))).
  assert (all_chars q dashed = true) as Hdashed.
  { apply (squeeze_chars _ _ q _ eq_refl) with (2 := filter_lower_chars text).
    intros c Hc Hp. unfold q. rewrite Hc, Hp. apply orb_true_r. }
  assert (all_chars q single = true) as Hsingle.
  { apply (squeeze_chars _ q q _ eq_refl) with (2 := Hdashed). intros c Hc _. exact Hc. }
  destruct (squeeze_hyphens dashed false) as [Hpair _]. fold single in Hpair.
  unfold strip_chars, strip_with.
  set (p := fun c => mem_char c "-").
  destruct (lstrip_suffix p (take 50 single)) as [pre Hpre].
  destruct (rstrip_prefix p (lstrip_with p (take 50 single))) as [suf Hsuf].
  set (slug := rstrip_with p (lstrip_with p (take 50 single))) in *.
  assert (all_chars q slug = true /\ no_hyphen_pair slug = true) as [Hq Hnp].
  { pose proof (take_drop_app 50 single) as Htake.
    rewrite Htake in Hsingle, Hpair.
    rewrite all_chars_app in Hsingle. apply andb_prop in Hsingle as [Hsingle _].
    apply no_hyphen_pair_app in Hpair as [Hpair _].
    rewrite Hpre in Hsingle, Hpair.
    rewrite all_chars_app in Hsingle. apply andb_prop in Hsingle as [_ Hsingle].
    apply no_hyphen_pair_app in Hpair as [_ Hpair].
    rewrite Hsuf in Hsingle, Hpair.
    rewrite all_chars_app in Hsingle. apply andb_prop in Hsingle as [Hsingle _].
    apply no_hyphen_pair_app in Hpair as [Hpair _].
    split; assumption. }
  assert (all_chars slug_char slug = true) as Hslug.
  { apply (all_chars_impl q); [|exact Hq].
    intros c. unfold q, slug_char.
    destruct c as [[] [] [] [] [] [] [] []]; vm_compute; intros H;
      first [reflexivity | discriminate H]. }
  split; [|split; [exact Hslug|split; [|split; [|split; [|split]]]]].
  - pose proof (len_take 50 single) as Hlen.
    apply (f_equal len) in Hpre, Hsuf. rewrite len_app in Hpre, Hsuf.
    fold slug in Hsuf. lia.
  - destruct (lstrip_head p (take 50 single)) as [Hempty | (c & r & Hcr & Hc)].
    + subst slug. rewrite Hempty. reflexivity.
    + rewrite Hcr in Hsuf. destruct slug as [|d slug']; [reflexivity|].
      simpl in Hsuf. injection Hsuf as <- _. rewrite startswith_char.
      unfold p in Hc. cbn [mem_char] in Hc. rewrite orb_false_r in Hc.
      rewrite Ascii.eqb_sym. exact Hc.
  - apply rstrip_last. reflexivity.
  - apply no_hyphen_pair_contains, Hnp.
  - apply (all_chars_contains _ slug_char); [reflexivity | exact Hslug].
  - apply (all_chars_contains _ slug_char); [reflexivity | exact Hslug].
Qed.


End SlugProofs.

(** ** Reading the Content Store *)
Section SortProofs.
Context {A : Type} (key : A -> Z).

Lemma insert_desc_perm (x : A) (l : list A) : insert_desc key x l ≡ₚ x :: l.
Proof.
  induction l as [|y l IH]; simpl; [reflexivity|].
  destruct (key x <? key y)%Z; [|reflexivity].
  rewrite IH. apply Permutation_swap.
Qed.

Lemma sort_desc_perm (l : list A) : sort_desc key l ≡ₚ l.
Proof.
  induction l as [|x l IH]; simpl; [reflexivity|].
  rewrite insert_desc_perm, IH. reflexivity.
Qed.

Lemma insert_desc_sorted (x : A) (l : list A) :
  StronglySorted (fun a b => (key b <= key a)%Z) l ->
  StronglySorted (fun a b => (key b <= key a)%Z) (insert_desc key x l).
Proof.
  induction l as [|y l IH]; intros Hsorted; simpl.
  - constructor; [constructor | constructor].
  - apply StronglySorted_inv in Hsorted as [Hl Hy].
    destruct (Z.ltb_spec (key x) (key y)).
    + constructor; [apply IH, Hl|].
      apply Forall_forall. intros z Hz.
      apply elem_of_insert_desc in Hz as [-> | Hz]; [lia|].
      rewrite Forall_forall in Hy. apply Hy, Hz.
    + constructor; [constructor; assumption|].
      constructor; [lia|].
      rewrite Forall_forall in Hy |- *. intros z Hz. specialize (Hy z Hz). lia.
Qed.

Lemma sort_desc_sorted (l : list A) :
  StronglySorted (fun a b => (key b <= key a)%Z) (sort_desc key l).
Proof.
  induction l as [|x l IH]; simpl; [constructor | apply insert_desc_sorted, IH].
Qed.

End SortProofs.

Section ReadProofs.
Context {py : PyLib}.
Import MarkdownStore.

Lemma catch_all_some {B} (body : result (option B)) (x : B) :
  catch_all body None = Some x -> body = Ok (Some x).
Proof. destruct body as [[b|]|e]; simpl; intros H; try discriminate. congruence. Qed.

Lemma bind_ok {B C} (m : result B) (f : B -> result C) (v : C) :
  m ≫= f = Ok v -> exists a, m = Ok a /\ f a = Ok v.
Proof. destruct m as [a|e]; simpl; [eauto | discriminate]. Qed.

Lemma parse_file_path (p : path) (text : string) (cf : ContentFile) :
  _parse_content_file p text = Some cf -> file_path cf = p.
Proof.
  unfold _parse_content_file. intros H. apply catch_all_some in H.
  destruct (negb _); [discriminate|].
  destruct (_ <? 0)%Z; [discriminate|].
  cbv zeta in H.
  repeat (apply bind_ok in H as (? & _ & H)).
  injection H as <-. reflexivity.
Qed.

Lemma NoDup_fst_filter {K V} (P : K * V -> Prop) `{!forall x, Decision (P x)}
    (l : list (K * V)) :
  NoDup l.*1 -> NoDup (filter P l).*1.
Proof.
  induction l as [|x l IH]; intros Hnd; [constructor|].
  simpl in Hnd. apply NoDup_cons in Hnd as [Hx Hnd].
  destruct (decide (P x)).
  - rewrite filter_cons_True by assumption. simpl. apply NoDup_cons. split; [|apply IH, Hnd].
    intros Hin. apply Hx. apply list_elem_of_fmap in Hin as (y & -> & Hy).
    apply list_elem_of_filter in Hy as [_ Hy].
    apply list_elem_of_fmap. exists y. auto.
  - rewrite filter_cons_False by assumption. apply IH, Hnd.
Qed.

Lemma NoDup_file_paths (f : path * string -> option ContentFile) (l : list (path * string)) :
  (forall pf cf, f pf = Some cf -> file_path cf = pf.1) ->
  NoDup l.*1 -> NoDup (file_path <$> omap f l).
Proof.
  intros Hf. induction l as [|x l IH]; intros Hnd; [constructor|].
  simpl in Hnd. apply NoDup_cons in Hnd as [Hx Hnd].
  rewrite omap_cons_eq. destruct (f x) as [cf|] eqn:Hcf; [|apply IH, Hnd].
  simpl. apply NoDup_cons. split; [|apply IH, Hnd].
  rewrite (Hf _ _ Hcf). intros Hin. apply Hx.
  apply list_elem_of_fmap in Hin as (cf' & Hpath & Hcf').
  apply list_elem_of_omap in Hcf' as (y & Hy & Hfy).
  apply list_elem_of_fmap. exists y. split; [|exact Hy].
  rewrite Hpath. apply Hf, Hfy.
Qed.

Lemma fetched_since_true (since : pydatetime) (cf : ContentFile) :
  fetched_since since cf = true <-> Aware.ge (fetched_at cf) since = Ok true.
Proof.
  unfold fetched_since. destruct (Aware.ge _ _) as [[|]|e]; split; congruence.
Qed.

(** Keys that were sorted are of one kind, so that any two of them can
    be compared. *)
Lemma comparable_pairs (results : list ContentFile) (a b : ContentFile) :
  comparable (published_at <$> results) = true ->
  a ∈ results -> b ∈ results ->
  Bool.eqb (Aware.is_naive (published_at a)) (Aware.is_naive (published_at b)) = true.
Proof.
  unfold comparable. intros Hall Ha Hb.
  assert (forall c, c ∈ results -> published_at c ∈ published_at <$> results) as Hin
    by (intros c Hc; apply list_elem_of_fmap; eauto).
  apply orb_prop in Hall as [Hall | Hall]; rewrite forallb_forall in Hall;
    pose proof (Hall _ (proj1 (list_elem_of_In _ _) (Hin a Ha))) as Hka;
    pose proof (Hall _ (proj1 (list_elem_of_In _ _) (Hin b Hb))) as Hkb.
  - rewrite Hka, Hkb. reflexivity.
  - apply negb_true_iff in Hka, Hkb. rewrite Hka, Hkb. reflexivity.
Qed.

Lemma sorted_latest_first (results : list ContentFile) :
  comparable (published_at <$> results) = true ->
  latest_first (sort_desc (fun x => Aware.instant (published_at x)) results).
Proof.
  intros Hkind. unfold latest_first.
  pose proof (sort_desc_sorted (fun x => Aware.instant (published_at x)) results) as Hsorted.
  assert (forall c, c ∈ sort_desc (fun x => Aware.instant (published_at x)) results ->
                    c ∈ results) as Hsub
    by (intros c; apply elem_of_sort_desc).
  induction Hsorted as [|a l Hl IH Ha]; constructor.
  - apply IH. intros c Hc. apply Hsub. right. exact Hc.
  - rewrite Forall_forall in Ha |- *. intros b Hb. unfold Aware.ge.
    rewrite (comparable_pairs results a b Hkind (Hsub a (list_elem_of_here a l))
               (Hsub b (list_elem_of_further b a l Hb))).
    f_equal. apply Z.leb_le, Ha, Hb.
Qed.

Lemma NoDup_records_paths (st : MarkdownStore.t) : NoDup (file_path <$> records st).
Proof.
  unfold records, records_of. apply NoDup_file_paths.
  - intros [p text] cf. apply parse_file_path.
  - apply NoDup_fst_filter, NoDup_fst_map_to_list.
Qed.

(** X16.  [get_content_since] raises [TypeError] when a file it can read
    has a fetch time that cannot be compared with [since] (one is naive,
    the other aware), or when the publication times of the records to
    return are of both kinds; otherwise it returns, and with naive
    timestamps everywhere it always does.  What it returns: one record
    for each file below the content directory with a name ending in
    [.md] that [_parse_content_file] can read and whose fetch time is
    not before [since], and nothing else; no file gives two records; the
    records are ordered by publication time, latest first; and a file
    that cannot be parsed is left out without an error. *)
Theorem get_content_since_spec (st : MarkdownStore.t) (since : pydatetime) :
  let kept := filter (fun cf => fetched_since since cf = true) (records st) in
  ((exists cf, cf ∈ records st /\ same_kind (fetched_at cf) since = false) ->
   get_content_since st since = Raise Aware.mixed)
  /\ (comparable (published_at <$> kept) = false ->
      get_content_since st since = Raise Aware.mixed)
  /\ ((forall cf, cf ∈ records st -> same_kind (fetched_at cf) since = true) ->
      comparable (published_at <$> kept) = true ->
      exists l, get_content_since st since = Ok l)
  /\ (Aware.is_naive since = true -> Forall naive_record (records st) ->
      exists l, get_content_since st since = Ok l)
  /\ (forall l, get_content_since st since = Ok l ->
        latest_first l
        /\ (forall cf, cf ∈ l
              <-> exists p text,
                    files st !! p = Some text
                    /\ below_content_dir p /\ is_md p
                    /\ _parse_content_file p text = Some cf
                    /\ Aware.ge (fetched_at cf) since = Ok true)
        /\ NoDup (file_path <$> l)
        /\ (List.length l <= size (files st))%nat).
Proof.
  intros kept. split; [|split; [|split; [|split]]].
  - intros (cf & Hcf & Hkind). rewrite get_content_since_eq.
    destruct (forallb _ _) eqn:Hall; [|reflexivity].
    rewrite forallb_forall in Hall.
    rewrite (Hall cf (proj1 (list_elem_of_In _ _) Hcf)) in Hkind. discriminate.
  - intros Hkeys. rewrite get_content_since_eq.
    destruct (forallb _ _); [|reflexivity].
    unfold sort_by_published. fold kept. rewrite Hkeys. reflexivity.
  - intros Hall Hkeys. eexists. apply get_content_since_ok.
    split; [|split; [exact Hkeys | reflexivity]].
    apply forallb_forall. intros cf Hcf. apply Hall, list_elem_of_In, Hcf.
  - intros Hsince Hnaive. destruct since as [since|]; [|discriminate].
    apply get_content_since_naive, Hnaive.
  - intros l Hl. apply get_content_since_ok in Hl as (_ & Hkeys & ->). fold kept in Hkeys |- *.
    split; [apply sorted_latest_first, Hkeys|]. split; [|split].
    + intros cf. rewrite elem_of_sort_desc. subst kept.
      rewrite list_elem_of_filter, records_elem, fetched_since_true. split.
      * intros (Hsince & p & text & Hfile & Hbelow & Hmd & Hparse).
        exists p, text. auto.
      * intros (p & text & Hfile & Hbelow & Hmd & Hparse & Hsince).
        split; [exact Hsince|]. exists p, text. auto.
    + rewrite (sort_desc_perm (fun x => Aware.instant (published_at x))).
      eapply sublist_NoDup; [apply NoDup_records_paths|].
      apply fmap_sublist, sublist_filter.
    + rewrite (sort_desc_perm (fun x => Aware.instant (published_at x))).
      etransitivity; [apply length_filter|].
      unfold records, records_of. etransitivity; [apply length_omap_le|].
      unfold rglob_md. etransitivity; [apply length_filter|].
      rewrite length_map_to_list. reflexivity.
Qed.

End ReadProofs.

(** ** Where the Content Store writes *)
Section WriteProofs.
Context {py : PyLib}.
Import MarkdownStore.

Lemma contains_all_chars (a : ascii) (s : string) :
  PyStr.contains (String a EmptyString) s = false ->
  all_chars (fun c => negb (Ascii.eqb a c)) s = true.
Proof.
  unfold PyStr.contains. induction s as [|c s IH]; [reflexivity|].
  cbn [PyStr.find_at all_chars]. rewrite startswith_char.
  destruct (Ascii.eqb a c); [discriminate|].
  destruct (PyStr.find_at (String a EmptyString) s); [discriminate|].
  intros _. apply IH. reflexivity.
Qed.

(** The file of a record lies directly in the directory of its source. *)
Lemma file_path_in_source_dir (c : Content) :
  PyStr.contains "/" (strftime_ymd (arg_published_at c)) = false ->
  file_path_of c = joinpath [] (arg_source_id c) ++ [filename_of c].
Proof.
  intros Hdate. apply contains_all_chars in Hdate.
  assert (all_chars (fun c => negb (Ascii.eqb "/" c)) (filename_of c) = true) as Hname.
  { destruct (slug_parts (arg_title c)) as (_ & _ & _ & _ & _ & Hslash & _).
    apply contains_all_chars in Hslash.
    unfold filename_of. rewrite !all_chars_app, Hdate, Hslash. reflexivity. }
  assert (4 <= PyStr.len (filename_of c)) as Hlen.
  { unfold filename_of. rewrite !len_app. unfold PyStr.len. simpl. lia. }
  unfold file_path_of. unfold joinpath at 1.
  assert (PyStr.startswith "/" (filename_of c) = false) as ->.
  { destruct (filename_of c) as [|a name]; [reflexivity|].
    rewrite startswith_char. cbn [all_chars] in Hname.
    apply andb_prop in Hname as [Ha _]. apply negb_true_iff, Ha. }
  unfold parts. rewrite (split_no_sep _ _ Hname).
  rewrite filter_cons_True; [reflexivity|].
  split; intros Heq; rewrite Heq in Hlen; unfold PyStr.len in Hlen; simpl in Hlen; lia.
Qed.

(** X17.  The file name is made of the publication day and the slug of
    the title only: a record of the same source and day whose title has
    the same slug is written to the same file, whatever its identifier.
    The second write replaces the first one's text; both calls are in the
    history but the store holds one file for them. *)
Theorem same_day_same_slug_overwrites (c1 c2 : Content) (st : MarkdownStore.t) :
  arg_source_id c1 = arg_source_id c2 ->
  strftime_ymd (arg_published_at c1) = strftime_ymd (arg_published_at c2) ->
  _slugify (arg_title c1) = _slugify (arg_title c2) ->
  let st2 := (store_content c2 (store_content c1 st).2).2 in
  (store_content c1 st).1 = (store_content c2 (store_content c1 st).2).1
  /\ files st2 = files (store_content c2 st).2
  /\ files st2 !! file_path_of c1 = Some (md_content_of c2)
  /\ written st2 = c2 :: c1 :: written st
  /\ (size (files st2) <= size (files st) + 1)%nat.
Proof.
  intros Hsource Hday Hslug st2.
  assert (file_path_of c1 = file_path_of c2) as Hpath
    by (unfold file_path_of, filename_of; rewrite Hsource, Hday, Hslug; reflexivity).
  subst st2. simpl. rewrite Hpath, insert_insert_eq.
  split; [reflexivity|]. split; [reflexivity|].
  split; [apply lookup_insert_eq|]. split; [reflexivity|].
  destruct (files st !! file_path_of c2) as [old|] eqn:Hold.
  - rewrite map_size_insert_Some by eauto. lia.
  - rewrite map_size_insert_None by exact Hold. lia.
Qed.

Lemma source_records_elem (st : MarkdownStore.t) (source_id : string)
    (cf : ContentFile) :
  cf ∈ source_records st source_id
  <-> exists name text,
        files st !! (joinpath [] source_id ++ [name]) = Some text
        /\ PyStr.endswith ".md" name = true
        /\ _parse_content_file (joinpath [] source_id ++ [name]) text = Some cf.
Proof.
  unfold source_records, records_of. set (source_dir := joinpath [] source_id).
  rewrite list_elem_of_omap. split.
  - intros ([p text] & Hin & Hparse).
    apply list_elem_of_filter in Hin as [Hdir Hin].
    apply elem_of_map_to_list in Hin.
    unfold in_dir_md in Hdir. simpl in *.
    destruct (last p) as [name|]; [|discriminate].
    apply andb_prop in Hdir as [Hp Hmd]. apply bool_decide_eq_true in Hp. subst p.
    exists name, text. auto.
  - intros (name & text & Hfile & Hmd & Hparse).
    exists (source_dir ++ [name], text). split; [|exact Hparse].
    apply list_elem_of_filter. split; [|apply elem_of_map_to_list, Hfile].
    unfold in_dir_md. simpl. rewrite last_snoc, Hmd.
    rewrite bool_decide_eq_true_2 by reflexivity. reflexivity.
Qed.

Lemma get_content_by_source_ok (st : MarkdownStore.t) (source_id : string)
    (l : list ContentFile) :
  get_content_by_source st source_id = Ok l
  <-> comparable (published_at <$> source_records st source_id) = true
      /\ l = sort_desc (fun x => Aware.instant (published_at x))
               (source_records st source_id).
Proof. apply sort_by_published_ok. Qed.

(** What a list returned by [get_content_by_source] holds. *)
Lemma elem_of_get_content_by_source (st : MarkdownStore.t) (source_id : string)
    (l : list ContentFile) (cf : ContentFile) :
  get_content_by_source st source_id = Ok l ->
  cf ∈ l
  <-> exists name text,
        files st !! (joinpath [] source_id ++ [name]) = Some text
        /\ PyStr.endswith ".md" name = true
        /\ _parse_content_file (joinpath [] source_id ++ [name]) text = Some cf.
Proof.
  intros Hl. apply get_content_by_source_ok in Hl as [_ ->].
  rewrite elem_of_sort_desc. apply source_records_elem.
Qed.

(** X18.  [get_content_by_source] raises [TypeError] when the
    publication times of the records it read are of both kinds, naive
    and aware, and returns otherwise.  What it returns: one record for
    each file directly in the directory of the source with a name
    ending in [.md] that [_parse_content_file] can read, whatever its
    fetch time; ordered by publication time, latest first; no file
    gives two records. *)
Theorem get_content_by_source_spec (st : MarkdownStore.t) (source_id : string) :
  let source_dir := joinpath [] source_id in
  let read := source_records st source_id in
  (comparable (published_at <$> read) = false ->
   get_content_by_source st source_id = Raise Aware.mixed)
  /\ (comparable (published_at <$> read) = true ->
      exists l, get_content_by_source st source_id = Ok l)
  /\ (Forall naive_record read -> exists l, get_content_by_source st source_id = Ok l)
  /\ (forall l, get_content_by_source st source_id = Ok l ->
        latest_first l
        /\ (forall cf, cf ∈ l
              <-> exists name text,
                    files st !! (source_dir ++ [name]) = Some text
                    /\ PyStr.endswith ".md" name = true
                    /\ _parse_content_file (source_dir ++ [name]) text = Some cf)
        /\ NoDup (file_path <$> l)).
Proof.
  intros source_dir read. subst source_dir.
  assert (forall keys : comparable (published_at <$> read) = true,
            exists l, get_content_by_source st source_id = Ok l) as Hreturns
    by (intros Hkeys; eexists; apply get_content_by_source_ok; split;
        [exact Hkeys | reflexivity]).
  split; [|split; [exact Hreturns|split]].
  - intros Hkeys. subst read.
    change (get_content_by_source st source_id)
      with (sort_by_published (source_records st source_id)).
    unfold sort_by_published. rewrite Hkeys. reflexivity.
  - intros Hnaive. apply Hreturns, comparable_naive, Hnaive.
  - intros l Hl. pose proof Hl as Hsorted.
    apply get_content_by_source_ok in Hsorted as [Hkeys ->].
    split; [apply sorted_latest_first, Hkeys|]. split.
    + intros cf. apply (elem_of_get_content_by_source st source_id _ cf Hl).
    + rewrite (sort_desc_perm (fun x => Aware.instant (published_at x))).
      unfold source_records, records_of. apply NoDup_file_paths.
      * intros [p text] cf Hparse. apply (parse_file_path _ _ _ Hparse).
      * apply NoDup_fst_filter, NoDup_fst_map_to_list.
Qed.

(** X19.  A record written by [store_content] is in every list that
    [get_content_by_source] returns for its source id, as the record
    [read_back] describes; the call returns when the records the
    directory of the source held before have naive timestamps; and the
    file the record was written to is the one in the source's directory
    named by the day and the slug. *)
Theorem stored_listed_by_source (c : Content) (st : MarkdownStore.t) :
  header_round_trips c ->
  PyStr.contains "/" (strftime_ymd (arg_published_at c)) = false ->
  (store_content c st).1 = joinpath [] (arg_source_id c) ++ [filename_of c]
  /\ (forall l, get_content_by_source (store_content c st).2 (arg_source_id c) = Ok l ->
                read_back c ∈ l)
  /\ (Forall naive_record (source_records st (arg_source_id c)) ->
      exists l, get_content_by_source (store_content c st).2 (arg_source_id c) = Ok l
                /\ read_back c ∈ l).
Proof.
  intros Hlib Hdate.
  pose proof (file_path_in_source_dir c Hdate) as Hpath.
  assert (forall l, get_content_by_source (store_content c st).2 (arg_source_id c) = Ok l ->
                    read_back c ∈ l) as Hback.
  { intros l Hl. apply (elem_of_get_content_by_source _ _ _ _ Hl).
    exists (filename_of c), (md_content_of c).
    rewrite <- Hpath. split; [simpl; apply lookup_insert_eq|]. split.
    - unfold filename_of. rewrite <- !str_app_assoc. apply endswith_app.
    - apply parse_written, Hlib. }
  split; [exact Hpath|]. split; [exact Hback|].
  intros Hnaive.
  assert (exists l, get_content_by_source (store_content c st).2 (arg_source_id c) = Ok l)
    as [l Hl].
  { eexists. apply get_content_by_source_ok. split; [|reflexivity].
    apply comparable_naive, Forall_forall. intros cf Hcf.
    apply source_records_elem in Hcf as (name & text & Hfile & Hmd & Hparse).
    simpl in Hfile.
    destruct (decide (file_path_of c = joinpath [] (arg_source_id c) ++ [name]))
      as [Heq | Hne].
    - rewrite <- Heq in Hfile, Hparse. rewrite lookup_insert_eq in Hfile.
      injection Hfile as <-. rewrite (parse_written c Hlib) in Hparse.
      injection Hparse as <-. split; reflexivity.
    - rewrite lookup_insert_ne in Hfile by exact Hne.
      rewrite Forall_forall in Hnaive. apply Hnaive.
      apply source_records_elem. exists name, text. auto. }
  exists l. split; [exact Hl | apply Hback, Hl].
Qed.

End WriteProofs.

(** Two titles that differ in case and punctuation, stored one after the
    other: one file. *)
Lemma same_day_same_slug_overwrites_witness :
  MarkdownStore.files
    (MarkdownStore.store_content (py := Reference.lib) Cases.shouted_item
       (MarkdownStore.store_content Scenario.seen_item Scenario.empty_store).2).2
  = MarkdownStore.files
      (MarkdownStore.store_content Cases.shouted_item Scenario.empty_store).2.
Proof.
  refine (proj1 (proj2 (same_day_same_slug_overwrites (py := Reference.lib)
                          Scenario.seen_item Cases.shouted_item Scenario.empty_store
                          _ _ _))).
  - reflexivity.
  - vm_compute. reflexivity.
  - vm_compute. reflexivity.
Defined.

(** [seen_item] is listed for [tech-news]. *)
Lemma stored_listed_by_source_witness :
  exists l,
    MarkdownStore.get_content_by_source (py := Reference.lib)
      (MarkdownStore.store_content Scenario.seen_item Scenario.empty_store).2 "tech-news"
    = Ok l
    /\ read_back Scenario.seen_item ∈ l.
Proof.
  refine (proj2 (proj2 (stored_listed_by_source (py := Reference.lib) Scenario.seen_item
                          Scenario.empty_store _ _)) _).
  - repeat split; try (vm_compute; reflexivity).
    eexists. split; [vm_compute; reflexivity|].
    intros k Hk. unfold read_keys in Hk.
    repeat (apply elem_of_cons in Hk as [-> | Hk]; [vm_compute; reflexivity|]).
    inversion Hk.
  - vm_compute. reflexivity.
  - vm_compute. constructor.
Defined.

(** Next to a file whose timestamps carry a UTC offset the call for the
    source raises; for the scenario's store it returns the one record. *)
Lemma get_content_by_source_spec_witness :
  MarkdownStore.get_content_by_source (py := Reference.lib)
    (MarkdownStore.store_content Scenario.seen_item Cases.zoned_store).2 "tech-news"
  = Raise Aware.mixed
  /\ exists l,
       MarkdownStore.get_content_by_source (py := Reference.lib)
         (Coordinator._store Scenario.coordinator) "tech-news" = Ok l.
Proof.
  split.
  - apply (proj1 (get_content_by_source_spec (py := Reference.lib)
                    (MarkdownStore.store_content Scenario.seen_item Cases.zoned_store).2
                    "tech-news")).
    vm_compute. reflexivity.
  - apply (proj1 (proj2 (get_content_by_source_spec (py := Reference.lib)
                           (Coordinator._store Scenario.coordinator) "tech-news"))).
    vm_compute. reflexivity.
Defined.

(** The same two stores, read since the minimal timestamp. *)
Lemma get_content_since_spec_witness :
  MarkdownStore.get_content_since (py := Reference.lib)
    (MarkdownStore.store_content Scenario.seen_item Cases.zoned_store).2 (Naive 0)
  = Raise Aware.mixed
  /\ exists l,
       MarkdownStore.get_content_since (py := Reference.lib)
         (Coordinator._store Scenario.coordinator) (Naive 0) = Ok l.
Proof.
  split.
  - apply (proj1 (get_content_since_spec (py := Reference.lib)
                    (MarkdownStore.store_content Scenario.seen_item Cases.zoned_store).2
                    (Naive 0))).
    eexists. split.
    + apply list_elem_of_In. vm_compute. right. left. reflexivity.
    + reflexivity.
  - apply (proj1 (proj2 (proj2 (proj2
             (get_content_since_spec (py := Reference.lib)
                (Coordinator._store Scenario.coordinator) (Naive 0)))))).
    + reflexivity.
    + vm_compute. repeat constructor.
Defined.

(** ** Which sources a run touches *)
Section IsolationMore.
Context {py : PyLib}.
Import Coordinator.

Lemma collect_source_frame env source force self stats self' :
  collect_source env source force self = Ok (stats, self') ->
  _registry self' = _registry self
  /\ sources_processed stats = 1%Z
  /\ (forall sid, sid <> Curation.id source ->
        SourceStateManager.get_state (_state self') sid
        = SourceStateManager.get_state (_state self) sid).
Proof.
  intros Hrun.
  destruct (collect_source_cases env source force self)
    as (outcome & _ & [(_ & H) | [(_ & c & _ & H) | (_ & e & _ & H)]]);
    cbv zeta in H; rewrite H in Hrun; [| |discriminate];
    injection Hrun as <- <-; simpl.
  - split; [reflexivity|]. split; [reflexivity|].
    intros sid Hne. unfold SourceStateManager.get_state. simpl.
    apply lookup_insert_ne. congruence.
  - split; [reflexivity|]. split.
    + destruct (collect_items_accounting (_registry self) source force c
                  (RSSFetcher.results outcome) (loop_start self))
        as (_ & _ & _ & _ & _ & _ & Hsp & _).
      exact Hsp.
    + intros sid Hne. unfold SourceStateManager.get_state. simpl.
      apply lookup_insert_ne. congruence.
Qed.

Lemma collect_each_frame envs force sid sources : forall stats0 self stats self',
  collect_each envs force sources stats0 self = Ok (stats, self') ->
  (forall source, source ∈ sources -> Curation.id source <> sid) ->
  SourceStateManager.get_state (_state self') sid
  = SourceStateManager.get_state (_state self) sid.
Proof.
  induction sources as [|source rest IH]; intros stats0 self stats self' Hrun Hids.
  - simpl in Hrun. injection Hrun as _ <-. reflexivity.
  - simpl in Hrun.
    destruct (collect_source (envs (Curation.id source)) source force self)
      as [[stats1 self1]|e] eqn:Hone; simpl in Hrun; [|discriminate].
    rewrite (IH _ _ _ _ Hrun) by (intros s Hs; apply Hids; right; exact Hs).
    destruct (collect_source_frame _ _ _ _ _ _ Hone) as (_ & _ & Hframe).
    apply Hframe. intros ->. apply (Hids source); [left | reflexivity].
Qed.

(** X20.  [collect_all] runs the enabled sources only: the recorded state
    of a source id that has no enabled entry in the registry is after the
    run what it was before. *)
Theorem collect_all_skips_disabled (envs : string -> Env) (force : bool) (self : t)
    (stats : CollectionStats) (self' : t) (sid : string) :
  collect_all envs force self = Ok (stats, self') ->
  (forall source, source ∈ _registry self -> Curation.id source = sid ->
                  Curation.enabled source = false) ->
  SourceStateManager.get_state (_state self') sid
  = SourceStateManager.get_state (_state self) sid.
Proof.
  intros Hrun Hoff. unfold collect_all in Hrun.
  apply (collect_each_frame _ _ sid _ _ _ _ _ Hrun).
  intros source Hin Hid. unfold Curation.get_enabled_sources in Hin.
  apply list_elem_of_In, filter_In in Hin as [Hin Hon].
  rewrite (Hoff source) in Hon; [discriminate | apply list_elem_of_In, Hin | exact Hid].
Qed.

(** X21.  [collect_by_id] looks the source up by id and runs it whether
    it is enabled or not: for an id the registry does not hold it returns
    [None] and changes nothing; otherwise it returns the statistics of one
    [collect_source] run of a registry entry with that id.  In both cases
    the recorded state of every other source is left as it was. *)
Theorem collect_by_id_isolated (envs : string -> Env) (sid : string) (force : bool)
    (self : t) (answer : option CollectionStats) (self' : t) :
  collect_by_id envs sid force self = Ok (answer, self') ->
  (forall sid', sid' <> sid ->
     SourceStateManager.get_state (_state self') sid'
     = SourceStateManager.get_state (_state self) sid')
  /\ match answer with
     | None =>
         self' = self
         /\ forall source, source ∈ _registry self -> Curation.id source <> sid
     | Some stats =>
         sources_processed stats = 1%Z
         /\ exists source,
              source ∈ _registry self /\ Curation.id source = sid
              /\ collect_source (envs sid) source force self = Ok (stats, self')
     end.
Proof.
  unfold collect_by_id, Curation.get_source_by_id.
  destruct (find _ (_registry self)) as [source|] eqn:Hfind.
  - apply find_some in Hfind as [Hin Hid]. apply String.eqb_eq in Hid.
    destruct (collect_source (envs sid) source force self) as [[stats1 self1]|e] eqn:Hone;
      simpl; [|discriminate].
    intros [= <- <-].
    destruct (collect_source_frame _ _ _ _ _ _ Hone) as (_ & Hsp & Hframe).
    split; [intros sid' Hne; apply Hframe; congruence|].
    split; [exact Hsp|].
    exists source. split; [apply list_elem_of_In, Hin|]. split; [exact Hid | exact Hone].
  - intros [= <- <-]. split; [reflexivity|]. split; [reflexivity|].
    intros source Hin Hid.
    pose proof (find_none _ _ Hfind source (proj1 (list_elem_of_In _ _) Hin)) as Hno.
    simpl in Hno. apply String.eqb_neq in Hno. contradiction.
Qed.

End IsolationMore.

(** ** The registry's dictionary *)
Section RegistryMore.
Import Curation.

Lemma get_after_set_source (s : Source) (reg : SourceRegistry) (sid : string) :
  get_source_by_id (set_source s reg) sid
  = if String.eqb (id s) sid then Some s else get_source_by_id reg sid.
Proof.
  unfold get_source_by_id.
  induction reg as [|s' reg IH]; simpl.
  - destruct (String.eqb (id s) sid); reflexivity.
  - destruct (String.eqb_spec (id s') (id s)) as [Heq|Hne]; simpl.
    + rewrite Heq. destruct (String.eqb (id s) sid); reflexivity.
    + destruct (String.eqb_spec (id s') sid) as [Hs'|Hs'].
      * destruct (String.eqb_spec (id s) sid); [congruence | reflexivity].
      * exact IH.
Qed.

Lemma ids_after_set_source (s : Source) (reg : SourceRegistry) :
  id <$> set_source s reg
  = if bool_decide (id s ∈ id <$> reg) then id <$> reg else (id <$> reg) ++ [id s].
Proof.
  induction reg as [|s' reg IH]; [reflexivity|].
  simpl. destruct (String.eqb_spec (id s') (id s)) as [Heq|Hne].
  - rewrite bool_decide_eq_true_2 by (rewrite Heq; left).
    simpl. rewrite Heq. reflexivity.
  - change (id <$> s' :: set_source s reg) with (id s' :: (id <$> set_source s reg)).
    rewrite IH.
    destruct (decide (id s ∈ id <$> reg)) as [Hin|Hout].
    + rewrite !bool_decide_eq_true_2; [reflexivity | right; exact Hin | exact Hin].
    + rewrite !bool_decide_eq_false_2; [reflexivity | | exact Hout].
      rewrite not_elem_of_cons. split; [congruence | exact Hout].
Qed.

Lemma of_sources_snoc (sources : list Source) (s : Source) :
  of_sources (sources ++ [s]) = set_source s (of_sources sources).
Proof. unfold of_sources. rewrite foldl_app. reflexivity. Qed.

Lemma NoDup_ids_enabled (reg : SourceRegistry) :
  NoDup (id <$> reg) -> NoDup (id <$> get_enabled_sources reg).
Proof.
  unfold get_enabled_sources.
  induction reg as [|s reg IH]; intros Hnd; [constructor|].
  simpl in Hnd. apply NoDup_cons in Hnd as [Hs Hnd].
  simpl. destruct (enabled s); [|apply IH, Hnd].
  simpl. apply NoDup_cons. split; [|apply IH, Hnd].
  intros Hin. apply Hs.
  apply list_elem_of_fmap in Hin as (x & -> & Hx).
  apply list_elem_of_In, filter_In in Hx as [Hx _].
  apply list_elem_of_fmap. exists x. split; [reflexivity | apply list_elem_of_In, Hx].
Qed.

(** X22.  The registry is a dictionary keyed by source id: when the
    configuration lists an id more than once the last entry is the one
    the registry answers with, every id is held once, and so no source is
    collected twice in a [collect_all] run. *)
Theorem registry_last_entry_wins (sources : list Source) :
  NoDup (id <$> of_sources sources)
  /\ (forall sid, get_source_by_id (of_sources sources) sid
                  = last (filter (fun s => id s = sid) sources))
  /\ (forall sid, sid ∈ id <$> of_sources sources <-> sid ∈ id <$> sources)
  /\ NoDup (id <$> get_enabled_sources (of_sources sources)).
Proof.
  assert (NoDup (id <$> of_sources sources)
          /\ (forall sid, get_source_by_id (of_sources sources) sid
                          = last (filter (fun s => id s = sid) sources))
          /\ (forall sid, sid ∈ id <$> of_sources sources <-> sid ∈ id <$> sources))
    as (Hnd & Hget & Hids).
  { induction sources as [|s sources (Hnd & Hget & Hids)] using rev_ind.
    - split; [constructor|]. split; [reflexivity|]. reflexivity.
    - rewrite of_sources_snoc. split; [|split].
      + rewrite ids_after_set_source.
        destruct (decide (id s ∈ id <$> of_sources sources)) as [Hin|Hout].
        * rewrite bool_decide_eq_true_2 by exact Hin. exact Hnd.
        * rewrite bool_decide_eq_false_2 by exact Hout.
          apply NoDup_app. split; [exact Hnd|]. split; [|apply NoDup_singleton].
          intros x Hx Hs. apply list_elem_of_singleton in Hs. subst x. contradiction.
      + intros sid. rewrite get_after_set_source, filter_app.
        destruct (String.eqb_spec (id s) sid) as [Heq|Hne].
        * rewrite filter_cons_True by exact Heq. rewrite filter_nil.
          symmetry. apply last_snoc.
        * rewrite filter_cons_False by exact Hne. rewrite filter_nil, app_nil_r.
          apply Hget.
      + intros sid. rewrite ids_after_set_source, fmap_app, elem_of_app.
        simpl. rewrite list_elem_of_singleton, <- Hids.
        destruct (decide (id s ∈ id <$> of_sources sources)) as [Hin|Hout].
        * rewrite bool_decide_eq_true_2 by exact Hin.
          split; [tauto|]. intros [H | ->]; assumption.
        * rewrite bool_decide_eq_false_2 by exact Hout.
          rewrite elem_of_app, list_elem_of_singleton. reflexivity. }
  split; [exact Hnd|]. split; [exact Hget|]. split; [exact Hids|].
  apply NoDup_ids_enabled, Hnd.
Qed.

End RegistryMore.

(** The paused source is not run by [collect_all]. *)
Lemma collect_all_skips_disabled_witness :
  exists stats self',
    Coordinator.collect_all (py := Reference.lib) (fun _ => Cases.scenario_env)
      false Cases.two_sources = Ok (stats, self')
    /\ SourceStateManager.get_state (Coordinator._state self') "paused" = None.
Proof.
  destruct (Coordinator.collect_all (py := Reference.lib) (fun _ => Cases.scenario_env)
              false Cases.two_sources) as [[stats self']|e] eqn:Hrun.
  - exists stats, self'. split; [reflexivity|].
    rewrite (collect_all_skips_disabled (py := Reference.lib)
               (fun _ => Cases.scenario_env) false Cases.two_sources stats self'
               "paused" Hrun).
    + reflexivity.
    + intros source Hin Hid. simpl in Hin.
      apply elem_of_cons in Hin as [-> | Hin]; [discriminate Hid|].
      apply list_elem_of_singleton in Hin. subst source. reflexivity.
  - vm_compute in Hrun. discriminate Hrun.
Defined.

(** The paused source is run when asked for by id. *)
Lemma collect_by_id_isolated_witness :
  exists stats self',
    Coordinator.collect_by_id (py := Reference.lib) (fun _ => Cases.scenario_env)
      "paused" false Cases.two_sources = Ok (Some stats, self')
    /\ SourceStateManager.get_state (Coordinator._state self') "tech-news" = None.
Proof.
  destruct (Coordinator.collect_by_id (py := Reference.lib) (fun _ => Cases.scenario_env)
              "paused" false Cases.two_sources) as [[[stats|] self']|e] eqn:Hrun.
  - exists stats, self'. split; [reflexivity|].
    destruct (collect_by_id_isolated (py := Reference.lib)
                (fun _ => Cases.scenario_env) "paused" false Cases.two_sources
                (Some stats) self' Hrun) as [Hframe _].
    rewrite Hframe; [reflexivity | discriminate].
  - vm_compute in Hrun. discriminate Hrun.
  - vm_compute in Hrun. discriminate Hrun.
Defined.

(** ** The briefs directory *)
Section BriefProofs.
Context {py : PyLib}.
Import Briefs.

Lemma parse_stored_brief (b : Brief) (loaded : pyobj) (p : MarkdownStore.path) :
  brief_header_loads b loaded ->
  _parse_brief p (md_content_of b)
  = Some (loaded, PyStr.strip (PyStr.universal_newlines (arg_content b)), p).
Proof.
  intros [Hfind Hload].
  destruct (delimiters _ (PyStr.universal_newlines (arg_content b)) Hfind)
    as (Hstart & Hend & Hslice & Hbody).
  unfold _parse_brief, md_content_of.
  rewrite universal_newlines_md, Hstart, Hend. simpl negb. cbv iota.
  destruct (Z.ltb_spec
              (Z.of_nat (4 + PyStr.len (PyStr.universal_newlines
                                          (yaml_dump (front_matter_of b))))) 0);
    [lia|].
  cbv zeta. rewrite Nat2Z.id, Hslice, Hbody, Hload. reflexivity.
Qed.

(** X23.  A brief written by [store_brief] is what [get_brief_by_date]
    returns for its day: the loaded header, the body with each carriage
    return (and a line feed after it) read as one line feed and stripped
    of surrounding whitespace, and the path.  A brief stored earlier for
    the same day is replaced, and the briefs of other days are not
    affected. *)
Theorem brief_round_trip (b : Brief) (fs : Briefs.t) (loaded : pyobj) :
  brief_header_loads b loaded ->
  let date_str := strftime_ymd (arg_generated_at b) in
  let file_path := (store_brief b fs).1 in
  let fs' := (store_brief b fs).2 in
  file_path = MarkdownStore.joinpath [] (date_str +:+ "-brief.md")
  /\ get_brief_by_date fs' date_str
     = Some (loaded, PyStr.strip (PyStr.universal_newlines (arg_content b)), file_path)
  /\ (forall other,
        MarkdownStore.joinpath [] (other +:+ "-brief.md") <> file_path ->
        get_brief_by_date fs' other = get_brief_by_date fs other).
Proof.
  intros Hloads date_str file_path fs'. subst date_str file_path fs'.
  split; [reflexivity|]. split.
  - unfold get_brief_by_date, store_brief. cbn [fst snd].
    change (MarkdownStore.joinpath [] (strftime_ymd (arg_generated_at b) +:+ "-brief.md"))
      with (file_path_of b).
    cbv zeta. unfold Briefs.t in *. rewrite lookup_insert_eq.
    apply parse_stored_brief, Hloads.
  - intros other Hother. unfold get_brief_by_date, store_brief in *. cbn [fst snd] in *.
    cbv zeta. unfold Briefs.t in *. rewrite lookup_insert_ne by congruence. reflexivity.
Qed.

Lemma elem_of_glob_brief (fs : Briefs.t) (name text : string) :
  (name, text) ∈ glob_brief fs
  <-> fs !! [name] = Some text /\ PyStr.endswith "-brief.md" name = true.
Proof.
  unfold glob_brief. rewrite list_elem_of_omap. split.
  - intros ([p t] & Hin & Hbrief). apply elem_of_map_to_list in Hin.
    unfold brief_file in Hbrief. simpl in Hbrief.
    destruct p as [|n [|]]; try discriminate.
    destruct (PyStr.endswith "-brief.md" n) eqn:Hn; [|discriminate].
    injection Hbrief as -> ->. auto.
  - intros [Hfile Hn]. exists ([name], text). split; [apply elem_of_map_to_list, Hfile|].
    unfold brief_file. simpl. rewrite Hn. reflexivity.
Qed.

Lemma NoDup_brief_files (l : list (MarkdownStore.path * string)) :
  NoDup l.*1 -> NoDup (omap brief_file l).*1.
Proof.
  induction l as [|[p t] l IH]; intros Hnd; [constructor|].
  simpl in Hnd. apply NoDup_cons in Hnd as [Hp Hnd].
  rewrite omap_cons_eq.
  destruct (brief_file (p, t)) as [[n t']|] eqn:Hbrief; [|apply IH, Hnd].
  simpl. apply NoDup_cons. split; [|apply IH, Hnd].
  unfold brief_file in Hbrief. simpl in Hbrief.
  destruct p as [|n0 [|]]; try discriminate.
  destruct (PyStr.endswith "-brief.md" n0); [|discriminate].
  injection Hbrief as -> ->.
  intros Hin. apply Hp.
  apply list_elem_of_fmap in Hin as ([n' t''] & Hn & Hin). simpl in Hn. subst n'.
  apply list_elem_of_omap in Hin as ([p' t3] & Hin & Hbrief).
  unfold brief_file in Hbrief. simpl in Hbrief.
  destruct p' as [|n1 [|]]; try discriminate.
  destruct (PyStr.endswith "-brief.md" n1); [|discriminate].
  injection Hbrief as -> ->.
  apply list_elem_of_fmap. exists ([n], t''). split; [reflexivity | exact Hin].
Qed.

Lemma NoDup_glob_brief (fs : Briefs.t) : NoDup (glob_brief fs).*1.
Proof. apply NoDup_brief_files, NoDup_fst_map_to_list. Qed.

Lemma insert_reverse_perm x l : insert_reverse x l ≡ₚ x :: l.
Proof.
  induction l as [|y l IH]; simpl; [reflexivity|].
  destruct (String.ltb x.1 y.1); [|reflexivity].
  rewrite IH. apply Permutation_swap.
Qed.

Lemma sorted_reverse_perm l : sorted_reverse l ≡ₚ l.
Proof.
  induction l as [|x l IH]; simpl; [reflexivity|].
  rewrite insert_reverse_perm, IH. reflexivity.
Qed.

Lemma ltb_leb (a b : string) : String.ltb a b = true -> String.leb a b = true.
Proof. unfold String.ltb, String.leb. destruct (String.compare a b); auto. Qed.

Lemma not_ltb_leb (a b : string) : String.ltb a b = false -> String.leb b a = true.
Proof.
  unfold String.ltb, String.leb. rewrite (String.compare_antisym a b).
  destruct (String.compare b a); simpl; auto.
Qed.

Lemma leb_trans (a b c : string) :
  String.leb a b = true -> String.leb b c = true -> String.leb a c = true.
Proof.
  intros Hab Hbc. apply Is_true_true.
  change (String.le a c). transitivity b; apply Is_true_true; assumption.
Qed.

Lemma insert_reverse_sorted x l :
  StronglySorted (fun a b => String.leb b.1 a.1 = true) l ->
  StronglySorted (fun a b => String.leb b.1 a.1 = true) (insert_reverse x l).
Proof.
  induction l as [|y l IH]; intros Hsorted; simpl.
  - constructor; constructor.
  - apply StronglySorted_inv in Hsorted as [Hl Hy].
    destruct (String.ltb x.1 y.1) eqn:Hxy.
    + constructor; [apply IH, Hl|].
      apply Forall_forall. intros z Hz.
      rewrite insert_reverse_perm in Hz.
      apply elem_of_cons in Hz as [-> | Hz]; [apply ltb_leb, Hxy|].
      rewrite Forall_forall in Hy. apply Hy, Hz.
    + apply not_ltb_leb in Hxy.
      constructor; [constructor; assumption|].
      constructor; [exact Hxy|].
      rewrite Forall_forall in Hy |- *. intros z Hz.
      apply (leb_trans _ y.1); [apply Hy, Hz | exact Hxy].
Qed.

Lemma sorted_reverse_sorted l :
  StronglySorted (fun a b => String.leb b.1 a.1 = true) (sorted_reverse l).
Proof.
  induction l as [|x l IH]; simpl; [constructor | apply insert_reverse_sorted, IH].
Qed.

(** X24.  [get_latest_brief] reads the brief file with the greatest
    name, and only that one: without brief files it returns [None], and
    when the file with the greatest name cannot be parsed it returns
    [None] as well, whatever older briefs there are. *)
Theorem latest_brief_is_greatest_name (fs : Briefs.t) :
  ((forall name text, fs !! [name] = Some text ->
                      PyStr.endswith "-brief.md" name = false) ->
   get_latest_brief fs = None)
  /\ (forall name text,
        fs !! [name] = Some text ->
        PyStr.endswith "-brief.md" name = true ->
        (forall name' text', fs !! [name'] = Some text' ->
                             PyStr.endswith "-brief.md" name' = true ->
                             String.leb name' name = true) ->
        get_latest_brief fs = _parse_brief [name] text).
Proof.
  unfold get_latest_brief.
  pose proof (sorted_reverse_sorted (glob_brief fs)) as Hsorted.
  pose proof (sorted_reverse_perm (glob_brief fs)) as Hperm.
  destruct (sorted_reverse (glob_brief fs)) as [|[top text0] rest]; split.
  - reflexivity.
  - intros name text Hfile Hname _. exfalso.
    assert ((name, text) ∈ @nil (string * string)) as Hin
      by (rewrite Hperm; apply elem_of_glob_brief; auto).
    apply elem_of_nil in Hin. exact Hin.
  - intros Hnone. exfalso.
    assert ((top, text0) ∈ glob_brief fs) as Hin by (rewrite <- Hperm; left).
    apply elem_of_glob_brief in Hin as [Hfile Htop].
    rewrite (Hnone _ _ Hfile) in Htop. discriminate.
  - intros name text Hfile Hname Hmax.
    assert ((top, text0) ∈ glob_brief fs) as Hin by (rewrite <- Hperm; left).
    apply elem_of_glob_brief in Hin as [Hfile0 Htop].
    assert ((name, text) ∈ (top, text0) :: rest) as Hin
      by (rewrite Hperm; apply elem_of_glob_brief; auto).
    assert (String.leb name top = true) as Hle.
    { apply elem_of_cons in Hin as [[= -> ->] | Hin].
      - destruct (String.leb_total top top); assumption.
      - apply StronglySorted_inv in Hsorted as [_ Hall].
        rewrite Forall_forall in Hall. apply (Hall _ Hin). }
    pose proof (String.leb_antisym _ _ Hle (Hmax _ _ Hfile0 Htop)) as ->.
    rewrite Hfile in Hfile0. injection Hfile0 as <-. reflexivity.
Qed.

Lemma rfind_char_app (c : ascii) (a b : string) (i : nat) :
  PyStr.rfind_char c b = Some i -> PyStr.rfind_char c (a +:+ b) = Some (PyStr.len a + i).
Proof.
  intros Hb. induction a as [|d a IH]; [exact Hb|].
  simpl. rewrite IH. reflexivity.
Qed.

Lemma stem_brief (date : string) : stem (date +:+ "-brief.md") = date +:+ "-brief".
Proof.
  unfold stem.
  rewrite (rfind_char_app "." date "-brief.md" 6 eq_refl).
  rewrite len_app.
  change (PyStr.len "-brief.md") with 9.
  destruct (Nat.ltb_spec 0 (PyStr.len date + 6)); [|lia].
  destruct (Nat.ltb_spec (PyStr.len date + 6) (PyStr.len date + 9 - 1)); [|lia].
  simpl andb. cbv iota.
  change "-brief.md" with ("-brief" +:+ ".md").
  rewrite <- str_app_assoc.
  replace (PyStr.len date + 6) with (PyStr.len (date +:+ "-brief"))
    by (rewrite len_app; reflexivity).
  apply take_app_len.
Qed.

Lemma date_char_not_b (c : ascii) : date_char c = true -> Ascii.eqb "b" c = false.
Proof.
  destruct c as [[] [] [] [] [] [] [] []]; vm_compute; intros H;
    first [reflexivity | discriminate H].
Qed.

Lemma remove_brief (date : string) :
  all_chars date_char date = true -> PyStr.remove "-brief" (date +:+ "-brief") = date.
Proof.
  unfold PyStr.remove.
  induction date as [|c date IH]; [reflexivity|].
  cbn [all_chars]. intros H. apply andb_prop in H as [Hc Hdate].
  change (String c date +:+ "-brief") with (String c (date +:+ "-brief")).
  cbn [PyStr.remove_from].
  assert (PyStr.startswith "-brief" (String c (date +:+ "-brief")) = false) as ->.
  { cbn [PyStr.startswith]. destruct (Ascii.eqb "-" c); [|reflexivity].
    destruct date as [|d date]; [reflexivity|].
    change (String d date +:+ "-brief") with (String d (date +:+ "-brief")).
    cbn [PyStr.startswith]. cbn [all_chars] in Hdate.
    apply andb_prop in Hdate as [Hd _].
    rewrite (date_char_not_b d Hd). reflexivity. }
  rewrite (IH Hdate). reflexivity.
Qed.

Lemma date_file_path (date : string) :
  all_chars date_char date = true ->
  MarkdownStore.joinpath [] (date +:+ "-brief.md") = [date +:+ "-brief.md"].
Proof.
  intros Hdate.
  assert (all_chars (fun c => negb (Ascii.eqb "/" c)) (date +:+ "-brief.md") = true)
    as Hname.
  { rewrite all_chars_app. apply andb_true_intro. split; [|reflexivity].
    apply (all_chars_impl date_char); [|exact Hdate].
    intros c. destruct c as [[] [] [] [] [] [] [] []]; vm_compute; intros H;
      first [reflexivity | discriminate H]. }
  assert (9 <= PyStr.len (date +:+ "-brief.md")) as Hlen.
  { rewrite len_app. change (PyStr.len "-brief.md") with 9. lia. }
  unfold MarkdownStore.joinpath.
  assert (PyStr.startswith "/" (date +:+ "-brief.md") = false) as ->.
  { destruct (date +:+ "-brief.md") as [|a name]; [reflexivity|].
    rewrite startswith_char. cbn [all_chars] in Hname.
    apply andb_prop in Hname as [Ha _]. apply negb_true_iff, Ha. }
  unfold MarkdownStore.parts. rewrite (split_no_sep _ _ Hname).
  rewrite filter_cons_True; [reflexivity|].
  split; intros Heq; rewrite Heq in Hlen; unfold PyStr.len in Hlen; simpl in Hlen; lia.
Qed.

Lemma list_briefs_names (fs : Briefs.t) :
  list_briefs fs
  = (fun name => (PyStr.remove "-brief" (stem name), [name]))
      <$> (sorted_reverse (glob_brief fs)).*1.
Proof. unfold list_briefs. rewrite <- list_fmap_compose. reflexivity. Qed.

(** X25.  [list_briefs] lists every brief file of the directory once,
    by descending file name, each with the date its name starts with:
    for a file [<date>-brief.md] whose date is made of digits and
    hyphens the listed date is [<date>]. *)
Theorem list_briefs_spec (fs : Briefs.t) :
  exists names,
    list_briefs fs = (fun name => (PyStr.remove "-brief" (stem name), [name])) <$> names
    /\ names_descending names
    /\ NoDup names
    /\ (forall name, name ∈ names
          <-> exists text, fs !! [name] = Some text
                           /\ PyStr.endswith "-brief.md" name = true)
    /\ (forall date, all_chars date_char date = true ->
          date +:+ "-brief.md" ∈ names ->
          (date, [date +:+ "-brief.md"]) ∈ list_briefs fs).
Proof.
  exists (sorted_reverse (glob_brief fs)).*1.
  pose proof (list_briefs_names fs) as Hlist.
  split; [exact Hlist|]. split; [|split; [|split]].
  - unfold names_descending. clear Hlist.
    pose proof (sorted_reverse_sorted (glob_brief fs)) as Hsorted.
    induction Hsorted as [|x l Hl IH Hx]; [constructor|].
    simpl. constructor; [exact IH|].
    rewrite Forall_forall in Hx. apply Forall_forall. intros n Hn.
    apply list_elem_of_fmap in Hn as (y & -> & Hy). apply Hx, Hy.
  - rewrite (sorted_reverse_perm (glob_brief fs)). apply NoDup_glob_brief.
  - intros name. rewrite (sorted_reverse_perm (glob_brief fs)), list_elem_of_fmap. split.
    + intros ([n text] & -> & Hin). apply elem_of_glob_brief in Hin. exists text. exact Hin.
    + intros (text & Hfile & Hname). exists (name, text). split; [reflexivity|].
      apply elem_of_glob_brief. auto.
  - intros date Hdate Hin. rewrite Hlist. apply list_elem_of_fmap.
    exists (date +:+ "-brief.md"). split; [|exact Hin].
    rewrite stem_brief, (remove_brief _ Hdate). reflexivity.
Qed.

(** X26.  A brief written by [store_brief] on a day whose date string is
    made of digits and hyphens lies directly in the briefs directory and
    is listed by [list_briefs] under that date. *)
Theorem stored_brief_is_listed (b : Brief) (fs : Briefs.t) :
  all_chars date_char (strftime_ymd (arg_generated_at b)) = true ->
  (store_brief b fs).1 = [strftime_ymd (arg_generated_at b) +:+ "-brief.md"]
  /\ (strftime_ymd (arg_generated_at b), (store_brief b fs).1)
     ∈ list_briefs (store_brief b fs).2.
Proof.
  intros Hdate.
  assert ((store_brief b fs).1 = [strftime_ymd (arg_generated_at b) +:+ "-brief.md"])
    as Hpath by apply (date_file_path _ Hdate).
  split; [exact Hpath|].
  rewrite Hpath, list_briefs_names. apply list_elem_of_fmap.
  exists (strftime_ymd (arg_generated_at b) +:+ "-brief.md"). split.
  - rewrite stem_brief, (remove_brief _ Hdate). reflexivity.
  - rewrite (sorted_reverse_perm (glob_brief _)). apply list_elem_of_fmap.
    exists (strftime_ymd (arg_generated_at b) +:+ "-brief.md", md_content_of b).
    split; [reflexivity|]. apply elem_of_glob_brief. split.
    + rewrite <- Hpath. unfold store_brief. cbn [fst snd]. cbv zeta.
      unfold Briefs.t. apply lookup_insert_eq.
    + change "-brief.md" with ("-brief" +:+ ".md") at 2.
      apply endswith_app.
Qed.

End BriefProofs.

(** Today's brief, written next to an older one, is read back by date. *)
Lemma brief_round_trip_witness :
  exists loaded,
    Briefs.get_brief_by_date (py := Reference.lib)
      (Briefs.store_brief Cases.todays_brief Cases.old_briefs).2
      (strftime_ymd (Briefs.arg_generated_at Cases.todays_brief))
    = Some (loaded, PyStr.strip (Briefs.arg_content Cases.todays_brief),
            (Briefs.store_brief Cases.todays_brief Cases.old_briefs).1).
Proof.
  assert (exists loaded, brief_header_loads (H := Reference.lib) Cases.todays_brief loaded)
    as [loaded Hloads].
  { eexists. split; vm_compute; reflexivity. }
  exists loaded.
  exact (proj1 (proj2 (brief_round_trip (py := Reference.lib) Cases.todays_brief
                         Cases.old_briefs loaded Hloads))).
Defined.

(** The only brief of the directory cannot be parsed: no latest brief. *)
Lemma latest_brief_is_greatest_name_witness :
  Briefs.get_latest_brief (py := Reference.lib) Cases.old_briefs = None.
Proof.
  rewrite (proj2 (latest_brief_is_greatest_name (py := Reference.lib) Cases.old_briefs)
             "2024-01-10-brief.md" "no header").
  - reflexivity.
  - reflexivity.
  - reflexivity.
  - intros name' text' Hfile _. unfold Cases.old_briefs in Hfile.
    apply lookup_singleton_Some in Hfile as [[= <-] _]. reflexivity.
Defined.

(** The older brief is listed under its date. *)
Lemma list_briefs_spec_witness :
  ("2024-01-10", ["2024-01-10-brief.md"]) ∈ Briefs.list_briefs Cases.old_briefs.
Proof.
  destruct (list_briefs_spec Cases.old_briefs) as (names & _ & _ & _ & Hnames & Hdate).
  apply (Hdate "2024-01-10"); [reflexivity|].
  apply Hnames. exists "no header". split; reflexivity.
Defined.

(** Today's brief is listed under today's date. *)
Lemma stored_brief_is_listed_witness :
  (strftime_ymd (Briefs.arg_generated_at Cases.todays_brief),
   (Briefs.store_brief (py := Reference.lib) Cases.todays_brief Cases.old_briefs).1)
  ∈ Briefs.list_briefs
      (Briefs.store_brief (py := Reference.lib) Cases.todays_brief Cases.old_briefs).2.
Proof.
  refine (proj2 (stored_brief_is_listed (py := Reference.lib) Cases.todays_brief
                   Cases.old_briefs _)).
  vm_compute. reflexivity.
Defined.

(** An identifier added to the empty index does not change the answer
    for another one. *)
Lemma dedup_add_survives_restart_witness :
  Deduplicator.exists_ (Deduplicator.add Scenario.empty_index "seen-1") "new-1"
  = Deduplicator.exists_ Scenario.empty_index "new-1".
Proof.
  destruct (dedup_add_survives_restart Scenario.empty_index "seen-1" ∅)
    as (_ & _ & Hother & _).
  apply Hother. discriminate.
Defined.

(** The tracker read back after a recorded failure knows the failure. *)
Lemma state_survives_restart_witness :
  exists self',
    SourceStateManager.init
      (SourceStateManager._state_file
         (record (py := Reference.lib) "tech-news" Scenario.empty_states
            (Failed Scenario.now (Exn "Exception" "timed out") (S754_zero false))))
    = Ok self'
    /\ SourceStateManager.consecutive_failures (state_of self' "tech-news") = 1%Z.
Proof.
  destruct (state_survives_restart (py := Reference.lib) "tech-news" Scenario.empty_states
              (Failed Scenario.now (Exn "Exception" "timed out") (S754_zero false)))
    as [Hinit _].
  eexists. split; [exact Hinit|]. vm_compute. reflexivity.
Defined.

(** ** The brief generator *)
Section GeneratorProofs.
Context {py : PyLib}.
Import BriefGenerator.

Lemma set_item_fresh {V} (k : string) (v : V) (d : list (string * V)) :
  k ∉ d.*1 -> set_item k v d = d ++ [(k, v)].
Proof.
  induction d as [|[k' v'] d IH]; intros Hk; [reflexivity|].
  simpl in *. apply not_elem_of_cons in Hk as [Hne Hk].
  destruct (String.eqb_spec k k'); [contradiction|].
  rewrite (IH Hk). reflexivity.
Qed.

Lemma ref_id_of_inj (i j : nat) : ref_id_of i = ref_id_of j -> i = j.
Proof.
  unfold ref_id_of. intros H. apply String.app_inj in H. apply pretty_nat_inj, H.
Qed.

Lemma ref_ids_of_records (l : list MarkdownStore.ContentFile) :
  (imap (fun i cf => (ref_id_of (S i), cf)) l).*1 = ref_id_of <$> seq 1 (List.length l).
Proof.
  rewrite fmap_imap.
  rewrite (imap_ext _ (fun j _ => ref_id_of (S j)) l) by reflexivity.
  rewrite (imap_seq_0 l (fun j => ref_id_of (S j))).
  rewrite <- fmap_S_seq, <- list_fmap_compose. reflexivity.
Qed.

Lemma NoDup_ref_ids (n : nat) : NoDup (ref_id_of <$> seq 1 n).
Proof.
  apply NoDup_fmap_2; [|apply NoDup_seq].
  intros i j. apply ref_id_of_inj.
Qed.

Lemma fold_articles (w : World) (content_files : list MarkdownStore.ContentFile) :
  forall lines,
  (foldl (add_article w) (lines, []) (imap (fun i cf => (S i, cf)) content_files)).2
  = imap (fun i cf => (ref_id_of (S i), cf)) content_files.
Proof.
  induction content_files as [|cf l IH] using rev_ind; intros lines; [reflexivity|].
  rewrite !imap_app, foldl_app. simpl.
  rewrite IH. rewrite set_item_fresh; [reflexivity|].
  rewrite ref_ids_of_records. intros Hin.
  apply list_elem_of_fmap in Hin as (j & Hj & Hin).
  apply ref_id_of_inj in Hj. subst j.
  apply elem_of_seq in Hin. lia.
Qed.

Lemma build_prompt_ref_map (w : World) (content_files : list MarkdownStore.ContentFile) :
  (_build_prompt w content_files []).2
  = imap (fun i cf => (ref_id_of (S i), cf)) content_files.
Proof. unfold _build_prompt. cbn [snd]. apply fold_articles. Qed.

Lemma source_map_keys (content_dir : MarkdownStore.path)
    (items : list (string * MarkdownStore.ContentFile)) :
  forall source_map source_map',
  source_map_of content_dir items source_map = Ok source_map' ->
  NoDup (source_map.*1 ++ items.*1) ->
  source_map'.*1 = source_map.*1 ++ items.*1.
Proof.
  induction items as [|[ref cf] items IH]; intros source_map source_map' Hrun Hnd.
  - simpl in Hrun. injection Hrun as <-. rewrite app_nil_r. reflexivity.
  - simpl in Hrun. apply bind_ok in Hrun as (rel & _ & Hrun).
    simpl in Hnd.
    assert (ref ∉ source_map.*1) as Hfresh.
    { apply NoDup_app in Hnd as (_ & Hdisj & _). intros Hin.
      apply (Hdisj _ Hin). left. }
    rewrite (set_item_fresh _ _ _ Hfresh) in Hrun.
    apply IH in Hrun; rewrite fmap_app in *; simpl in *; rewrite <- app_assoc in *;
      [exact Hrun | exact Hnd].
Qed.

Lemma window_start (w : World) (self : t) (window since : Z) :
  Datetime.timedelta_hours (_content_window_hours self) = Ok window ->
  Datetime.sub (utcnow w) window = Ok since ->
  since = (utcnow w - _content_window_hours self * 3600 * 1000000)%Z.
Proof.
  unfold Datetime.timedelta_hours, Datetime.sub.
  destruct (_ <=? _)%Z; [|discriminate]. intros [= <-].
  destruct (Datetime.in_range _); [|discriminate]. intros [= <-]. reflexivity.
Qed.

(** X27.  A dry run costs nothing and changes nothing: its result does
    not depend on the provider (nor on how values are formatted), and
    when it returns it returns [None] and leaves the briefs directory as
    it was. *)
Theorem generate_dry_run_is_free (w w' : World) (self : t) :
  utcnow w' = utcnow w ->
  generate w' true self = generate w true self
  /\ (forall answer self',
        generate w true self = Ok (answer, self') -> answer = None /\ self' = self).
Proof.
  intros Hclock. unfold generate. rewrite Hclock.
  destruct (Datetime.timedelta_hours (_content_window_hours self)) as [window|e];
    simpl; [|split; [reflexivity | discriminate]].
  destruct (Datetime.sub (utcnow w) window) as [since|e];
    simpl; [|split; [reflexivity | discriminate]].
  destruct (MarkdownStore.get_content_since (_store self) (Naive since)) as [[|cf l]|e];
    simpl; [| |split; [reflexivity | discriminate]].
  - split; [reflexivity|]. intros answer self' [= <- <-]. auto.
  - cbv zeta.
    destruct (hashable (MarkdownStore.source_id cf) && forallb _ l);
      split; try reflexivity; try discriminate.
    intros answer self' [= <- <-]. auto.
Qed.

(** X28.  What a run that is not a dry run leaves when it returns: the
    content store was read since the start of the window and is not
    touched; without a record fetched within the window nothing is
    written and [None] is returned; otherwise exactly one brief is
    written, with the provider's answer to the prompt as body, generated
    at the clock reading, its window reaching back
    [content_window_hours] hours from it, [sources_analyzed] the number
    of records in the window, and a source map with one entry per
    record, keyed [ref1], [ref2], ... in the order of the records. *)
Theorem generate_stores_one_brief (w : World) (self : t)
    (answer : option MarkdownStore.path) (self' : t) :
  generate w false self = Ok (answer, self') ->
  let since := (utcnow w - _content_window_hours self * 3600 * 1000000)%Z in
  exists content_files,
    MarkdownStore.get_content_since (_store self) (Naive since) = Ok content_files
    /\ _store self' = _store self
    /\ match answer with
       | None => content_files = [] /\ self' = self
       | Some brief_path =>
           exists response source_map,
             generate_completion w (_system_prompt self)
               (_build_prompt w content_files []).1 (_max_tokens self) = Ok response
             /\ _build_source_map (_content_dir self) (_build_prompt w content_files []).2
                = Ok source_map
             /\ source_map.*1 = ref_id_of <$> seq 1 (List.length content_files)
             /\ NoDup source_map.*1
             /\ (0 < List.length content_files)%nat
             /\ let brief :=
                  {| Briefs.arg_content := response;
                     Briefs.arg_generated_at := utcnow w;
                     Briefs.arg_window_from := since;
                     Briefs.arg_window_to := utcnow w;
                     Briefs.arg_sources_analyzed := Z.of_nat (List.length content_files);
                     Briefs.arg_model := _model self;
                     Briefs.arg_source_map := source_map |} in
                brief_path = (Briefs.store_brief brief (_briefs self)).1
                /\ _briefs self' = (Briefs.store_brief brief (_briefs self)).2
       end.
Proof.
  intros Hrun since. unfold generate in Hrun.
  apply bind_ok in Hrun as (window & Hwindow & Hrun).
  apply bind_ok in Hrun as (since0 & Hsince & Hrun).
  pose proof (window_start w self window since0 Hwindow Hsince) as ->.
  fold since in Hrun.
  apply bind_ok in Hrun as (content_files & Hread & Hrun).
  exists content_files. split; [exact Hread|]. clear Hread.
  destruct content_files as [|cf l] eqn:Hfiles.
  - injection Hrun as <- <-. auto.
  - cbv zeta in Hrun. rewrite <- Hfiles in *.
    apply bind_ok in Hrun as (response & Hresponse & Hrun).
    apply bind_ok in Hrun as (source_map & Hmap & Hrun).
    injection Hrun as <- <-. split; [reflexivity|].
    exists response, source_map.
    split; [exact Hresponse|]. split; [exact Hmap|].
    assert (source_map.*1 = ref_id_of <$> seq 1 (List.length content_files)) as Hkeys.
    { unfold _build_source_map in Hmap. rewrite build_prompt_ref_map in Hmap.
      apply source_map_keys in Hmap.
      - rewrite Hmap, ref_ids_of_records. reflexivity.
      - simpl. rewrite ref_ids_of_records. apply NoDup_ref_ids. }
    split; [exact Hkeys|]. split; [rewrite Hkeys; apply NoDup_ref_ids|].
    split; [rewrite Hfiles; simpl; lia|].
    split; reflexivity.
Qed.

End GeneratorProofs.

(** ** Source links *)
Section LinkProofs.
Context {py : PyLib}.
Import MarkdownStore.

Lemma parent_snoc (pre : path) (c : string) :
  pre <> [] \/ c <> "/" -> Pathlib.parent (pre ++ [c]) = pre.
Proof.
  intros Hc. unfold Pathlib.parent.
  rewrite bool_decide_eq_false_2; [apply removelast_last|].
  intros Heq. destruct pre as [|a [|b pre]]; simpl in Heq; [|discriminate..].
  destruct Hc as [Hc | Hc]; congruence.
Qed.

Lemma strip_app (pre rest : path) : Pathlib.strip pre (pre ++ rest) = Some rest.
Proof.
  induction pre as [|c pre IH]; [destruct rest; reflexivity|].
  simpl. rewrite String.eqb_refl. exact IH.
Qed.

Lemma strip_other (pre rest : path) (a d : string) :
  a <> d -> Pathlib.strip (pre ++ [d]) (pre ++ a :: rest) = None.
Proof.
  intros Hne. induction pre as [|c pre IH]; simpl.
  - destruct (String.eqb_spec d a); [congruence | reflexivity].
  - rewrite String.eqb_refl. exact IH.
Qed.

Lemma plain_not_root (s : string) : plain s -> s <> "/".
Proof. intros (Hchars & _ & _) ->. discriminate Hchars. Qed.

Lemma split_plain_cons (a rest : string) :
  all_chars (fun c => negb (Ascii.eqb "/" c)) a = true ->
  PyStr.split "/" (a +:+ "/" +:+ rest) = a :: PyStr.split "/" rest.
Proof.
  induction a as [|c a IH]; intros Ha.
  - reflexivity.
  - cbn [all_chars] in Ha. apply andb_prop in Ha as [Hc Ha].
    change (String c a +:+ "/" +:+ rest) with (String c (a +:+ "/" +:+ rest)).
    cbn [PyStr.split]. rewrite Ascii.eqb_sym.
    apply negb_true_iff in Hc. rewrite Hc, (IH Ha). reflexivity.
Qed.

Lemma startswith_plain (a rest : string) :
  plain a -> PyStr.startswith "/" (a +:+ rest) = false.
Proof.
  intros (Hchars & Hne & _). destruct a as [|c a]; [congruence|].
  change (String c a +:+ rest) with (String c (a +:+ rest)).
  rewrite startswith_char. cbn [all_chars] in Hchars.
  apply andb_prop in Hchars as [Hc _]. apply negb_true_iff, Hc.
Qed.

(** A link of three plain components leads to these components below
    [base]. *)
Lemma joinpath_link (base : path) (a b c : string) :
  plain a -> plain b -> plain c ->
  joinpath base (a +:+ "/" +:+ b +:+ "/" +:+ c) = base ++ [a; b; c].
Proof.
  intros Ha Hb Hc. unfold joinpath.
  rewrite (startswith_plain a _ Ha).
  unfold parts.
  rewrite (split_plain_cons a _ (proj1 Ha)), (split_plain_cons b _ (proj1 Hb)).
  rewrite (split_no_sep _ _ (proj1 Hc)).
  destruct Ha as (_ & Ha1 & Ha2), Hb as (_ & Hb1 & Hb2), Hc as (_ & Hc1 & Hc2).
  rewrite !filter_cons_True by (split; assumption).
  reflexivity.
Qed.

Lemma bind_value {B C} (a : B) (f : B -> result C) : Ok a ≫= f = f a.
Proof. reflexivity. Qed.

Lemma parse_at_other_path (p p' : path) (text : string) (cf : ContentFile) :
  _parse_content_file p text = Some cf ->
  _parse_content_file p' text = Some (with_file_path p' cf).
Proof.
  unfold _parse_content_file. intros H. apply catch_all_some in H.
  destruct (negb _); [discriminate|].
  destruct (_ <? 0)%Z; [discriminate|].
  cbv zeta in *.
  repeat (apply bind_ok in H as (? & Hstep & H); rewrite Hstep, bind_value; clear Hstep).
  injection H as <-. reflexivity.
Qed.

(** The path recorded for a record: the last three components of the
    path of its file. *)
Lemma source_map_last_three (pre : path) (a b c ref : string) (content_dir : path)
    (cf : ContentFile) :
  a <> "/" ->
  content_dir ++ file_path cf = pre ++ [a; b; c] ->
  BriefGenerator._build_source_map content_dir [(ref, cf)]
  = Ok [(ref, a +:+ "/" +:+ b +:+ "/" +:+ c)].
Proof.
  intros Ha Hpath. unfold BriefGenerator._build_source_map. simpl.
  rewrite Hpath.
  change (pre ++ [a; b; c]) with (pre ++ [a; b] ++ [c]) at 2.
  rewrite (app_assoc pre [a; b] [c]).
  rewrite (parent_snoc (pre ++ [a; b]) c) by (left; destruct pre; discriminate).
  change (pre ++ [a; b]) with (pre ++ [a] ++ [b]).
  rewrite (app_assoc pre [a] [b]).
  rewrite (parent_snoc (pre ++ [a]) b) by (left; destruct pre; discriminate).
  rewrite (parent_snoc pre a) by (right; exact Ha).
  unfold Pathlib.relative_to. rewrite strip_app.
  destruct (String.eqb_spec a "/"); [contradiction|].
  rewrite bind_value. unfold Pathlib.str.
  destruct (String.eqb_spec a "/"); [contradiction|]. reflexivity.
Qed.

(** X29.  For a record in a source directory that lies directly in the
    content directory, the path the generator records in the source map
    is [<content dir name>/<source dir>/<file name>], and
    [get_content_by_path] on that path reads the same file and returns
    the same record. *)
Theorem source_link_leads_back (base : path) (dirname sid name ref text : string)
    (elsewhere : path -> option string) (st : MarkdownStore.t) (cf : ContentFile) :
  plain dirname -> plain sid -> plain name ->
  files st !! [sid; name] = Some text ->
  _parse_content_file [sid; name] text = Some cf ->
  let content_dir := base ++ [dirname] in
  let link := dirname +:+ "/" +:+ sid +:+ "/" +:+ name in
  BriefGenerator._build_source_map content_dir [(ref, cf)] = Ok [(ref, link)]
  /\ get_content_by_path content_dir elsewhere st link
     = Some (with_file_path (content_dir ++ [sid; name]) cf).
Proof.
  intros Hdir Hsid Hname Hfile Hparse content_dir link. split.
  - apply (source_map_last_three base); [apply plain_not_root, Hdir|].
    rewrite (parse_file_path _ _ _ Hparse). subst content_dir.
    rewrite <- app_assoc. reflexivity.
  - unfold get_content_by_path. subst content_dir link.
    rewrite (parent_snoc base dirname) by (right; apply plain_not_root, Hdir).
    rewrite (joinpath_link base _ _ _ Hdir Hsid Hname).
    change (base ++ [dirname; sid; name]) with (base ++ [dirname] ++ [sid; name]).
    rewrite app_assoc. cbv zeta.
    unfold read_file. rewrite strip_app, Hfile.
    apply (parse_at_other_path _ _ _ _ Hparse).
Qed.

(** X30.  For a record whose source directory lies one directory deeper
    (a source id with two components), the recorded path starts at the
    outer of the two and not at the content directory; unless that
    directory has the name of the content directory,
    [get_content_by_path] on the recorded path does not look into the
    content store but at a path beside it. *)
Theorem nested_source_link_misses_store (base : path) (dirname outer inner name ref : string)
    (elsewhere : path -> option string) (st : MarkdownStore.t) (cf : ContentFile) :
  plain dirname -> plain outer -> plain inner -> plain name ->
  file_path cf = [outer; inner; name] ->
  outer <> dirname ->
  let content_dir := base ++ [dirname] in
  let link := outer +:+ "/" +:+ inner +:+ "/" +:+ name in
  BriefGenerator._build_source_map content_dir [(ref, cf)] = Ok [(ref, link)]
  /\ get_content_by_path content_dir elsewhere st link
     = match elsewhere (base ++ [outer; inner; name]) with
       | Some text => _parse_content_file (base ++ [outer; inner; name]) text
       | None => None
       end.
Proof.
  intros Hdir Houter Hinner Hname Hpath Hne content_dir link. split.
  - apply (source_map_last_three (base ++ [dirname])); [apply plain_not_root, Houter|].
    rewrite Hpath. reflexivity.
  - unfold get_content_by_path. subst content_dir link.
    rewrite (parent_snoc base dirname) by (right; apply plain_not_root, Hdir).
    rewrite (joinpath_link base _ _ _ Houter Hinner Hname).
    cbv zeta. unfold read_file.
    rewrite (strip_other base [inner; name] outer dirname Hne). reflexivity.
Qed.

End LinkProofs.

(** A dry run with the provider out of reach ends as one with it. *)
Lemma generate_dry_run_is_free_witness :
  BriefGenerator.generate (py := Reference.lib) Cases.offline true Cases.generator
  = BriefGenerator.generate (py := Reference.lib) Cases.world true Cases.generator.
Proof.
  refine (proj1 (generate_dry_run_is_free (py := Reference.lib) Cases.world Cases.offline
                   Cases.generator _)).
  reflexivity.
Defined.

(** The scenario's store holds one record of the last two days: a brief
    with one source is written. *)
Lemma generate_stores_one_brief_witness :
  exists brief_path self',
    BriefGenerator.generate (py := Reference.lib) Cases.world false Cases.generator
    = Ok (Some brief_path, self')
    /\ BriefGenerator._store self' = BriefGenerator._store Cases.generator.
Proof.
  destruct (BriefGenerator.generate (py := Reference.lib) Cases.world false Cases.generator)
    as [[[brief_path|] self']|e] eqn:Hrun.
  - exists brief_path, self'. split; [reflexivity|].
    destruct (generate_stores_one_brief (py := Reference.lib) Cases.world
                Cases.generator (Some brief_path) self' Hrun)
      as (content_files & _ & Hstore & _).
    exact Hstore.
  - vm_compute in Hrun. discriminate Hrun.
  - vm_compute in Hrun. discriminate Hrun.
Defined.

(** The link recorded for [seen_item] leads back to it. *)
Lemma source_link_leads_back_witness :
  MarkdownStore.get_content_by_path (py := Reference.lib) ["data"; "content"]
    (fun _ => None) (Coordinator._store Scenario.coordinator)
    "content/tech-news/2024-01-14-seen-before.md"
  = Some (with_file_path ["data"; "content"; "tech-news"; "2024-01-14-seen-before.md"]
            (read_back Scenario.seen_item)).
Proof.
  refine (proj2 (source_link_leads_back (py := Reference.lib) ["data"] "content"
                   "tech-news" "2024-01-14-seen-before.md" "ref1"
                   (MarkdownStore.md_content_of Scenario.seen_item)
                   (fun _ => None) (Coordinator._store Scenario.coordinator)
                   (read_back Scenario.seen_item) _ _ _ _ _)).
  - split; [reflexivity | split; discriminate].
  - split; [reflexivity | split; discriminate].
  - split; [reflexivity | split; discriminate].
  - vm_compute. reflexivity.
  - vm_compute. reflexivity.
Defined.

(** A record of the source [blogs/tech]: the recorded link starts at
    [blogs], where nothing is found. *)
Lemma nested_source_link_misses_store_witness :
  BriefGenerator._build_source_map ["data"; "content"]
    [("ref1", with_file_path ["blogs"; "tech"; "2024-01-14-seen-before.md"]
                (read_back (py := Reference.lib) Scenario.seen_item))]
  = Ok [("ref1", "blogs/tech/2024-01-14-seen-before.md")]
  /\ MarkdownStore.get_content_by_path (py := Reference.lib) ["data"; "content"]
       (fun _ => None) (Coordinator._store Scenario.coordinator)
       "blogs/tech/2024-01-14-seen-before.md"
     = None.
Proof.
  refine (nested_source_link_misses_store (py := Reference.lib) ["data"] "content"
            "blogs" "tech" "2024-01-14-seen-before.md" "ref1"
            (fun _ => None) (Coordinator._store Scenario.coordinator)
            (with_file_path ["blogs"; "tech"; "2024-01-14-seen-before.md"]
               (read_back (py := Reference.lib) Scenario.seen_item)) _ _ _ _ _ _).
  - split; [reflexivity | split; discriminate].
  - split; [reflexivity | split; discriminate].
  - split; [reflexivity | split; discriminate].
  - split; [reflexivity | split; discriminate].
  - reflexivity.
  - discriminate.
Defined.
